(** * Convolution call builders of [src/relay/op/nn/convolution_make.h]

    A shallow embedding of the six template functions [MakeConv],
    [MakeFusedConv2D], [MakeConvWinograd], [MakeConvGemm],
    [MakeConvTranspose] and [MakeDeformableConv], and the properties
    their callers rely on: which inputs are bound and in which order,
    which attribute fields are written and with which values, and how
    the operator lookup fails. *)

From Stdlib Require Import ZArith.
From stdpp Require Import base strings list gmap.

Set Implicit Arguments.
Local Open Scope Z_scope.

(** ** Values handled by the builders *)

(** A C++ [int].  The builders only copy such values; no arithmetic is
    performed on them, so no wrap-around can occur inside this file. *)
Definition int : Type := Z.

(** [tvm::Array<T>]: an ordered sequence. *)
Definition Array (T : Type) : Type := list T.

(** Modelled from the spec: [IndexExpr] is declared outside this header
    (it is the IR's symbolic integer expression).  The builders never
    inspect one, so constants and named symbols suffice. *)
Inductive IndexExpr : Type :=
| IntImm (value : Z)
| SizeVar (name_hint : string).

(** Modelled from the spec: the type codes of [DataType], which is
    declared outside this header. *)
Inductive TypeCode : Type := kInt | kUInt | kFloat | kHandle.

(** Modelled from the spec: [DataType] is declared outside this header;
    a type code, a bit width and a lane count, as the name
    [float32] = float, 32 bits, 1 lane suggests. *)
Record DataType : Type := mkDataType
  { code : TypeCode; bits : Z; lanes : Z }.

(** [DataType::Float(bits)]: the scalar floating-point type of that
    width; [Float 32] is [float32]. *)
Definition Float (b : Z) : DataType := mkDataType kFloat b 1.

(** Modelled from the spec: an operator descriptor is a registered
    entity identified by a name string, recording the arity it
    expects. *)
Record Op : Type := mkOp
  { name : string; num_inputs : Z }.

(** Modelled from the spec: relay types, only ever passed as the empty
    type-argument list [{}]. *)
Inductive RelayType : Type :=
| TensorType (shape : Array IndexExpr) (dtype : DataType).

(** ** Attribute records

    The attribute record types are declared in [tvm/relay/attrs/nn.h],
    which is not part of this header.  Each builder is a template over
    the record type [T] and only requires [T] to have the fields it
    assigns; the records below have exactly those fields, with the types
    of the values assigned to them.

    Every record comes with a typed enumeration of its fields
    ([field A] is a field holding an [A]), the field's name, and the
    field write [store], so that an assignment [attrs->f = v] is
    [store f v attrs]. *)

(** A record type with named, typed fields that can be read and
    assigned. *)
Class Struct (T : Type) : Type :=
  { field : Type -> Type;
    field_name : forall A : Type, field A -> string;
    load : forall A : Type, field A -> T -> A;
    store : forall A : Type, field A -> A -> T -> T }.

Arguments field T {_} _.
Arguments field_name {T _ A} _.
Arguments load {T _ A} _ _.
Arguments store {T _ A} _ _ _.

(** Modelled from the spec: the attribute record type is declared
    outside this header.  The record assigned by [MakeConv] and
    [MakeConvGemm]: strides, padding, dilation, groups, channel count,
    kernel size, the three layouts and the output dtype. *)
Module ConvAttrs.

Record t : Type := mk
  { strides : Array IndexExpr;
    padding : Array IndexExpr;
    dilation : Array IndexExpr;
    groups : int;
    channels : IndexExpr;
    kernel_size : Array IndexExpr;
    data_layout : string;
    kernel_layout : string;
    out_layout : string;
    out_dtype : DataType }.

(** The fields, indexed by the type of what they hold. *)
Inductive fld : Type -> Type :=
| strides_ : fld (Array IndexExpr)
| padding_ : fld (Array IndexExpr)
| dilation_ : fld (Array IndexExpr)
| groups_ : fld int
| channels_ : fld IndexExpr
| kernel_size_ : fld (Array IndexExpr)
| data_layout_ : fld string
| kernel_layout_ : fld string
| out_layout_ : fld string
| out_dtype_ : fld DataType.

(** The name of a field in the C++ struct. *)
Definition fld_name (A : Type) (f : fld A) : string :=
  match f with
  | strides_ => "strides"
  | padding_ => "padding"
  | dilation_ => "dilation"
  | groups_ => "groups"
  | channels_ => "channels"
  | kernel_size_ => "kernel_size"
  | data_layout_ => "data_layout"
  | kernel_layout_ => "kernel_layout"
  | out_layout_ => "out_layout"
  | out_dtype_ => "out_dtype"
  end.

(** [attrs->f = v]: only field [f] changes. *)
Definition set (A : Type) (f : fld A) : A -> t -> t :=
  match f in fld A return A -> t -> t with
  | strides_ => fun v a =>
      mk v (padding a) (dilation a) (groups a) (channels a) (kernel_size a)
        (data_layout a) (kernel_layout a) (out_layout a) (out_dtype a)
  | padding_ => fun v a =>
      mk (strides a) v (dilation a) (groups a) (channels a) (kernel_size a)
        (data_layout a) (kernel_layout a) (out_layout a) (out_dtype a)
  | dilation_ => fun v a =>
      mk (strides a) (padding a) v (groups a) (channels a) (kernel_size a)
        (data_layout a) (kernel_layout a) (out_layout a) (out_dtype a)
  | groups_ => fun v a =>
      mk (strides a) (padding a) (dilation a) v (channels a) (kernel_size a)
        (data_layout a) (kernel_layout a) (out_layout a) (out_dtype a)
  | channels_ => fun v a =>
      mk (strides a) (padding a) (dilation a) (groups a) v (kernel_size a)
        (data_layout a) (kernel_layout a) (out_layout a) (out_dtype a)
  | kernel_size_ => fun v a =>
      mk (strides a) (padding a) (dilation a) (groups a) (channels a) v
        (data_layout a) (kernel_layout a) (out_layout a) (out_dtype a)
  | data_layout_ => fun v a =>
      mk (strides a) (padding a) (dilation a) (groups a) (channels a)
        (kernel_size a) v (kernel_layout a) (out_layout a) (out_dtype a)
  | kernel_layout_ => fun v a =>
      mk (strides a) (padding a) (dilation a) (groups a) (channels a)
        (kernel_size a) (data_layout a) v (out_layout a) (out_dtype a)
  | out_layout_ => fun v a =>
      mk (strides a) (padding a) (dilation a) (groups a) (channels a)
        (kernel_size a) (data_layout a) (kernel_layout a) v (out_dtype a)
  | out_dtype_ => fun v a =>
      mk (strides a) (padding a) (dilation a) (groups a) (channels a)
        (kernel_size a) (data_layout a) (kernel_layout a) (out_layout a) v
  end.

(** [attrs->f]: the content of field [f]. *)
Definition get (A : Type) (f : fld A) : t -> A :=
  match f in fld A return t -> A with
  | strides_ => strides
  | padding_ => padding
  | dilation_ => dilation
  | groups_ => groups
  | channels_ => channels
  | kernel_size_ => kernel_size
  | data_layout_ => data_layout
  | kernel_layout_ => kernel_layout
  | out_layout_ => out_layout
  | out_dtype_ => out_dtype
  end.

End ConvAttrs.

#[export] Instance ConvAttrs_Struct : Struct ConvAttrs.t :=
  {| field := ConvAttrs.fld;
     field_name := ConvAttrs.fld_name;
     load := ConvAttrs.get;
     store := ConvAttrs.set |}.

(** Modelled from the spec: [tvm::Integer], declared outside this
    header, is a boxed integer constant, as held in [Array<Integer>]. *)
Definition Integer : Type := Z.

(** Modelled from the spec: the attribute record type is declared
    outside this header.  The record assigned by [MakeFusedConv2D]: a
    layer count and one
    sequence per configuration item, with one entry per fused layer. *)
Module FusedConv2DAttrs.

Record t : Type := mk
  { num_layers : int;
    strides_array : Array (Array IndexExpr);
    padding_array : Array (Array IndexExpr);
    dilation_array : Array (Array IndexExpr);
    groups_array : Array Integer;
    channels_array : Array IndexExpr;
    kernel_size_array : Array (Array IndexExpr);
    post_op_array : Array string;
    data_layout_array : Array string;
    kernel_layout_array : Array string;
    out_layout_array : Array string;
    out_dtype : DataType }.

(** The fields, indexed by the type of what they hold. *)
Inductive fld : Type -> Type :=
| num_layers_ : fld int
| strides_array_ : fld (Array (Array IndexExpr))
| padding_array_ : fld (Array (Array IndexExpr))
| dilation_array_ : fld (Array (Array IndexExpr))
| groups_array_ : fld (Array Integer)
| channels_array_ : fld (Array IndexExpr)
| kernel_size_array_ : fld (Array (Array IndexExpr))
| post_op_array_ : fld (Array string)
| data_layout_array_ : fld (Array string)
| kernel_layout_array_ : fld (Array string)
| out_layout_array_ : fld (Array string)
| out_dtype_ : fld DataType.

(** The name of a field in the C++ struct. *)
Definition fld_name (A : Type) (f : fld A) : string :=
  match f with
  | num_layers_ => "num_layers"
  | strides_array_ => "strides_array"
  | padding_array_ => "padding_array"
  | dilation_array_ => "dilation_array"
  | groups_array_ => "groups_array"
  | channels_array_ => "channels_array"
  | kernel_size_array_ => "kernel_size_array"
  | post_op_array_ => "post_op_array"
  | data_layout_array_ => "data_layout_array"
  | kernel_layout_array_ => "kernel_layout_array"
  | out_layout_array_ => "out_layout_array"
  | out_dtype_ => "out_dtype"
  end.

(** [attrs->f = v]: only field [f] changes. *)
Definition set (A : Type) (f : fld A) : A -> t -> t :=
  match f in fld A return A -> t -> t with
  | num_layers_ => fun v a =>
      mk v (strides_array a) (padding_array a) (dilation_array a)
        (groups_array a) (channels_array a) (kernel_size_array a)
        (post_op_array a) (data_layout_array a) (kernel_layout_array a)
        (out_layout_array a) (out_dtype a)
  | strides_array_ => fun v a =>
      mk (num_layers a) v (padding_array a) (dilation_array a)
        (groups_array a) (channels_array a) (kernel_size_array a)
        (post_op_array a) (data_layout_array a) (kernel_layout_array a)
        (out_layout_array a) (out_dtype a)
  | padding_array_ => fun v a =>
      mk (num_layers a) (strides_array a) v (dilation_array a)
        (groups_array a) (channels_array a) (kernel_size_array a)
        (post_op_array a) (data_layout_array a) (kernel_layout_array a)
        (out_layout_array a) (out_dtype a)
  | dilation_array_ => fun v a =>
      mk (num_layers a) (strides_array a) (padding_array a) v
        (groups_array a) (channels_array a) (kernel_size_array a)
        (post_op_array a) (data_layout_array a) (kernel_layout_array a)
        (out_layout_array a) (out_dtype a)
  | groups_array_ => fun v a =>
      mk (num_layers a) (strides_array a) (padding_array a)
        (dilation_array a) v (channels_array a) (kernel_size_array a)
        (post_op_array a) (data_layout_array a) (kernel_layout_array a)
        (out_layout_array a) (out_dtype a)
  | channels_array_ => fun v a =>
      mk (num_layers a) (strides_array a) (padding_array a)
        (dilation_array a) (groups_array a) v (kernel_size_array a)
        (post_op_array a) (data_layout_array a) (kernel_layout_array a)
        (out_layout_array a) (out_dtype a)
  | kernel_size_array_ => fun v a =>
      mk (num_layers a) (strides_array a) (padding_array a)
        (dilation_array a) (groups_array a) (channels_array a) v
        (post_op_array a) (data_layout_array a) (kernel_layout_array a)
        (out_layout_array a) (out_dtype a)
  | post_op_array_ => fun v a =>
      mk (num_layers a) (strides_array a) (padding_array a)
        (dilation_array a) (groups_array a) (channels_array a)
        (kernel_size_array a) v (data_layout_array a)
        (kernel_layout_array a) (out_layout_array a) (out_dtype a)
  | data_layout_array_ => fun v a =>
      mk (num_layers a) (strides_array a) (padding_array a)
        (dilation_array a) (groups_array a) (channels_array a)
        (kernel_size_array a) (post_op_array a) v (kernel_layout_array a)
        (out_layout_array a) (out_dtype a)
  | kernel_layout_array_ => fun v a =>
      mk (num_layers a) (strides_array a) (padding_array a)
        (dilation_array a) (groups_array a) (channels_array a)
        (kernel_size_array a) (post_op_array a) (data_layout_array a) v
        (out_layout_array a) (out_dtype a)
  | out_layout_array_ => fun v a =>
      mk (num_layers a) (strides_array a) (padding_array a)
        (dilation_array a) (groups_array a) (channels_array a)
        (kernel_size_array a) (post_op_array a) (data_layout_array a)
        (kernel_layout_array a) v (out_dtype a)
  | out_dtype_ => fun v a =>
      mk (num_layers a) (strides_array a) (padding_array a)
        (dilation_array a) (groups_array a) (channels_array a)
        (kernel_size_array a) (post_op_array a) (data_layout_array a)
        (kernel_layout_array a) (out_layout_array a) v
  end.

(** [attrs->f]: the content of field [f]. *)
Definition get (A : Type) (f : fld A) : t -> A :=
  match f in fld A return t -> A with
  | num_layers_ => num_layers
  | strides_array_ => strides_array
  | padding_array_ => padding_array
  | dilation_array_ => dilation_array
  | groups_array_ => groups_array
  | channels_array_ => channels_array
  | kernel_size_array_ => kernel_size_array
  | post_op_array_ => post_op_array
  | data_layout_array_ => data_layout_array
  | kernel_layout_array_ => kernel_layout_array
  | out_layout_array_ => out_layout_array
  | out_dtype_ => out_dtype
  end.

End FusedConv2DAttrs.

#[export] Instance FusedConv2DAttrs_Struct : Struct FusedConv2DAttrs.t :=
  {| field := FusedConv2DAttrs.fld;
     field_name := FusedConv2DAttrs.fld_name;
     load := FusedConv2DAttrs.get;
     store := FusedConv2DAttrs.set |}.

(** Modelled from the spec: the attribute record type is declared
    outside this header.  The record assigned by [MakeConvWinograd]: the
    plain fields and a tile size. *)
Module ConvWinogradAttrs.

Record t : Type := mk
  { tile_size : int;
    strides : Array IndexExpr;
    padding : Array IndexExpr;
    dilation : Array IndexExpr;
    groups : int;
    channels : IndexExpr;
    kernel_size : Array IndexExpr;
    data_layout : string;
    kernel_layout : string;
    out_layout : string;
    out_dtype : DataType }.

(** The fields, indexed by the type of what they hold. *)
Inductive fld : Type -> Type :=
| tile_size_ : fld int
| strides_ : fld (Array IndexExpr)
| padding_ : fld (Array IndexExpr)
| dilation_ : fld (Array IndexExpr)
| groups_ : fld int
| channels_ : fld IndexExpr
| kernel_size_ : fld (Array IndexExpr)
| data_layout_ : fld string
| kernel_layout_ : fld string
| out_layout_ : fld string
| out_dtype_ : fld DataType.

(** The name of a field in the C++ struct. *)
Definition fld_name (A : Type) (f : fld A) : string :=
  match f with
  | tile_size_ => "tile_size"
  | strides_ => "strides"
  | padding_ => "padding"
  | dilation_ => "dilation"
  | groups_ => "groups"
  | channels_ => "channels"
  | kernel_size_ => "kernel_size"
  | data_layout_ => "data_layout"
  | kernel_layout_ => "kernel_layout"
  | out_layout_ => "out_layout"
  | out_dtype_ => "out_dtype"
  end.

(** [attrs->f = v]: only field [f] changes. *)
Definition set (A : Type) (f : fld A) : A -> t -> t :=
  match f in fld A return A -> t -> t with
  | tile_size_ => fun v a =>
      mk v (strides a) (padding a) (dilation a) (groups a) (channels a)
        (kernel_size a) (data_layout a) (kernel_layout a) (out_layout a)
        (out_dtype a)
  | strides_ => fun v a =>
      mk (tile_size a) v (padding a) (dilation a) (groups a) (channels a)
        (kernel_size a) (data_layout a) (kernel_layout a) (out_layout a)
        (out_dtype a)
  | padding_ => fun v a =>
      mk (tile_size a) (strides a) v (dilation a) (groups a) (channels a)
        (kernel_size a) (data_layout a) (kernel_layout a) (out_layout a)
        (out_dtype a)
  | dilation_ => fun v a =>
      mk (tile_size a) (strides a) (padding a) v (groups a) (channels a)
        (kernel_size a) (data_layout a) (kernel_layout a) (out_layout a)
        (out_dtype a)
  | groups_ => fun v a =>
      mk (tile_size a) (strides a) (padding a) (dilation a) v (channels a)
        (kernel_size a) (data_layout a) (kernel_layout a) (out_layout a)
        (out_dtype a)
  | channels_ => fun v a =>
      mk (tile_size a) (strides a) (padding a) (dilation a) (groups a) v
        (kernel_size a) (data_layout a) (kernel_layout a) (out_layout a)
        (out_dtype a)
  | kernel_size_ => fun v a =>
      mk (tile_size a) (strides a) (padding a) (dilation a) (groups a)
        (channels a) v (data_layout a) (kernel_layout a) (out_layout a)
        (out_dtype a)
  | data_layout_ => fun v a =>
      mk (tile_size a) (strides a) (padding a) (dilation a) (groups a)
        (channels a) (kernel_size a) v (kernel_layout a) (out_layout a)
        (out_dtype a)
  | kernel_layout_ => fun v a =>
      mk (tile_size a) (strides a) (padding a) (dilation a) (groups a)
        (channels a) (kernel_size a) (data_layout a) v (out_layout a)
        (out_dtype a)
  | out_layout_ => fun v a =>
      mk (tile_size a) (strides a) (padding a) (dilation a) (groups a)
        (channels a) (kernel_size a) (data_layout a) (kernel_layout a) v
        (out_dtype a)
  | out_dtype_ => fun v a =>
      mk (tile_size a) (strides a) (padding a) (dilation a) (groups a)
        (channels a) (kernel_size a) (data_layout a) (kernel_layout a)
        (out_layout a) v
  end.

(** [attrs->f]: the content of field [f]. *)
Definition get (A : Type) (f : fld A) : t -> A :=
  match f in fld A return t -> A with
  | tile_size_ => tile_size
  | strides_ => strides
  | padding_ => padding
  | dilation_ => dilation
  | groups_ => groups
  | channels_ => channels
  | kernel_size_ => kernel_size
  | data_layout_ => data_layout
  | kernel_layout_ => kernel_layout
  | out_layout_ => out_layout
  | out_dtype_ => out_dtype
  end.

End ConvWinogradAttrs.

#[export] Instance ConvWinogradAttrs_Struct : Struct ConvWinogradAttrs.t :=
  {| field := ConvWinogradAttrs.fld;
     field_name := ConvWinogradAttrs.fld_name;
     load := ConvWinogradAttrs.get;
     store := ConvWinogradAttrs.set |}.

(** Modelled from the spec: the attribute record type is declared
    outside this header.  The record assigned by [MakeConvTranspose]:
    the plain fields and an output padding. *)
Module ConvTransposeAttrs.

Record t : Type := mk
  { strides : Array IndexExpr;
    padding : Array IndexExpr;
    dilation : Array IndexExpr;
    groups : int;
    channels : IndexExpr;
    kernel_size : Array IndexExpr;
    data_layout : string;
    kernel_layout : string;
    out_layout : string;
    output_padding : Array IndexExpr;
    out_dtype : DataType }.

(** The fields, indexed by the type of what they hold. *)
Inductive fld : Type -> Type :=
| strides_ : fld (Array IndexExpr)
| padding_ : fld (Array IndexExpr)
| dilation_ : fld (Array IndexExpr)
| groups_ : fld int
| channels_ : fld IndexExpr
| kernel_size_ : fld (Array IndexExpr)
| data_layout_ : fld string
| kernel_layout_ : fld string
| out_layout_ : fld string
| output_padding_ : fld (Array IndexExpr)
| out_dtype_ : fld DataType.

(** The name of a field in the C++ struct. *)
Definition fld_name (A : Type) (f : fld A) : string :=
  match f with
  | strides_ => "strides"
  | padding_ => "padding"
  | dilation_ => "dilation"
  | groups_ => "groups"
  | channels_ => "channels"
  | kernel_size_ => "kernel_size"
  | data_layout_ => "data_layout"
  | kernel_layout_ => "kernel_layout"
  | out_layout_ => "out_layout"
  | output_padding_ => "output_padding"
  | out_dtype_ => "out_dtype"
  end.

(** [attrs->f = v]: only field [f] changes. *)
Definition set (A : Type) (f : fld A) : A -> t -> t :=
  match f in fld A return A -> t -> t with
  | strides_ => fun v a =>
      mk v (padding a) (dilation a) (groups a) (channels a) (kernel_size a)
        (data_layout a) (kernel_layout a) (out_layout a) (output_padding a)
        (out_dtype a)
  | padding_ => fun v a =>
      mk (strides a) v (dilation a) (groups a) (channels a) (kernel_size a)
        (data_layout a) (kernel_layout a) (out_layout a) (output_padding a)
        (out_dtype a)
  | dilation_ => fun v a =>
      mk (strides a) (padding a) v (groups a) (channels a) (kernel_size a)
        (data_layout a) (kernel_layout a) (out_layout a) (output_padding a)
        (out_dtype a)
  | groups_ => fun v a =>
      mk (strides a) (padding a) (dilation a) v (channels a) (kernel_size a)
        (data_layout a) (kernel_layout a) (out_layout a) (output_padding a)
        (out_dtype a)
  | channels_ => fun v a =>
      mk (strides a) (padding a) (dilation a) (groups a) v (kernel_size a)
        (data_layout a) (kernel_layout a) (out_layout a) (output_padding a)
        (out_dtype a)
  | kernel_size_ => fun v a =>
      mk (strides a) (padding a) (dilation a) (groups a) (channels a) v
        (data_layout a) (kernel_layout a) (out_layout a) (output_padding a)
        (out_dtype a)
  | data_layout_ => fun v a =>
      mk (strides a) (padding a) (dilation a) (groups a) (channels a)
        (kernel_size a) v (kernel_layout a) (out_layout a)
        (output_padding a) (out_dtype a)
  | kernel_layout_ => fun v a =>
      mk (strides a) (padding a) (dilation a) (groups a) (channels a)
        (kernel_size a) (data_layout a) v (out_layout a) (output_padding a)
        (out_dtype a)
  | out_layout_ => fun v a =>
      mk (strides a) (padding a) (dilation a) (groups a) (channels a)
        (kernel_size a) (data_layout a) (kernel_layout a) v
        (output_padding a) (out_dtype a)
  | output_padding_ => fun v a =>
      mk (strides a) (padding a) (dilation a) (groups a) (channels a)
        (kernel_size a) (data_layout a) (kernel_layout a) (out_layout a) v
        (out_dtype a)
  | out_dtype_ => fun v a =>
      mk (strides a) (padding a) (dilation a) (groups a) (channels a)
        (kernel_size a) (data_layout a) (kernel_layout a) (out_layout a)
        (output_padding a) v
  end.

(** [attrs->f]: the content of field [f]. *)
Definition get (A : Type) (f : fld A) : t -> A :=
  match f in fld A return t -> A with
  | strides_ => strides
  | padding_ => padding
  | dilation_ => dilation
  | groups_ => groups
  | channels_ => channels
  | kernel_size_ => kernel_size
  | data_layout_ => data_layout
  | kernel_layout_ => kernel_layout
  | out_layout_ => out_layout
  | output_padding_ => output_padding
  | out_dtype_ => out_dtype
  end.

End ConvTransposeAttrs.

#[export] Instance ConvTransposeAttrs_Struct : Struct ConvTransposeAttrs.t :=
  {| field := ConvTransposeAttrs.fld;
     field_name := ConvTransposeAttrs.fld_name;
     load := ConvTransposeAttrs.get;
     store := ConvTransposeAttrs.set |}.

(** Modelled from the spec: the attribute record type is declared
    outside this header.  The record assigned by [MakeDeformableConv].
    This builder receives [channels] as a C++ [int], and the spec keeps
    that narrower type, so the field holds an [int]. *)
Module DeformableConvAttrs.

Record t : Type := mk
  { strides : Array IndexExpr;
    padding : Array IndexExpr;
    dilation : Array IndexExpr;
    deformable_groups : int;
    groups : int;
    channels : int;
    kernel_size : Array IndexExpr;
    data_layout : string;
    kernel_layout : string;
    out_layout : string;
    out_dtype : DataType }.

(** The fields, indexed by the type of what they hold. *)
Inductive fld : Type -> Type :=
| strides_ : fld (Array IndexExpr)
| padding_ : fld (Array IndexExpr)
| dilation_ : fld (Array IndexExpr)
| deformable_groups_ : fld int
| groups_ : fld int
| channels_ : fld int
| kernel_size_ : fld (Array IndexExpr)
| data_layout_ : fld string
| kernel_layout_ : fld string
| out_layout_ : fld string
| out_dtype_ : fld DataType.

(** The name of a field in the C++ struct. *)
Definition fld_name (A : Type) (f : fld A) : string :=
  match f with
  | strides_ => "strides"
  | padding_ => "padding"
  | dilation_ => "dilation"
  | deformable_groups_ => "deformable_groups"
  | groups_ => "groups"
  | channels_ => "channels"
  | kernel_size_ => "kernel_size"
  | data_layout_ => "data_layout"
  | kernel_layout_ => "kernel_layout"
  | out_layout_ => "out_layout"
  | out_dtype_ => "out_dtype"
  end.

(** [attrs->f = v]: only field [f] changes. *)
Definition set (A : Type) (f : fld A) : A -> t -> t :=
  match f in fld A return A -> t -> t with
  | strides_ => fun v a =>
      mk v (padding a) (dilation a) (deformable_groups a) (groups a)
        (channels a) (kernel_size a) (data_layout a) (kernel_layout a)
        (out_layout a) (out_dtype a)
  | padding_ => fun v a =>
      mk (strides a) v (dilation a) (deformable_groups a) (groups a)
        (channels a) (kernel_size a) (data_layout a) (kernel_layout a)
        (out_layout a) (out_dtype a)
  | dilation_ => fun v a =>
      mk (strides a) (padding a) v (deformable_groups a) (groups a)
        (channels a) (kernel_size a) (data_layout a) (kernel_layout a)
        (out_layout a) (out_dtype a)
  | deformable_groups_ => fun v a =>
      mk (strides a) (padding a) (dilation a) v (groups a) (channels a)
        (kernel_size a) (data_layout a) (kernel_layout a) (out_layout a)
        (out_dtype a)
  | groups_ => fun v a =>
      mk (strides a) (padding a) (dilation a) (deformable_groups a) v
        (channels a) (kernel_size a) (data_layout a) (kernel_layout a)
        (out_layout a) (out_dtype a)
  | channels_ => fun v a =>
      mk (strides a) (padding a) (dilation a) (deformable_groups a)
        (groups a) v (kernel_size a) (data_layout a) (kernel_layout a)
        (out_layout a) (out_dtype a)
  | kernel_size_ => fun v a =>
      mk (strides a) (padding a) (dilation a) (deformable_groups a)
        (groups a) (channels a) v (data_layout a) (kernel_layout a)
        (out_layout a) (out_dtype a)
  | data_layout_ => fun v a =>
      mk (strides a) (padding a) (dilation a) (deformable_groups a)
        (groups a) (channels a) (kernel_size a) v (kernel_layout a)
        (out_layout a) (out_dtype a)
  | kernel_layout_ => fun v a =>
      mk (strides a) (padding a) (dilation a) (deformable_groups a)
        (groups a) (channels a) (kernel_size a) (data_layout a) v
        (out_layout a) (out_dtype a)
  | out_layout_ => fun v a =>
      mk (strides a) (padding a) (dilation a) (deformable_groups a)
        (groups a) (channels a) (kernel_size a) (data_layout a)
        (kernel_layout a) v (out_dtype a)
  | out_dtype_ => fun v a =>
      mk (strides a) (padding a) (dilation a) (deformable_groups a)
        (groups a) (channels a) (kernel_size a) (data_layout a)
        (kernel_layout a) (out_layout a) v
  end.

(** [attrs->f]: the content of field [f]. *)
Definition get (A : Type) (f : fld A) : t -> A :=
  match f in fld A return t -> A with
  | strides_ => strides
  | padding_ => padding
  | dilation_ => dilation
  | deformable_groups_ => deformable_groups
  | groups_ => groups
  | channels_ => channels
  | kernel_size_ => kernel_size
  | data_layout_ => data_layout
  | kernel_layout_ => kernel_layout
  | out_layout_ => out_layout
  | out_dtype_ => out_dtype
  end.

End DeformableConvAttrs.

#[export] Instance DeformableConvAttrs_Struct : Struct DeformableConvAttrs.t :=
  {| field := DeformableConvAttrs.fld;
     field_name := DeformableConvAttrs.fld_name;
     load := DeformableConvAttrs.get;
     store := DeformableConvAttrs.set |}.

(** ** Call nodes *)

(** Modelled from the spec: [Attrs], declared outside this header, is
    the type-erased reference to an attribute record; the record keeps
    its dynamic type. *)
Inductive Attrs : Type :=
| AttrsConv (node : ConvAttrs.t)
| AttrsFusedConv2D (node : FusedConv2DAttrs.t)
| AttrsConvWinograd (node : ConvWinogradAttrs.t)
| AttrsConvTranspose (node : ConvTransposeAttrs.t)
| AttrsDeformableConv (node : DeformableConvAttrs.t).

(** Modelled from the spec: the call node, declared outside this
    header, holds what [Call(op, args, attrs, type_args)] is given: the
    descriptor, the ordered inputs, the attribute record and the type
    arguments. *)
Record CallNode (E : Type) : Type := mkCall
  { op : Op;
    args : Array E;
    attrs : Attrs;
    type_args : Array RelayType }.

Arguments op {E} _.
Arguments args {E} _.
Arguments attrs {E} _.
Arguments type_args {E} _.

(** Modelled from the spec: [Expr] is the IR's opaque value type; a
    call node is itself such a value.  [Var] stands for the input
    tensors the callers pass in. *)
#[warnings="-register-all"]
Inductive Expr : Type :=
| Var (name_hint : string)
| Call (node : CallNode Expr).

(** [e.as<CallNode>()]: the call node behind [e], if [e] is one. *)
Definition as_CallNode (e : Expr) : option (CallNode Expr) :=
  match e with
  | Call node => Some node
  | Var _ => None
  end.

(** ** Effects: exceptions, the operator registry, and a log

    A builder can throw (the failed check inside [Op::Get]) and reads
    the process-wide operator registry.  The registry is threaded as
    state, so that leaving it untouched is a theorem and not an
    assumption.  Next to the result, a computation yields the list of
    field assignments and registry lookups it performed, in program
    order. *)

(** The one error a builder can raise: no descriptor is registered
    under the name. *)
Inductive Error : Type :=
| UnknownOperator (op_name : string).

(** A returned value, or a thrown error. *)
Inductive Result (A : Type) : Type :=
| Ok (value : A)
| Throw (err : Error).

Arguments Throw {A} err.

(** What the log records: an assignment to the named field of the
    attribute record, or a registry lookup of the named operator. *)
Inductive Event : Type :=
| EvAssign (field_name : string)
| EvOpGet (op_name : string).

Abbreviation OpRegistry := (gmap string Op).

(** What running a computation yields. *)
Record Outcome (A : Type) : Type := mkOutcome
  { result : Result A;
    registry_after : OpRegistry;
    trace : list Event }.

(** A computation: run on a registry. *)
Definition M (A : Type) : Type := OpRegistry -> Outcome A.

(** Returning a value: no effect, empty log. *)
Definition ret (A : Type) (a : A) : M A :=
  fun reg => mkOutcome (Ok a) reg [].

(** Sequencing: the second computation runs on the registry the first
    one left, after it in the log; a thrown error skips it. *)
Definition bind (A B : Type) (m : M A) (k : A -> M B) : M B :=
  fun reg =>
    let r := m reg in
    match result r with
    | Ok a =>
        let r' := k a (registry_after r) in
        mkOutcome (result r') (registry_after r') (trace r ++ trace r')
    | Throw e => mkOutcome (Throw e) (registry_after r) (trace r)
    end.

Declare Scope builder_scope.
Delimit Scope builder_scope with builder.
Notation "x <- m ;; k" := (bind m (fun x => k))
  (at level 100, m at next level, right associativity) : builder_scope.

(** Modelled from the spec: [Op::Get] is defined outside this header.
    [Op::Get(name)] yields the descriptor registered under [name] and
    fails with the unknown-operator error when there is none; it only
    reads the registry. *)
Definition Op_Get (op_name : string) : M Op :=
  fun reg =>
    mkOutcome
      match reg !! op_name with
      | Some op => Ok op
      | None => Throw (UnknownOperator op_name)
      end
      reg [EvOpGet op_name].

(** What a freshly allocated [T] holds before any of its fields is
    assigned.  The theorems below hold for every choice. *)
Class DefaultConstructible (T : Type) : Type :=
  default_construct : T.

(** Modelled from the spec: [make_object] is defined outside this
    header.  [make_object<T>()] allocates a fresh record; it touches
    nothing else. *)
Definition make_object (T : Type) {fresh : DefaultConstructible T} : M T :=
  ret default_construct.

Arguments make_object T {fresh}.

(** [attrs->f = v]: the record with field [f] overwritten by [v]. *)
Definition assign (T : Type) {S : Struct T} (A : Type)
    (attrs : T) (f : field T A) (v : A) : M T :=
  fun reg => mkOutcome (Ok (store f v attrs)) reg [EvAssign (field_name f)].

Arguments assign {T S A} attrs f v.

(** The names of the fields a log records as assigned, in order. *)
Definition assigned_fields (log : list Event) : list string :=
  flat_map
    (fun ev =>
       match ev with
       | EvAssign field_name => [field_name]
       | EvOpGet _ => []
       end)
    log.

(** ** The builders

    Each definition follows its C++ function statement by statement:
    the allocation, the field assignments in source order, the
    registry lookup, and the call construction.  [std::move] and copy
    assignment differ only in what is left in the source variable,
    which no builder reads afterwards. *)

Section Builders.

Local Open Scope builder_scope.

Context {fresh_ConvAttrs : DefaultConstructible ConvAttrs.t}.
Context {fresh_FusedConv2DAttrs : DefaultConstructible FusedConv2DAttrs.t}.
Context {fresh_ConvWinogradAttrs : DefaultConstructible ConvWinogradAttrs.t}.
Context {fresh_ConvTransposeAttrs : DefaultConstructible ConvTransposeAttrs.t}.
Context {fresh_DeformableConvAttrs : DefaultConstructible DeformableConvAttrs.t}.

Definition MakeConv (data weight : Expr)
    (strides padding dilation : Array IndexExpr) (groups : int)
    (channels : IndexExpr) (kernel_size : Array IndexExpr)
    (data_layout kernel_layout out_layout : string) (out_dtype : DataType)
    (op_name : string) : M Expr :=
  attrs <- make_object ConvAttrs.t ;;
  attrs <- assign attrs ConvAttrs.strides_ strides ;;
  attrs <- assign attrs ConvAttrs.padding_ padding ;;
  attrs <- assign attrs ConvAttrs.dilation_ dilation ;;
  attrs <- assign attrs ConvAttrs.groups_ groups ;;
  attrs <- assign attrs ConvAttrs.channels_ channels ;;
  attrs <- assign attrs ConvAttrs.kernel_size_ kernel_size ;;
  attrs <- assign attrs ConvAttrs.data_layout_ data_layout ;;
  attrs <- assign attrs ConvAttrs.kernel_layout_ kernel_layout ;;
  attrs <- assign attrs ConvAttrs.out_layout_ out_layout ;;
  attrs <- assign attrs ConvAttrs.out_dtype_ out_dtype ;;
  op <- Op_Get op_name ;;
  ret (Call (mkCall op [data; weight] (AttrsConv attrs) [])).

Definition MakeFusedConv2D (data weight1 bias1 weight2 bias2 : Expr)
    (strides_array padding_array dilation_array : Array (Array IndexExpr))
    (groups_array : Array Integer) (channels_array : Array IndexExpr)
    (kernel_size_array : Array (Array IndexExpr))
    (post_op_array data_layout_array kernel_layout_array
       out_layout_array : Array string)
    (out_dtype : DataType) (op_name : string) : M Expr :=
  fused_conv2d_attrs <- make_object FusedConv2DAttrs.t ;;
  fused_conv2d_attrs <-
    assign fused_conv2d_attrs FusedConv2DAttrs.num_layers_ 2 ;;
  fused_conv2d_attrs <-
    assign fused_conv2d_attrs FusedConv2DAttrs.strides_array_ strides_array ;;
  fused_conv2d_attrs <-
    assign fused_conv2d_attrs FusedConv2DAttrs.padding_array_ padding_array ;;
  fused_conv2d_attrs <-
    assign fused_conv2d_attrs FusedConv2DAttrs.dilation_array_ dilation_array ;;
  fused_conv2d_attrs <-
    assign fused_conv2d_attrs FusedConv2DAttrs.groups_array_ groups_array ;;
  fused_conv2d_attrs <-
    assign fused_conv2d_attrs FusedConv2DAttrs.channels_array_ channels_array ;;
  fused_conv2d_attrs <-
    assign fused_conv2d_attrs FusedConv2DAttrs.kernel_size_array_
      kernel_size_array ;;
  fused_conv2d_attrs <-
    assign fused_conv2d_attrs FusedConv2DAttrs.post_op_array_ post_op_array ;;
  fused_conv2d_attrs <-
    assign fused_conv2d_attrs FusedConv2DAttrs.data_layout_array_
      data_layout_array ;;
  fused_conv2d_attrs <-
    assign fused_conv2d_attrs FusedConv2DAttrs.kernel_layout_array_
      kernel_layout_array ;;
  fused_conv2d_attrs <-
    assign fused_conv2d_attrs FusedConv2DAttrs.out_layout_array_
      out_layout_array ;;
  fused_conv2d_attrs <-
    assign fused_conv2d_attrs FusedConv2DAttrs.out_dtype_ out_dtype ;;
  op <- Op_Get op_name ;;
  ret (Call (mkCall op [data; weight1; bias1; weight2; bias2]
               (AttrsFusedConv2D fused_conv2d_attrs) [])).

Definition MakeConvWinograd (data weight : Expr) (tile_size : int)
    (strides padding dilation : Array IndexExpr) (groups : int)
    (channels : IndexExpr) (kernel_size : Array IndexExpr)
    (data_layout kernel_layout out_layout : string) (out_dtype : DataType)
    (op_name : string) : M Expr :=
  attrs <- make_object ConvWinogradAttrs.t ;;
  attrs <- assign attrs ConvWinogradAttrs.tile_size_ tile_size ;;
  attrs <- assign attrs ConvWinogradAttrs.strides_ strides ;;
  attrs <- assign attrs ConvWinogradAttrs.padding_ padding ;;
  attrs <- assign attrs ConvWinogradAttrs.dilation_ dilation ;;
  attrs <- assign attrs ConvWinogradAttrs.groups_ groups ;;
  attrs <- assign attrs ConvWinogradAttrs.channels_ channels ;;
  attrs <- assign attrs ConvWinogradAttrs.kernel_size_ kernel_size ;;
  attrs <- assign attrs ConvWinogradAttrs.data_layout_ data_layout ;;
  attrs <- assign attrs ConvWinogradAttrs.kernel_layout_ kernel_layout ;;
  attrs <- assign attrs ConvWinogradAttrs.out_layout_ out_layout ;;
  attrs <- assign attrs ConvWinogradAttrs.out_dtype_ out_dtype ;;
  op <- Op_Get op_name ;;
  ret (Call (mkCall op [data; weight] (AttrsConvWinograd attrs) [])).

Definition MakeConvGemm (data weight : Expr)
    (strides padding dilation : Array IndexExpr) (groups : int)
    (channels : IndexExpr) (kernel_size : Array IndexExpr)
    (data_layout kernel_layout out_layout : string) (out_dtype : DataType)
    (op_name : string) : M Expr :=
  attrs <- make_object ConvAttrs.t ;;
  attrs <- assign attrs ConvAttrs.strides_ strides ;;
  attrs <- assign attrs ConvAttrs.padding_ padding ;;
  attrs <- assign attrs ConvAttrs.dilation_ dilation ;;
  attrs <- assign attrs ConvAttrs.groups_ groups ;;
  attrs <- assign attrs ConvAttrs.channels_ channels ;;
  attrs <- assign attrs ConvAttrs.kernel_size_ kernel_size ;;
  attrs <- assign attrs ConvAttrs.data_layout_ data_layout ;;
  attrs <- assign attrs ConvAttrs.kernel_layout_ kernel_layout ;;
  attrs <- assign attrs ConvAttrs.out_layout_ out_layout ;;
  attrs <- assign attrs ConvAttrs.out_dtype_ out_dtype ;;
  op <- Op_Get op_name ;;
  ret (Call (mkCall op [data; weight] (AttrsConv attrs) [])).

Definition MakeConvTranspose (data weight : Expr)
    (strides padding dilation : Array IndexExpr) (groups : int)
    (channels : IndexExpr) (kernel_size : Array IndexExpr)
    (data_layout kernel_layout out_layout : string)
    (output_padding : Array IndexExpr) (out_dtype : DataType)
    (op_name : string) : M Expr :=
  attrs <- make_object ConvTransposeAttrs.t ;;
  attrs <- assign attrs ConvTransposeAttrs.strides_ strides ;;
  attrs <- assign attrs ConvTransposeAttrs.padding_ padding ;;
  attrs <- assign attrs ConvTransposeAttrs.dilation_ dilation ;;
  attrs <- assign attrs ConvTransposeAttrs.groups_ groups ;;
  attrs <- assign attrs ConvTransposeAttrs.channels_ channels ;;
  attrs <- assign attrs ConvTransposeAttrs.kernel_size_ kernel_size ;;
  attrs <- assign attrs ConvTransposeAttrs.data_layout_ data_layout ;;
  attrs <- assign attrs ConvTransposeAttrs.kernel_layout_ kernel_layout ;;
  attrs <- assign attrs ConvTransposeAttrs.out_layout_ out_layout ;;
  attrs <- assign attrs ConvTransposeAttrs.output_padding_ output_padding ;;
  attrs <- assign attrs ConvTransposeAttrs.out_dtype_ out_dtype ;;
  op <- Op_Get op_name ;;
  ret (Call (mkCall op [data; weight] (AttrsConvTranspose attrs) [])).

Definition MakeDeformableConv (data offset weight : Expr)
    (strides padding dilation : Array IndexExpr)
    (deformable_groups groups channels : int)
    (kernel_size : Array IndexExpr)
    (data_layout kernel_layout out_layout : string) (out_dtype : DataType)
    (op_name : string) : M Expr :=
  attrs <- make_object DeformableConvAttrs.t ;;
  attrs <- assign attrs DeformableConvAttrs.strides_ strides ;;
  attrs <- assign attrs DeformableConvAttrs.padding_ padding ;;
  attrs <- assign attrs DeformableConvAttrs.dilation_ dilation ;;
  attrs <- assign attrs DeformableConvAttrs.deformable_groups_
             deformable_groups ;;
  attrs <- assign attrs DeformableConvAttrs.groups_ groups ;;
  attrs <- assign attrs DeformableConvAttrs.channels_ channels ;;
  attrs <- assign attrs DeformableConvAttrs.kernel_size_ kernel_size ;;
  attrs <- assign attrs DeformableConvAttrs.data_layout_ data_layout ;;
  attrs <- assign attrs DeformableConvAttrs.kernel_layout_ kernel_layout ;;
  attrs <- assign attrs DeformableConvAttrs.out_layout_ out_layout ;;
  attrs <- assign attrs DeformableConvAttrs.out_dtype_ out_dtype ;;
  op <- Op_Get op_name ;;
  ret (Call (mkCall op [data; offset; weight] (AttrsDeformableConv attrs) [])).

End Builders.

(** ** Sample inputs *)

(** Value-initialised records: empty sequences, zero integers, empty
    strings, the void data type. *)
Definition zeroed_ConvAttrs : DefaultConstructible ConvAttrs.t :=
  ConvAttrs.mk [] [] [] 0 (IntImm 0) [] EmptyString EmptyString EmptyString
    (mkDataType kHandle 0 0).

Definition zeroed_FusedConv2DAttrs :
    DefaultConstructible FusedConv2DAttrs.t :=
  FusedConv2DAttrs.mk 0 [] [] [] [] [] [] [] [] [] [] (mkDataType kHandle 0 0).

Definition zeroed_ConvWinogradAttrs :
    DefaultConstructible ConvWinogradAttrs.t :=
  ConvWinogradAttrs.mk 0 [] [] [] 0 (IntImm 0) [] EmptyString EmptyString
    EmptyString (mkDataType kHandle 0 0).

Definition zeroed_ConvTransposeAttrs :
    DefaultConstructible ConvTransposeAttrs.t :=
  ConvTransposeAttrs.mk [] [] [] 0 (IntImm 0) [] EmptyString EmptyString
    EmptyString [] (mkDataType kHandle 0 0).

Definition zeroed_DeformableConvAttrs :
    DefaultConstructible DeformableConvAttrs.t :=
  DeformableConvAttrs.mk [] [] [] 0 0 0 [] EmptyString EmptyString
    EmptyString (mkDataType kHandle 0 0).

(** A registry holding one descriptor per builder. *)
Definition sample_registry : OpRegistry :=
  <["nn.conv2d" := mkOp "nn.conv2d" 2]>
  (<["nn.contrib_conv2d_winograd_without_weight_transform" :=
       mkOp "nn.contrib_conv2d_winograd_without_weight_transform" 2]>
  (<["nn.contrib_conv2d_gemm_without_weight_transform" :=
       mkOp "nn.contrib_conv2d_gemm_without_weight_transform" 2]>
  (<["nn.conv2d_transpose" := mkOp "nn.conv2d_transpose" 2]>
  (<["nn.deformable_conv2d" := mkOp "nn.deformable_conv2d" 3]>
  (<["nn.fused_conv2d" := mkOp "nn.fused_conv2d" 5]> ∅))))).

(** The descriptors of [sample_registry], registered under other names. *)
Definition alias_registry : OpRegistry :=
  <["conv2d" := mkOp "nn.conv2d" 2]>
  (<["conv2d_winograd" :=
       mkOp "nn.contrib_conv2d_winograd_without_weight_transform" 2]>
  (<["conv2d_gemm" :=
       mkOp "nn.contrib_conv2d_gemm_without_weight_transform" 2]>
  (<["conv2d_transpose" := mkOp "nn.conv2d_transpose" 2]>
  (<["deformable_conv2d" := mkOp "nn.deformable_conv2d" 3]>
  (<["fused_conv2d" := mkOp "nn.fused_conv2d" 5]> ∅))))).

(** ** Field assignment

    Reading a field right after assigning it yields the assigned value,
    and an assignment leaves every other field as it was. *)

Lemma ConvAttrs_load_store (A : Type) (f : field ConvAttrs.t A) (v : A)
    (a : ConvAttrs.t) :
  load f (store f v a) = v.
Proof. destruct f; reflexivity. Qed.

Lemma ConvAttrs_load_store_other (A B : Type) (f : field ConvAttrs.t A)
    (g : field ConvAttrs.t B) (v : A) (a : ConvAttrs.t) :
  field_name f <> field_name g ->
  load g (store f v a) = load g a.
Proof.
  destruct f, g; intros Hne; try reflexivity; exfalso; apply Hne; reflexivity.
Qed.

Lemma FusedConv2DAttrs_load_store (A : Type) (f : field FusedConv2DAttrs.t A) (v : A)
    (a : FusedConv2DAttrs.t) :
  load f (store f v a) = v.
Proof. destruct f; reflexivity. Qed.

Lemma FusedConv2DAttrs_load_store_other (A B : Type) (f : field FusedConv2DAttrs.t A)
    (g : field FusedConv2DAttrs.t B) (v : A) (a : FusedConv2DAttrs.t) :
  field_name f <> field_name g ->
  load g (store f v a) = load g a.
Proof.
  destruct f, g; intros Hne; try reflexivity; exfalso; apply Hne; reflexivity.
Qed.

Lemma ConvWinogradAttrs_load_store (A : Type) (f : field ConvWinogradAttrs.t A) (v : A)
    (a : ConvWinogradAttrs.t) :
  load f (store f v a) = v.
Proof. destruct f; reflexivity. Qed.

Lemma ConvWinogradAttrs_load_store_other (A B : Type) (f : field ConvWinogradAttrs.t A)
    (g : field ConvWinogradAttrs.t B) (v : A) (a : ConvWinogradAttrs.t) :
  field_name f <> field_name g ->
  load g (store f v a) = load g a.
Proof.
  destruct f, g; intros Hne; try reflexivity; exfalso; apply Hne; reflexivity.
Qed.

Lemma ConvTransposeAttrs_load_store (A : Type) (f : field ConvTransposeAttrs.t A) (v : A)
    (a : ConvTransposeAttrs.t) :
  load f (store f v a) = v.
Proof. destruct f; reflexivity. Qed.

Lemma ConvTransposeAttrs_load_store_other (A B : Type) (f : field ConvTransposeAttrs.t A)
    (g : field ConvTransposeAttrs.t B) (v : A) (a : ConvTransposeAttrs.t) :
  field_name f <> field_name g ->
  load g (store f v a) = load g a.
Proof.
  destruct f, g; intros Hne; try reflexivity; exfalso; apply Hne; reflexivity.
Qed.

Lemma DeformableConvAttrs_load_store (A : Type) (f : field DeformableConvAttrs.t A) (v : A)
    (a : DeformableConvAttrs.t) :
  load f (store f v a) = v.
Proof. destruct f; reflexivity. Qed.

Lemma DeformableConvAttrs_load_store_other (A B : Type) (f : field DeformableConvAttrs.t A)
    (g : field DeformableConvAttrs.t B) (v : A) (a : DeformableConvAttrs.t) :
  field_name f <> field_name g ->
  load g (store f v a) = load g a.
Proof.
  destruct f, g; intros Hne; try reflexivity; exfalso; apply Hne; reflexivity.
Qed.

(** ** What each builder computes

    One equation per builder: its result (decided by the single registry
    lookup), the registry it leaves behind, and its log.  The fresh
    record's content does not occur on the right-hand side: every field
    has been overwritten by the time the call node is built. *)

Ltac run_builder reg op_name :=
  cbv [bind ret make_object assign Op_Get result registry_after trace];
  destruct (reg !! op_name); reflexivity.

Section Runs.

Context {fresh_ConvAttrs : DefaultConstructible ConvAttrs.t}.
Context {fresh_FusedConv2DAttrs : DefaultConstructible FusedConv2DAttrs.t}.
Context {fresh_ConvWinogradAttrs : DefaultConstructible ConvWinogradAttrs.t}.
Context {fresh_ConvTransposeAttrs : DefaultConstructible ConvTransposeAttrs.t}.
Context {fresh_DeformableConvAttrs : DefaultConstructible DeformableConvAttrs.t}.

Variable reg : OpRegistry.
Variables data weight offset weight1 bias1 weight2 bias2 : Expr.
Variables strides padding dilation kernel_size output_padding : Array IndexExpr.
Variables tile_size groups deformable_groups int_channels : int.
Variable channels : IndexExpr.
Variables data_layout kernel_layout out_layout : string.
Variables strides_array padding_array dilation_array
  kernel_size_array : Array (Array IndexExpr).
Variable groups_array : Array Integer.
Variable channels_array : Array IndexExpr.
Variables post_op_array data_layout_array kernel_layout_array
  out_layout_array : Array string.
Variable out_dtype : DataType.
Variable op_name : string.

Lemma MakeConv_run :
  MakeConv data weight strides padding dilation groups channels kernel_size
    data_layout kernel_layout out_layout out_dtype op_name reg =
  mkOutcome
    match reg !! op_name with
    | Some op =>
        Ok (Call (mkCall op [data; weight]
              (AttrsConv
                 {| ConvAttrs.strides := strides;
                    ConvAttrs.padding := padding;
                    ConvAttrs.dilation := dilation;
                    ConvAttrs.groups := groups;
                    ConvAttrs.channels := channels;
                    ConvAttrs.kernel_size := kernel_size;
                    ConvAttrs.data_layout := data_layout;
                    ConvAttrs.kernel_layout := kernel_layout;
                    ConvAttrs.out_layout := out_layout;
                    ConvAttrs.out_dtype := out_dtype |}) []))
    | None => Throw (UnknownOperator op_name)
    end
    reg
    (map EvAssign
       ["strides"; "padding"; "dilation"; "groups"; "channels";
        "kernel_size"; "data_layout"; "kernel_layout"; "out_layout";
        "out_dtype"] ++ [EvOpGet op_name]).
Proof. unfold MakeConv. run_builder reg op_name. Qed.

Lemma MakeConvGemm_run :
  MakeConvGemm data weight strides padding dilation groups channels
    kernel_size data_layout kernel_layout out_layout out_dtype op_name reg =
  mkOutcome
    match reg !! op_name with
    | Some op =>
        Ok (Call (mkCall op [data; weight]
              (AttrsConv
                 {| ConvAttrs.strides := strides;
                    ConvAttrs.padding := padding;
                    ConvAttrs.dilation := dilation;
                    ConvAttrs.groups := groups;
                    ConvAttrs.channels := channels;
                    ConvAttrs.kernel_size := kernel_size;
                    ConvAttrs.data_layout := data_layout;
                    ConvAttrs.kernel_layout := kernel_layout;
                    ConvAttrs.out_layout := out_layout;
                    ConvAttrs.out_dtype := out_dtype |}) []))
    | None => Throw (UnknownOperator op_name)
    end
    reg
    (map EvAssign
       ["strides"; "padding"; "dilation"; "groups"; "channels";
        "kernel_size"; "data_layout"; "kernel_layout"; "out_layout";
        "out_dtype"] ++ [EvOpGet op_name]).
Proof. unfold MakeConvGemm. run_builder reg op_name. Qed.

Lemma MakeConvWinograd_run :
  MakeConvWinograd data weight tile_size strides padding dilation groups
    channels kernel_size data_layout kernel_layout out_layout out_dtype
    op_name reg =
  mkOutcome
    match reg !! op_name with
    | Some op =>
        Ok (Call (mkCall op [data; weight]
              (AttrsConvWinograd
                 {| ConvWinogradAttrs.tile_size := tile_size;
                    ConvWinogradAttrs.strides := strides;
                    ConvWinogradAttrs.padding := padding;
                    ConvWinogradAttrs.dilation := dilation;
                    ConvWinogradAttrs.groups := groups;
                    ConvWinogradAttrs.channels := channels;
                    ConvWinogradAttrs.kernel_size := kernel_size;
                    ConvWinogradAttrs.data_layout := data_layout;
                    ConvWinogradAttrs.kernel_layout := kernel_layout;
                    ConvWinogradAttrs.out_layout := out_layout;
                    ConvWinogradAttrs.out_dtype := out_dtype |}) []))
    | None => Throw (UnknownOperator op_name)
    end
    reg
    (map EvAssign
       ["tile_size"; "strides"; "padding"; "dilation"; "groups"; "channels";
        "kernel_size"; "data_layout"; "kernel_layout"; "out_layout";
        "out_dtype"] ++ [EvOpGet op_name]).
Proof. unfold MakeConvWinograd. run_builder reg op_name. Qed.

Lemma MakeConvTranspose_run :
  MakeConvTranspose data weight strides padding dilation groups channels
    kernel_size data_layout kernel_layout out_layout output_padding
    out_dtype op_name reg =
  mkOutcome
    match reg !! op_name with
    | Some op =>
        Ok (Call (mkCall op [data; weight]
              (AttrsConvTranspose
                 {| ConvTransposeAttrs.strides := strides;
                    ConvTransposeAttrs.padding := padding;
                    ConvTransposeAttrs.dilation := dilation;
                    ConvTransposeAttrs.groups := groups;
                    ConvTransposeAttrs.channels := channels;
                    ConvTransposeAttrs.kernel_size := kernel_size;
                    ConvTransposeAttrs.data_layout := data_layout;
                    ConvTransposeAttrs.kernel_layout := kernel_layout;
                    ConvTransposeAttrs.out_layout := out_layout;
                    ConvTransposeAttrs.output_padding := output_padding;
                    ConvTransposeAttrs.out_dtype := out_dtype |}) []))
    | None => Throw (UnknownOperator op_name)
    end
    reg
    (map EvAssign
       ["strides"; "padding"; "dilation"; "groups"; "channels";
        "kernel_size"; "data_layout"; "kernel_layout"; "out_layout";
        "output_padding"; "out_dtype"] ++ [EvOpGet op_name]).
Proof. unfold MakeConvTranspose. run_builder reg op_name. Qed.

Lemma MakeDeformableConv_run :
  MakeDeformableConv data offset weight strides padding dilation
    deformable_groups groups int_channels kernel_size data_layout
    kernel_layout out_layout out_dtype op_name reg =
  mkOutcome
    match reg !! op_name with
    | Some op =>
        Ok (Call (mkCall op [data; offset; weight]
              (AttrsDeformableConv
                 {| DeformableConvAttrs.strides := strides;
                    DeformableConvAttrs.padding := padding;
                    DeformableConvAttrs.dilation := dilation;
                    DeformableConvAttrs.deformable_groups := deformable_groups;
                    DeformableConvAttrs.groups := groups;
                    DeformableConvAttrs.channels := int_channels;
                    DeformableConvAttrs.kernel_size := kernel_size;
                    DeformableConvAttrs.data_layout := data_layout;
                    DeformableConvAttrs.kernel_layout := kernel_layout;
                    DeformableConvAttrs.out_layout := out_layout;
                    DeformableConvAttrs.out_dtype := out_dtype |}) []))
    | None => Throw (UnknownOperator op_name)
    end
    reg
    (map EvAssign
       ["strides"; "padding"; "dilation"; "deformable_groups"; "groups";
        "channels"; "kernel_size"; "data_layout"; "kernel_layout";
        "out_layout"; "out_dtype"] ++ [EvOpGet op_name]).
Proof. unfold MakeDeformableConv. run_builder reg op_name. Qed.

Lemma MakeFusedConv2D_run :
  MakeFusedConv2D data weight1 bias1 weight2 bias2 strides_array
    padding_array dilation_array groups_array channels_array
    kernel_size_array post_op_array data_layout_array kernel_layout_array
    out_layout_array out_dtype op_name reg =
  mkOutcome
    match reg !! op_name with
    | Some op =>
        Ok (Call (mkCall op [data; weight1; bias1; weight2; bias2]
              (AttrsFusedConv2D
                 {| FusedConv2DAttrs.num_layers := 2;
                    FusedConv2DAttrs.strides_array := strides_array;
                    FusedConv2DAttrs.padding_array := padding_array;
                    FusedConv2DAttrs.dilation_array := dilation_array;
                    FusedConv2DAttrs.groups_array := groups_array;
                    FusedConv2DAttrs.channels_array := channels_array;
                    FusedConv2DAttrs.kernel_size_array := kernel_size_array;
                    FusedConv2DAttrs.post_op_array := post_op_array;
                    FusedConv2DAttrs.data_layout_array := data_layout_array;
                    FusedConv2DAttrs.kernel_layout_array :=
                      kernel_layout_array;
                    FusedConv2DAttrs.out_layout_array := out_layout_array;
                    FusedConv2DAttrs.out_dtype := out_dtype |}) []))
    | None => Throw (UnknownOperator op_name)
    end
    reg
    (map EvAssign
       ["num_layers"; "strides_array"; "padding_array"; "dilation_array";
        "groups_array"; "channels_array"; "kernel_size_array";
        "post_op_array"; "data_layout_array"; "kernel_layout_array";
        "out_layout_array"; "out_dtype"] ++ [EvOpGet op_name]).
Proof. unfold MakeFusedConv2D. run_builder reg op_name. Qed.

End Runs.

(** ** Properties of the builders *)

(** [returned H run]: from [H : result (builder ... reg) = Ok e], learn
    that the lookup found a descriptor and replace [e] by the call node
    that was built. *)
Ltac returned H run reg op_name :=
  rewrite run in H; cbv [result] in H;
  destruct (reg !! op_name) eqn:?; [ injection H as <- | discriminate H ].

Section Properties.

Context {fresh_ConvAttrs : DefaultConstructible ConvAttrs.t}.
Context {fresh_FusedConv2DAttrs : DefaultConstructible FusedConv2DAttrs.t}.
Context {fresh_ConvWinogradAttrs : DefaultConstructible ConvWinogradAttrs.t}.
Context {fresh_ConvTransposeAttrs : DefaultConstructible ConvTransposeAttrs.t}.
Context {fresh_DeformableConvAttrs : DefaultConstructible DeformableConvAttrs.t}.

Variable reg : OpRegistry.
Variables data weight offset weight1 bias1 weight2 bias2 : Expr.
Variables strides padding dilation kernel_size output_padding : Array IndexExpr.
Variables tile_size groups deformable_groups int_channels : int.
Variable channels : IndexExpr.
Variables data_layout kernel_layout out_layout : string.
Variables strides_array padding_array dilation_array
  kernel_size_array : Array (Array IndexExpr).
Variable groups_array : Array Integer.
Variable channels_array : Array IndexExpr.
Variables post_op_array data_layout_array kernel_layout_array
  out_layout_array : Array string.
Variable out_dtype : DataType.
Variables op_name winograd_op_name transpose_op_name : string.

(** C1.  Whenever a builder returns, what it returns is a call node
    whose input sequence is exactly the builder's positional inputs in
    the variant's order: [data; weight] for the plain, winograd, gemm
    and transpose builders; [data; offset; weight] for the deformable
    builder, which is [data; weight; offset] only if offset and weight
    are the same value; [data; weight1; bias1; weight2; bias2] for the
    fused builder. *)
Theorem builders_bind_inputs_in_order :
  (forall e,
     result (MakeConv data weight strides padding dilation groups channels
               kernel_size data_layout kernel_layout out_layout out_dtype
               op_name reg) = Ok e ->
     args <$> as_CallNode e = Some [data; weight]) /\
  (forall e,
     result (MakeConvWinograd data weight tile_size strides padding dilation
               groups channels kernel_size data_layout kernel_layout
               out_layout out_dtype op_name reg) = Ok e ->
     args <$> as_CallNode e = Some [data; weight]) /\
  (forall e,
     result (MakeConvGemm data weight strides padding dilation groups
               channels kernel_size data_layout kernel_layout out_layout
               out_dtype op_name reg) = Ok e ->
     args <$> as_CallNode e = Some [data; weight]) /\
  (forall e,
     result (MakeConvTranspose data weight strides padding dilation groups
               channels kernel_size data_layout kernel_layout out_layout
               output_padding out_dtype op_name reg) = Ok e ->
     args <$> as_CallNode e = Some [data; weight]) /\
  (forall e,
     result (MakeDeformableConv data offset weight strides padding dilation
               deformable_groups groups int_channels kernel_size data_layout
               kernel_layout out_layout out_dtype op_name reg) = Ok e ->
     args <$> as_CallNode e = Some [data; offset; weight] /\
     (offset <> weight ->
      args <$> as_CallNode e <> Some [data; weight; offset])) /\
  (forall e,
     result (MakeFusedConv2D data weight1 bias1 weight2 bias2 strides_array
               padding_array dilation_array groups_array channels_array
               kernel_size_array post_op_array data_layout_array
               kernel_layout_array out_layout_array out_dtype op_name reg)
       = Ok e ->
     args <$> as_CallNode e = Some [data; weight1; bias1; weight2; bias2]).
Proof.
  repeat apply conj; intros e H.
  - returned H MakeConv_run reg op_name. reflexivity.
  - returned H MakeConvWinograd_run reg op_name. reflexivity.
  - returned H MakeConvGemm_run reg op_name. reflexivity.
  - returned H MakeConvTranspose_run reg op_name. reflexivity.
  - returned H MakeDeformableConv_run reg op_name.
    split; [reflexivity|].
    intros Hne Heq. apply Hne.
    cbv [fmap option_fmap option_map as_CallNode args] in Heq.
    congruence.
  - returned H MakeFusedConv2D_run reg op_name. reflexivity.
Qed.

(** C2.  Whenever a builder returns, every field value the caller
    supplied is found unchanged in the attribute record of the returned
    call node (the record literals below list each field next to the
    argument it equals).  In particular, with "nn.conv2d" registered,
    the plain builder applied to strides [1,1], padding [0,0,0,0],
    dilation [1,1], groups 1, channels 64, kernel size [3,3], layouts
    "NCHW", "OIHW" and the empty string, and dtype float32 returns a call
    node on the registered descriptor with exactly the two inputs and a
    record holding those literals. *)
Theorem supplied_fields_round_trip :
  (forall e,
     result
       (MakeConv data weight strides padding dilation groups channels
         kernel_size data_layout kernel_layout out_layout out_dtype op_name
         reg) = Ok e ->
     attrs <$> as_CallNode e =
     Some (AttrsConv
             {| ConvAttrs.strides := strides;
                ConvAttrs.padding := padding;
                ConvAttrs.dilation := dilation;
                ConvAttrs.groups := groups;
                ConvAttrs.channels := channels;
                ConvAttrs.kernel_size := kernel_size;
                ConvAttrs.data_layout := data_layout;
                ConvAttrs.kernel_layout := kernel_layout;
                ConvAttrs.out_layout := out_layout;
                ConvAttrs.out_dtype := out_dtype |})) /\
  (forall e,
     result
       (MakeConvWinograd data weight tile_size strides padding dilation
         groups channels kernel_size data_layout kernel_layout out_layout
         out_dtype op_name reg) = Ok e ->
     attrs <$> as_CallNode e =
     Some (AttrsConvWinograd
             {| ConvWinogradAttrs.tile_size := tile_size;
                ConvWinogradAttrs.strides := strides;
                ConvWinogradAttrs.padding := padding;
                ConvWinogradAttrs.dilation := dilation;
                ConvWinogradAttrs.groups := groups;
                ConvWinogradAttrs.channels := channels;
                ConvWinogradAttrs.kernel_size := kernel_size;
                ConvWinogradAttrs.data_layout := data_layout;
                ConvWinogradAttrs.kernel_layout := kernel_layout;
                ConvWinogradAttrs.out_layout := out_layout;
                ConvWinogradAttrs.out_dtype := out_dtype |})) /\
  (forall e,
     result
       (MakeConvGemm data weight strides padding dilation groups channels
         kernel_size data_layout kernel_layout out_layout out_dtype op_name
         reg) = Ok e ->
     attrs <$> as_CallNode e =
     Some (AttrsConv
             {| ConvAttrs.strides := strides;
                ConvAttrs.padding := padding;
                ConvAttrs.dilation := dilation;
                ConvAttrs.groups := groups;
                ConvAttrs.channels := channels;
                ConvAttrs.kernel_size := kernel_size;
                ConvAttrs.data_layout := data_layout;
                ConvAttrs.kernel_layout := kernel_layout;
                ConvAttrs.out_layout := out_layout;
                ConvAttrs.out_dtype := out_dtype |})) /\
  (forall e,
     result
       (MakeConvTranspose data weight strides padding dilation groups
         channels kernel_size data_layout kernel_layout out_layout
         output_padding out_dtype op_name reg) = Ok e ->
     attrs <$> as_CallNode e =
     Some (AttrsConvTranspose
             {| ConvTransposeAttrs.strides := strides;
                ConvTransposeAttrs.padding := padding;
                ConvTransposeAttrs.dilation := dilation;
                ConvTransposeAttrs.groups := groups;
                ConvTransposeAttrs.channels := channels;
                ConvTransposeAttrs.kernel_size := kernel_size;
                ConvTransposeAttrs.data_layout := data_layout;
                ConvTransposeAttrs.kernel_layout := kernel_layout;
                ConvTransposeAttrs.out_layout := out_layout;
                ConvTransposeAttrs.output_padding := output_padding;
                ConvTransposeAttrs.out_dtype := out_dtype |})) /\
  (forall e,
     result
       (MakeDeformableConv data offset weight strides padding dilation
         deformable_groups groups int_channels kernel_size data_layout
         kernel_layout out_layout out_dtype op_name reg) = Ok e ->
     attrs <$> as_CallNode e =
     Some (AttrsDeformableConv
             {| DeformableConvAttrs.strides := strides;
                DeformableConvAttrs.padding := padding;
                DeformableConvAttrs.dilation := dilation;
                DeformableConvAttrs.deformable_groups := deformable_groups;
                DeformableConvAttrs.groups := groups;
                DeformableConvAttrs.channels := int_channels;
                DeformableConvAttrs.kernel_size := kernel_size;
                DeformableConvAttrs.data_layout := data_layout;
                DeformableConvAttrs.kernel_layout := kernel_layout;
                DeformableConvAttrs.out_layout := out_layout;
                DeformableConvAttrs.out_dtype := out_dtype |})) /\
  (forall e,
     result
       (MakeFusedConv2D data weight1 bias1 weight2 bias2 strides_array
         padding_array dilation_array groups_array channels_array
         kernel_size_array post_op_array data_layout_array
         kernel_layout_array out_layout_array out_dtype op_name reg) = Ok e ->
     attrs <$> as_CallNode e =
     Some (AttrsFusedConv2D
             {| FusedConv2DAttrs.num_layers := 2;
                FusedConv2DAttrs.strides_array := strides_array;
                FusedConv2DAttrs.padding_array := padding_array;
                FusedConv2DAttrs.dilation_array := dilation_array;
                FusedConv2DAttrs.groups_array := groups_array;
                FusedConv2DAttrs.channels_array := channels_array;
                FusedConv2DAttrs.kernel_size_array := kernel_size_array;
                FusedConv2DAttrs.post_op_array := post_op_array;
                FusedConv2DAttrs.data_layout_array := data_layout_array;
                FusedConv2DAttrs.kernel_layout_array := kernel_layout_array;
                FusedConv2DAttrs.out_layout_array := out_layout_array;
                FusedConv2DAttrs.out_dtype := out_dtype |})) /\
  (forall op : Op,
     reg !! "nn.conv2d" = Some op ->
     result
       (MakeConv data weight [IntImm 1; IntImm 1]
          [IntImm 0; IntImm 0; IntImm 0; IntImm 0] [IntImm 1; IntImm 1] 1
          (IntImm 64) [IntImm 3; IntImm 3] "NCHW" "OIHW" EmptyString
          (Float 32) "nn.conv2d" reg) =
     Ok
       (Call (mkCall op [data; weight]
                (AttrsConv
                   {| ConvAttrs.strides := [IntImm 1; IntImm 1];
                      ConvAttrs.padding :=
                        [IntImm 0; IntImm 0; IntImm 0; IntImm 0];
                      ConvAttrs.dilation := [IntImm 1; IntImm 1];
                      ConvAttrs.groups := 1;
                      ConvAttrs.channels := IntImm 64;
                      ConvAttrs.kernel_size := [IntImm 3; IntImm 3];
                      ConvAttrs.data_layout := "NCHW";
                      ConvAttrs.kernel_layout := "OIHW";
                      ConvAttrs.out_layout := EmptyString;
                      ConvAttrs.out_dtype := Float 32 |}) []))).
Proof.
  repeat apply conj.
  - intros e H. returned H MakeConv_run reg op_name. reflexivity.
  - intros e H. returned H MakeConvWinograd_run reg op_name. reflexivity.
  - intros e H. returned H MakeConvGemm_run reg op_name. reflexivity.
  - intros e H. returned H MakeConvTranspose_run reg op_name. reflexivity.
  - intros e H. returned H MakeDeformableConv_run reg op_name. reflexivity.
  - intros e H. returned H MakeFusedConv2D_run reg op_name. reflexivity.
  - intros op Hop. rewrite MakeConv_run. cbv [result]. rewrite Hop.
    reflexivity.
Qed.


(** C3.  For each of the six builders: if the operator name is not in
    the registry, the builder throws the unknown-operator error for that
    name and returns no call node; conversely any error it throws is
    that error, thrown because the name is not registered.  Its log is a
    run of field assignments followed by one single lookup, which is the
    last thing it does: the lookup is not repeated. *)
Theorem unregistered_operator_is_the_only_failure :
  Forall
    (fun out : Outcome Expr =>
       (reg !! op_name = None ->
        result out = Throw (UnknownOperator op_name) /\
        forall e, result out <> Ok e) /\
       (forall err,
          result out = Throw err ->
          reg !! op_name = None /\ err = UnknownOperator op_name) /\
       (exists assigned : list string,
          trace out = map EvAssign assigned ++ [EvOpGet op_name]))
    [ MakeConv data weight strides padding dilation groups channels
        kernel_size data_layout kernel_layout out_layout out_dtype op_name
        reg;
      MakeConvWinograd data weight tile_size strides padding dilation
        groups channels kernel_size data_layout kernel_layout out_layout
        out_dtype op_name reg;
      MakeConvGemm data weight strides padding dilation groups channels
        kernel_size data_layout kernel_layout out_layout out_dtype op_name
        reg;
      MakeConvTranspose data weight strides padding dilation groups
        channels kernel_size data_layout kernel_layout out_layout
        output_padding out_dtype op_name reg;
      MakeDeformableConv data offset weight strides padding dilation
        deformable_groups groups int_channels kernel_size data_layout
        kernel_layout out_layout out_dtype op_name reg;
      MakeFusedConv2D data weight1 bias1 weight2 bias2 strides_array
        padding_array dilation_array groups_array channels_array
        kernel_size_array post_op_array data_layout_array
        kernel_layout_array out_layout_array out_dtype op_name reg ].
Proof.
  rewrite MakeConv_run, MakeConvWinograd_run, MakeConvGemm_run,
    MakeConvTranspose_run, MakeDeformableConv_run, MakeFusedConv2D_run.
  repeat apply Forall_cons_2; try apply Forall_nil_2;
    cbv [result trace]; (repeat apply conj; [ | | eexists; reflexivity ]);
    destruct (reg !! op_name); intros; try discriminate;
    repeat split; congruence.
Qed.

(** C5.  If the operator name is registered, every builder returns,
    whatever the field values are (no length, range or consistency check
    is made on them), and what it returns is the call node on the
    registered descriptor with every field of the attribute record
    determined by the arguments; the content of the freshly allocated
    record does not show through. *)
Theorem registered_name_always_succeeds :
  forall op : Op,
    reg !! op_name = Some op ->
    result
      (MakeConv data weight strides padding dilation groups channels
        kernel_size data_layout kernel_layout out_layout out_dtype op_name
        reg) =
    Ok
      (Call (mkCall op [data; weight]
               (AttrsConv
                  {| ConvAttrs.strides := strides;
                     ConvAttrs.padding := padding;
                     ConvAttrs.dilation := dilation;
                     ConvAttrs.groups := groups;
                     ConvAttrs.channels := channels;
                     ConvAttrs.kernel_size := kernel_size;
                     ConvAttrs.data_layout := data_layout;
                     ConvAttrs.kernel_layout := kernel_layout;
                     ConvAttrs.out_layout := out_layout;
                     ConvAttrs.out_dtype := out_dtype |}) [])) /\
    result
      (MakeConvWinograd data weight tile_size strides padding dilation
        groups channels kernel_size data_layout kernel_layout out_layout
        out_dtype op_name reg) =
    Ok
      (Call (mkCall op [data; weight]
               (AttrsConvWinograd
                  {| ConvWinogradAttrs.tile_size := tile_size;
                     ConvWinogradAttrs.strides := strides;
                     ConvWinogradAttrs.padding := padding;
                     ConvWinogradAttrs.dilation := dilation;
                     ConvWinogradAttrs.groups := groups;
                     ConvWinogradAttrs.channels := channels;
                     ConvWinogradAttrs.kernel_size := kernel_size;
                     ConvWinogradAttrs.data_layout := data_layout;
                     ConvWinogradAttrs.kernel_layout := kernel_layout;
                     ConvWinogradAttrs.out_layout := out_layout;
                     ConvWinogradAttrs.out_dtype := out_dtype |}) [])) /\
    result
      (MakeConvGemm data weight strides padding dilation groups channels
        kernel_size data_layout kernel_layout out_layout out_dtype op_name
        reg) =
    Ok
      (Call (mkCall op [data; weight]
               (AttrsConv
                  {| ConvAttrs.strides := strides;
                     ConvAttrs.padding := padding;
                     ConvAttrs.dilation := dilation;
                     ConvAttrs.groups := groups;
                     ConvAttrs.channels := channels;
                     ConvAttrs.kernel_size := kernel_size;
                     ConvAttrs.data_layout := data_layout;
                     ConvAttrs.kernel_layout := kernel_layout;
                     ConvAttrs.out_layout := out_layout;
                     ConvAttrs.out_dtype := out_dtype |}) [])) /\
    result
      (MakeConvTranspose data weight strides padding dilation groups
        channels kernel_size data_layout kernel_layout out_layout
        output_padding out_dtype op_name reg) =
    Ok
      (Call (mkCall op [data; weight]
               (AttrsConvTranspose
                  {| ConvTransposeAttrs.strides := strides;
                     ConvTransposeAttrs.padding := padding;
                     ConvTransposeAttrs.dilation := dilation;
                     ConvTransposeAttrs.groups := groups;
                     ConvTransposeAttrs.channels := channels;
                     ConvTransposeAttrs.kernel_size := kernel_size;
                     ConvTransposeAttrs.data_layout := data_layout;
                     ConvTransposeAttrs.kernel_layout := kernel_layout;
                     ConvTransposeAttrs.out_layout := out_layout;
                     ConvTransposeAttrs.output_padding := output_padding;
                     ConvTransposeAttrs.out_dtype := out_dtype |}) [])) /\
    result
      (MakeDeformableConv data offset weight strides padding dilation
        deformable_groups groups int_channels kernel_size data_layout
        kernel_layout out_layout out_dtype op_name reg) =
    Ok
      (Call (mkCall op [data; offset; weight]
               (AttrsDeformableConv
                  {| DeformableConvAttrs.strides := strides;
                     DeformableConvAttrs.padding := padding;
                     DeformableConvAttrs.dilation := dilation;
                     DeformableConvAttrs.deformable_groups := deformable_groups;
                     DeformableConvAttrs.groups := groups;
                     DeformableConvAttrs.channels := int_channels;
                     DeformableConvAttrs.kernel_size := kernel_size;
                     DeformableConvAttrs.data_layout := data_layout;
                     DeformableConvAttrs.kernel_layout := kernel_layout;
                     DeformableConvAttrs.out_layout := out_layout;
                     DeformableConvAttrs.out_dtype := out_dtype |}) [])) /\
    result
      (MakeFusedConv2D data weight1 bias1 weight2 bias2 strides_array
        padding_array dilation_array groups_array channels_array
        kernel_size_array post_op_array data_layout_array
        kernel_layout_array out_layout_array out_dtype op_name reg) =
    Ok
      (Call (mkCall op [data; weight1; bias1; weight2; bias2]
               (AttrsFusedConv2D
                  {| FusedConv2DAttrs.num_layers := 2;
                     FusedConv2DAttrs.strides_array := strides_array;
                     FusedConv2DAttrs.padding_array := padding_array;
                     FusedConv2DAttrs.dilation_array := dilation_array;
                     FusedConv2DAttrs.groups_array := groups_array;
                     FusedConv2DAttrs.channels_array := channels_array;
                     FusedConv2DAttrs.kernel_size_array := kernel_size_array;
                     FusedConv2DAttrs.post_op_array := post_op_array;
                     FusedConv2DAttrs.data_layout_array := data_layout_array;
                     FusedConv2DAttrs.kernel_layout_array := kernel_layout_array;
                     FusedConv2DAttrs.out_layout_array := out_layout_array;
                     FusedConv2DAttrs.out_dtype := out_dtype |}) [])).
Proof.
  intros op Hop.
  rewrite MakeConv_run, MakeConvWinograd_run, MakeConvGemm_run,
    MakeConvTranspose_run, MakeDeformableConv_run, MakeFusedConv2D_run.
  cbv [result]. rewrite Hop. repeat split.
Qed.

(** C10.  For each of the six builders: whenever it returns, the
    returned value is a call node whose type-argument sequence is empty
    (length zero). *)
Theorem type_arguments_are_empty :
  Forall
    (fun out : Outcome Expr =>
       forall e,
         result out = Ok e ->
         type_args <$> as_CallNode e = Some [] /\
         length <$> (type_args <$> as_CallNode e) = Some 0%nat)
    [ MakeConv data weight strides padding dilation groups channels
        kernel_size data_layout kernel_layout out_layout out_dtype op_name
        reg;
      MakeConvWinograd data weight tile_size strides padding dilation
        groups channels kernel_size data_layout kernel_layout out_layout
        out_dtype op_name reg;
      MakeConvGemm data weight strides padding dilation groups channels
        kernel_size data_layout kernel_layout out_layout out_dtype op_name
        reg;
      MakeConvTranspose data weight strides padding dilation groups
        channels kernel_size data_layout kernel_layout out_layout
        output_padding out_dtype op_name reg;
      MakeDeformableConv data offset weight strides padding dilation
        deformable_groups groups int_channels kernel_size data_layout
        kernel_layout out_layout out_dtype op_name reg;
      MakeFusedConv2D data weight1 bias1 weight2 bias2 strides_array
        padding_array dilation_array groups_array channels_array
        kernel_size_array post_op_array data_layout_array
        kernel_layout_array out_layout_array out_dtype op_name reg ].
Proof.
  rewrite MakeConv_run, MakeConvWinograd_run, MakeConvGemm_run,
    MakeConvTranspose_run, MakeDeformableConv_run, MakeFusedConv2D_run.
  repeat apply Forall_cons_2; try apply Forall_nil_2;
    cbv [result]; intros e H;
    (destruct (reg !! op_name); [ injection H as <- | discriminate H ]);
    split; reflexivity.
Qed.


(** C4.  The fused builder has no layer-count parameter and writes
    [num_layers = 2] itself: whenever it returns, the record of the
    returned call node has [num_layers = 2] and holds the caller's
    [strides_array], whatever the sequences are.  When the name is
    registered and all per-layer sequences have length 2, the builder
    does return, with [num_layers = 2] and [strides_array] equal to the
    input. *)
Theorem fused_builder_fixes_two_layers :
  (forall e,
     result
       (MakeFusedConv2D data weight1 bias1 weight2 bias2 strides_array
         padding_array dilation_array groups_array channels_array
         kernel_size_array post_op_array data_layout_array
         kernel_layout_array out_layout_array out_dtype op_name reg) = Ok e ->
     exists node : FusedConv2DAttrs.t,
       attrs <$> as_CallNode e = Some (AttrsFusedConv2D node) /\
       FusedConv2DAttrs.num_layers node = 2 /\
       FusedConv2DAttrs.strides_array node = strides_array) /\
  (forall op : Op,
     reg !! op_name = Some op ->
     length strides_array = 2%nat ->
     length padding_array = 2%nat ->
     length dilation_array = 2%nat ->
     length groups_array = 2%nat ->
     length channels_array = 2%nat ->
     length kernel_size_array = 2%nat ->
     length post_op_array = 2%nat ->
     length data_layout_array = 2%nat ->
     length kernel_layout_array = 2%nat ->
     length out_layout_array = 2%nat ->
     exists (e : Expr) (node : FusedConv2DAttrs.t),
       result
         (MakeFusedConv2D data weight1 bias1 weight2 bias2 strides_array
           padding_array dilation_array groups_array channels_array
           kernel_size_array post_op_array data_layout_array
           kernel_layout_array out_layout_array out_dtype op_name reg) = Ok e /\
       attrs <$> as_CallNode e = Some (AttrsFusedConv2D node) /\
       FusedConv2DAttrs.num_layers node = 2 /\
       FusedConv2DAttrs.strides_array node = strides_array).
Proof.
  split.
  - intros e H. returned H MakeFusedConv2D_run reg op_name.
    eexists. repeat split.
  - intros op Hop _ _ _ _ _ _ _ _ _ _.
    rewrite MakeFusedConv2D_run. cbv [result]. rewrite Hop.
    do 2 eexists. repeat split.
Qed.

(** C6.  For the same shared inputs, the winograd and the transpose
    builder write into the shared fields (strides, padding, dilation,
    groups, channels, kernel size, the three layouts, output dtype) the
    very values the plain builder writes, whatever tile size or output
    padding they are given next to them; the extra field holds the extra
    argument.  The tile size is the first field the winograd builder
    assigns. *)
Theorem extra_fields_leave_shared_fields_alone :
  forall plain : Expr,
    result
      (MakeConv data weight strides padding dilation groups channels
        kernel_size data_layout kernel_layout out_layout out_dtype op_name
        reg) = Ok plain ->
    (forall wino : Expr,
       result
         (MakeConvWinograd data weight tile_size strides padding dilation
           groups channels kernel_size data_layout kernel_layout out_layout
           out_dtype winograd_op_name reg) = Ok wino ->
       exists (a : ConvAttrs.t) (w : ConvWinogradAttrs.t),
         attrs <$> as_CallNode plain = Some (AttrsConv a) /\
         attrs <$> as_CallNode wino = Some (AttrsConvWinograd w) /\
         ConvWinogradAttrs.strides w = ConvAttrs.strides a /\
         ConvWinogradAttrs.padding w = ConvAttrs.padding a /\
         ConvWinogradAttrs.dilation w = ConvAttrs.dilation a /\
         ConvWinogradAttrs.groups w = ConvAttrs.groups a /\
         ConvWinogradAttrs.channels w = ConvAttrs.channels a /\
         ConvWinogradAttrs.kernel_size w = ConvAttrs.kernel_size a /\
         ConvWinogradAttrs.data_layout w = ConvAttrs.data_layout a /\
         ConvWinogradAttrs.kernel_layout w = ConvAttrs.kernel_layout a /\
         ConvWinogradAttrs.out_layout w = ConvAttrs.out_layout a /\
         ConvWinogradAttrs.out_dtype w = ConvAttrs.out_dtype a /\
         ConvWinogradAttrs.tile_size w = tile_size) /\
    (forall trans : Expr,
       result
         (MakeConvTranspose data weight strides padding dilation groups
           channels kernel_size data_layout kernel_layout out_layout
           output_padding out_dtype transpose_op_name reg) = Ok trans ->
       exists (a : ConvAttrs.t) (t : ConvTransposeAttrs.t),
         attrs <$> as_CallNode plain = Some (AttrsConv a) /\
         attrs <$> as_CallNode trans = Some (AttrsConvTranspose t) /\
         ConvTransposeAttrs.strides t = ConvAttrs.strides a /\
         ConvTransposeAttrs.padding t = ConvAttrs.padding a /\
         ConvTransposeAttrs.dilation t = ConvAttrs.dilation a /\
         ConvTransposeAttrs.groups t = ConvAttrs.groups a /\
         ConvTransposeAttrs.channels t = ConvAttrs.channels a /\
         ConvTransposeAttrs.kernel_size t = ConvAttrs.kernel_size a /\
         ConvTransposeAttrs.data_layout t = ConvAttrs.data_layout a /\
         ConvTransposeAttrs.kernel_layout t = ConvAttrs.kernel_layout a /\
         ConvTransposeAttrs.out_layout t = ConvAttrs.out_layout a /\
         ConvTransposeAttrs.out_dtype t = ConvAttrs.out_dtype a /\
         ConvTransposeAttrs.output_padding t = output_padding) /\
    head (trace
           (MakeConvWinograd data weight tile_size strides padding dilation
             groups channels kernel_size data_layout kernel_layout
             out_layout out_dtype winograd_op_name reg))
      = Some (EvAssign "tile_size").
Proof.
  intros plain Hplain. returned Hplain MakeConv_run reg op_name.
  repeat apply conj.
  - intros wino H. returned H MakeConvWinograd_run reg winograd_op_name.
    do 2 eexists. repeat split.
  - intros trans H. returned H MakeConvTranspose_run reg transpose_op_name.
    do 2 eexists. repeat split.
  - rewrite MakeConvWinograd_run. reflexivity.
Qed.

(** C7.  The transpose builder behaves as the plain builder does on
    the same inputs: it throws exactly when the plain builder throws,
    with the same error; when it returns, so does the plain builder, and
    the two call nodes have the same descriptor, the same two inputs
    [data; weight], the same (empty) type arguments and equal shared
    fields.  On top of that the transpose record holds the caller's
    [output_padding], and that field is assigned after the nine standard
    fields and right before the output dtype. *)
Theorem transpose_builder_contract :
  (forall err : Error,
     result
       (MakeConvTranspose data weight strides padding dilation groups
         channels kernel_size data_layout kernel_layout out_layout
         output_padding out_dtype op_name reg) = Throw err <->
     result
       (MakeConv data weight strides padding dilation groups channels
         kernel_size data_layout kernel_layout out_layout out_dtype op_name
         reg) = Throw err) /\
  (forall trans : Expr,
     result
       (MakeConvTranspose data weight strides padding dilation groups
         channels kernel_size data_layout kernel_layout out_layout
         output_padding out_dtype op_name reg) = Ok trans ->
     exists (plain : Expr) (pn tn : CallNode Expr)
            (a : ConvAttrs.t) (t : ConvTransposeAttrs.t),
       result
         (MakeConv data weight strides padding dilation groups channels
           kernel_size data_layout kernel_layout out_layout out_dtype
           op_name reg) = Ok plain /\
       as_CallNode plain = Some pn /\ as_CallNode trans = Some tn /\
       op tn = op pn /\
       args tn = [data; weight] /\ args pn = [data; weight] /\
       type_args tn = type_args pn /\
       attrs pn = AttrsConv a /\ attrs tn = AttrsConvTranspose t /\
       ConvTransposeAttrs.strides t = ConvAttrs.strides a /\
       ConvTransposeAttrs.padding t = ConvAttrs.padding a /\
       ConvTransposeAttrs.dilation t = ConvAttrs.dilation a /\
       ConvTransposeAttrs.groups t = ConvAttrs.groups a /\
       ConvTransposeAttrs.channels t = ConvAttrs.channels a /\
       ConvTransposeAttrs.kernel_size t = ConvAttrs.kernel_size a /\
       ConvTransposeAttrs.data_layout t = ConvAttrs.data_layout a /\
       ConvTransposeAttrs.kernel_layout t = ConvAttrs.kernel_layout a /\
       ConvTransposeAttrs.out_layout t = ConvAttrs.out_layout a /\
       ConvTransposeAttrs.out_dtype t = ConvAttrs.out_dtype a /\
       ConvTransposeAttrs.output_padding t = output_padding) /\
  trace
    (MakeConv data weight strides padding dilation groups channels
      kernel_size data_layout kernel_layout out_layout out_dtype op_name reg) =
  map EvAssign
    ["strides"; "padding"; "dilation"; "groups"; "channels"; "kernel_size";
     "data_layout"; "kernel_layout"; "out_layout"] ++
  [EvAssign "out_dtype"; EvOpGet op_name] /\
  trace
    (MakeConvTranspose data weight strides padding dilation groups channels
      kernel_size data_layout kernel_layout out_layout output_padding
      out_dtype op_name reg) =
  map EvAssign
    ["strides"; "padding"; "dilation"; "groups"; "channels"; "kernel_size";
     "data_layout"; "kernel_layout"; "out_layout"] ++
  [EvAssign "output_padding"; EvAssign "out_dtype"; EvOpGet op_name].
Proof.
  rewrite MakeConv_run, MakeConvTranspose_run. cbv [result trace].
  repeat apply conj; try reflexivity.
  - intros err. destruct (reg !! op_name); split; intros H;
      first [ discriminate H | exact H ].
  - intros trans H.
    destruct (reg !! op_name); [ injection H as <- | discriminate H ].
    do 5 eexists. repeat split.
Qed.

End Properties.

(** ** Independence of invocations

    Two invocations may be handed different freshly allocated records;
    [first_*] and [again_*] are what [make_object] yields for the one
    and for the other. *)

Section Statelessness.

Variables first_ConvAttrs again_ConvAttrs :
  DefaultConstructible ConvAttrs.t.
Variables first_FusedConv2DAttrs again_FusedConv2DAttrs :
  DefaultConstructible FusedConv2DAttrs.t.
Variables first_ConvWinogradAttrs again_ConvWinogradAttrs :
  DefaultConstructible ConvWinogradAttrs.t.
Variables first_ConvTransposeAttrs again_ConvTransposeAttrs :
  DefaultConstructible ConvTransposeAttrs.t.
Variables first_DeformableConvAttrs again_DeformableConvAttrs :
  DefaultConstructible DeformableConvAttrs.t.

Variables data weight offset weight1 bias1 weight2 bias2 : Expr.
Variables strides padding dilation kernel_size output_padding : Array IndexExpr.
Variables tile_size groups deformable_groups int_channels : int.
Variable channels : IndexExpr.
Variables data_layout kernel_layout out_layout : string.
Variables strides_array padding_array dilation_array
  kernel_size_array : Array (Array IndexExpr).
Variable groups_array : Array Integer.
Variable channels_array : Array IndexExpr.
Variables post_op_array data_layout_array kernel_layout_array
  out_layout_array : Array string.
Variable out_dtype : DataType.
Variable op_name : string.

Local Open Scope builder_scope.

(** C8.  For each of the six builders, take two invocations on the same
    inputs.  Run on the same registry they yield the same outcome (same
    call node or same error, same log), whatever the fresh records held.
    An invocation leaves the registry as it found it, so anything run
    after it behaves as if run before it; in particular, run one after
    the other the two invocations return the same call node (or the
    first one throws). *)
Theorem builders_are_deterministic_and_stateless :
  Forall2
    (fun first again : M Expr =>
       forall reg : OpRegistry,
         first reg = again reg /\
         registry_after (first reg) = reg /\
         (forall (B : Type) (other : M B),
            other (registry_after (first reg)) = other reg) /\
         result ((x <- first ;; y <- again ;; ret (x, y)) reg) =
         match result (first reg) with
         | Ok e => Ok (e, e)
         | Throw err => Throw err
         end)
    [ @MakeConv first_ConvAttrs data weight strides padding dilation groups
        channels kernel_size data_layout kernel_layout out_layout out_dtype
        op_name;
      @MakeConvWinograd first_ConvWinogradAttrs data weight tile_size
        strides padding dilation groups channels kernel_size data_layout
        kernel_layout out_layout out_dtype op_name;
      @MakeConvGemm first_ConvAttrs data weight strides padding dilation
        groups channels kernel_size data_layout kernel_layout out_layout
        out_dtype op_name;
      @MakeConvTranspose first_ConvTransposeAttrs data weight strides
        padding dilation groups channels kernel_size data_layout
        kernel_layout out_layout output_padding out_dtype op_name;
      @MakeDeformableConv first_DeformableConvAttrs data offset weight
        strides padding dilation deformable_groups groups int_channels
        kernel_size data_layout kernel_layout out_layout out_dtype op_name;
      @MakeFusedConv2D first_FusedConv2DAttrs data weight1 bias1 weight2
        bias2 strides_array padding_array dilation_array groups_array
        channels_array kernel_size_array post_op_array data_layout_array
        kernel_layout_array out_layout_array out_dtype op_name ]
    [ @MakeConv again_ConvAttrs data weight strides padding dilation groups
        channels kernel_size data_layout kernel_layout out_layout out_dtype
        op_name;
      @MakeConvWinograd again_ConvWinogradAttrs data weight tile_size
        strides padding dilation groups channels kernel_size data_layout
        kernel_layout out_layout out_dtype op_name;
      @MakeConvGemm again_ConvAttrs data weight strides padding dilation
        groups channels kernel_size data_layout kernel_layout out_layout
        out_dtype op_name;
      @MakeConvTranspose again_ConvTransposeAttrs data weight strides
        padding dilation groups channels kernel_size data_layout
        kernel_layout out_layout output_padding out_dtype op_name;
      @MakeDeformableConv again_DeformableConvAttrs data offset weight
        strides padding dilation deformable_groups groups int_channels
        kernel_size data_layout kernel_layout out_layout out_dtype op_name;
      @MakeFusedConv2D again_FusedConv2DAttrs data weight1 bias1 weight2
        bias2 strides_array padding_array dilation_array groups_array
        channels_array kernel_size_array post_op_array data_layout_array
        kernel_layout_array out_layout_array out_dtype op_name ].
Proof.
  repeat (constructor; [ intros reg | ]); try solve [ constructor ];
    cbv [bind ret];
    rewrite ?MakeConv_run, ?MakeConvWinograd_run, ?MakeConvGemm_run,
      ?MakeConvTranspose_run, ?MakeDeformableConv_run, ?MakeFusedConv2D_run;
    cbv [result registry_after trace];
    destruct (reg !! op_name) eqn:Hop;
    cbv [result registry_after trace];
    rewrite ?MakeConv_run, ?MakeConvWinograd_run, ?MakeConvGemm_run,
      ?MakeConvTranspose_run, ?MakeDeformableConv_run, ?MakeFusedConv2D_run;
    cbv [result registry_after trace]; rewrite ?Hop;
    repeat split.
Qed.

(** C9.  [MakeConv] and [MakeConvGemm] are the same function: applied to
    the same inputs over the same attribute record type and run on the
    same registry, they yield the same outcome, hence equal call nodes
    (or the same error). *)
Theorem MakeConvGemm_is_MakeConv :
  @MakeConv = @MakeConvGemm /\
  forall reg : OpRegistry,
    @MakeConv first_ConvAttrs data weight strides padding dilation groups
      channels kernel_size data_layout kernel_layout out_layout out_dtype
      op_name reg =
    @MakeConvGemm again_ConvAttrs data weight strides padding dilation
      groups channels kernel_size data_layout kernel_layout out_layout
      out_dtype op_name reg /\
    result
      (@MakeConv first_ConvAttrs data weight strides padding dilation groups
        channels kernel_size data_layout kernel_layout out_layout out_dtype
        op_name reg) =
    result
      (@MakeConvGemm again_ConvAttrs data weight strides padding dilation
        groups channels kernel_size data_layout kernel_layout out_layout
        out_dtype op_name reg).
Proof.
  split; [ reflexivity | ].
  intros reg. rewrite MakeConv_run, MakeConvGemm_run. split; reflexivity.
Qed.

End Statelessness.

(** ** Further properties

    What follows is not needed for the properties above; it records how
    the builders behave when the registry changes between invocations,
    how they treat the attribute record, and how the variants relate to
    the plain builder. *)

Section Registry.

Context {fresh_ConvAttrs : DefaultConstructible ConvAttrs.t}.
Context {fresh_FusedConv2DAttrs : DefaultConstructible FusedConv2DAttrs.t}.
Context {fresh_ConvWinogradAttrs : DefaultConstructible ConvWinogradAttrs.t}.
Context {fresh_ConvTransposeAttrs : DefaultConstructible ConvTransposeAttrs.t}.
Context {fresh_DeformableConvAttrs : DefaultConstructible DeformableConvAttrs.t}.

Variable reg : OpRegistry.
Variables data weight offset weight1 bias1 weight2 bias2 : Expr.
Variables strides padding dilation kernel_size output_padding : Array IndexExpr.
Variables tile_size groups deformable_groups int_channels : int.
Variable channels : IndexExpr.
Variables data_layout kernel_layout out_layout : string.
Variables strides_array padding_array dilation_array
  kernel_size_array : Array (Array IndexExpr).
Variable groups_array : Array Integer.
Variable channels_array : Array IndexExpr.
Variables post_op_array data_layout_array kernel_layout_array
  out_layout_array : Array string.
Variable out_dtype : DataType.
Variable op_name : string.

(** X2.  A builder consults the registry for its own operator name and
    for nothing else.  For each of the six builders: on any registry with
    the same entry under [op_name] it yields the same result and the
    same log; adding or removing a descriptor under another name changes
    nothing; once a descriptor is registered under [op_name] the builder
    returns a call node on that very descriptor, whatever was registered
    before; once the entry under [op_name] is removed the builder throws
    the unknown-operator error. *)
Theorem builders_read_one_registry_entry :
  Forall
    (fun b : M Expr =>
       (forall reg' : OpRegistry,
          reg' !! op_name = reg !! op_name ->
          result (b reg') = result (b reg) /\
          trace (b reg') = trace (b reg)) /\
       (forall (other : string) (o : Op),
          other <> op_name ->
          result (b (<[other := o]> reg)) = result (b reg)) /\
       (forall other : string,
          other <> op_name ->
          result (b (delete other reg)) = result (b reg)) /\
       (forall o : Op,
        exists e : Expr,
          result (b (<[op_name := o]> reg)) = Ok e /\
          op <$> as_CallNode e = Some o) /\
       result (b (delete op_name reg)) = Throw (UnknownOperator op_name))
    [ MakeConv data weight strides padding dilation groups channels
        kernel_size data_layout kernel_layout out_layout out_dtype op_name;
      MakeConvWinograd data weight tile_size strides padding dilation groups
        channels kernel_size data_layout kernel_layout out_layout out_dtype
        op_name;
      MakeConvGemm data weight strides padding dilation groups channels
        kernel_size data_layout kernel_layout out_layout out_dtype op_name;
      MakeConvTranspose data weight strides padding dilation groups channels
        kernel_size data_layout kernel_layout out_layout output_padding
        out_dtype op_name;
      MakeDeformableConv data offset weight strides padding dilation
        deformable_groups groups int_channels kernel_size data_layout
        kernel_layout out_layout out_dtype op_name;
      MakeFusedConv2D data weight1 bias1 weight2 bias2 strides_array
        padding_array dilation_array groups_array channels_array
        kernel_size_array post_op_array data_layout_array
        kernel_layout_array out_layout_array out_dtype op_name ].
Proof.
  repeat apply Forall_cons_2; try apply Forall_nil_2;
    (repeat apply conj;
     [ intros reg' Hsame | intros other o Hne | intros other Hne
     | intros o; eexists | ]);
    rewrite ?MakeConv_run, ?MakeConvWinograd_run, ?MakeConvGemm_run,
      ?MakeConvTranspose_run, ?MakeDeformableConv_run, ?MakeFusedConv2D_run;
    cbv [result trace];
    rewrite ?Hsame, ?lookup_insert_eq, ?lookup_delete_eq,
      ?(lookup_insert_ne reg other op_name o Hne),
      ?(lookup_delete_ne reg other op_name Hne);
    repeat split.
Qed.

End Registry.


Section Assignments.

Context {fresh_ConvAttrs : DefaultConstructible ConvAttrs.t}.
Context {fresh_FusedConv2DAttrs : DefaultConstructible FusedConv2DAttrs.t}.
Context {fresh_ConvWinogradAttrs : DefaultConstructible ConvWinogradAttrs.t}.
Context {fresh_ConvTransposeAttrs : DefaultConstructible ConvTransposeAttrs.t}.
Context {fresh_DeformableConvAttrs : DefaultConstructible DeformableConvAttrs.t}.

Variable reg : OpRegistry.
Variables data weight offset weight1 bias1 weight2 bias2 : Expr.
Variables strides padding dilation kernel_size output_padding : Array IndexExpr.
Variables tile_size groups deformable_groups int_channels : int.
Variable channels : IndexExpr.
Variables data_layout kernel_layout out_layout : string.
Variables strides_array padding_array dilation_array
  kernel_size_array : Array (Array IndexExpr).
Variable groups_array : Array Integer.
Variable channels_array : Array IndexExpr.
Variables post_op_array data_layout_array kernel_layout_array
  out_layout_array : Array string.
Variable out_dtype : DataType.
Variable op_name : string.

(** X3.  Every builder assigns every field of its attribute record,
    each exactly once, and only then looks the operator up: the names it
    assigns are pairwise distinct, every field of the record is among
    them, every assigned name is a field of the record, and the lookup
    is the last entry of the log. *)
Theorem builders_assign_each_field_once :
  (NoDup
     (assigned_fields
        (trace
           (MakeConv data weight strides padding dilation groups channels
             kernel_size data_layout kernel_layout out_layout out_dtype
             op_name reg))) /\
   (forall (A : Type) (f : field ConvAttrs.t A),
      field_name f ∈
      assigned_fields
        (trace
           (MakeConv data weight strides padding dilation groups channels
             kernel_size data_layout kernel_layout out_layout out_dtype
             op_name reg))) /\
   (forall n : string,
      n ∈
      assigned_fields
        (trace
           (MakeConv data weight strides padding dilation groups channels
             kernel_size data_layout kernel_layout out_layout out_dtype
             op_name reg)) ->
      exists (A : Type) (f : field ConvAttrs.t A), field_name f = n) /\
   last
     (trace
        (MakeConv data weight strides padding dilation groups channels
          kernel_size data_layout kernel_layout out_layout out_dtype op_name
          reg)) =
   Some (EvOpGet op_name)) /\
  (NoDup
     (assigned_fields
        (trace
           (MakeConvWinograd data weight tile_size strides padding dilation
             groups channels kernel_size data_layout kernel_layout
             out_layout out_dtype op_name reg))) /\
   (forall (A : Type) (f : field ConvWinogradAttrs.t A),
      field_name f ∈
      assigned_fields
        (trace
           (MakeConvWinograd data weight tile_size strides padding dilation
             groups channels kernel_size data_layout kernel_layout
             out_layout out_dtype op_name reg))) /\
   (forall n : string,
      n ∈
      assigned_fields
        (trace
           (MakeConvWinograd data weight tile_size strides padding dilation
             groups channels kernel_size data_layout kernel_layout
             out_layout out_dtype op_name reg)) ->
      exists (A : Type) (f : field ConvWinogradAttrs.t A), field_name f = n) /\
   last
     (trace
        (MakeConvWinograd data weight tile_size strides padding dilation
          groups channels kernel_size data_layout kernel_layout out_layout
          out_dtype op_name reg)) =
   Some (EvOpGet op_name)) /\
  (NoDup
     (assigned_fields
        (trace
           (MakeConvGemm data weight strides padding dilation groups
             channels kernel_size data_layout kernel_layout out_layout
             out_dtype op_name reg))) /\
   (forall (A : Type) (f : field ConvAttrs.t A),
      field_name f ∈
      assigned_fields
        (trace
           (MakeConvGemm data weight strides padding dilation groups
             channels kernel_size data_layout kernel_layout out_layout
             out_dtype op_name reg))) /\
   (forall n : string,
      n ∈
      assigned_fields
        (trace
           (MakeConvGemm data weight strides padding dilation groups
             channels kernel_size data_layout kernel_layout out_layout
             out_dtype op_name reg)) ->
      exists (A : Type) (f : field ConvAttrs.t A), field_name f = n) /\
   last
     (trace
        (MakeConvGemm data weight strides padding dilation groups channels
          kernel_size data_layout kernel_layout out_layout out_dtype op_name
          reg)) =
   Some (EvOpGet op_name)) /\
  (NoDup
     (assigned_fields
        (trace
           (MakeConvTranspose data weight strides padding dilation groups
             channels kernel_size data_layout kernel_layout out_layout
             output_padding out_dtype op_name reg))) /\
   (forall (A : Type) (f : field ConvTransposeAttrs.t A),
      field_name f ∈
      assigned_fields
        (trace
           (MakeConvTranspose data weight strides padding dilation groups
             channels kernel_size data_layout kernel_layout out_layout
             output_padding out_dtype op_name reg))) /\
   (forall n : string,
      n ∈
      assigned_fields
        (trace
           (MakeConvTranspose data weight strides padding dilation groups
             channels kernel_size data_layout kernel_layout out_layout
             output_padding out_dtype op_name reg)) ->
      exists (A : Type) (f : field ConvTransposeAttrs.t A), field_name f = n) /\
   last
     (trace
        (MakeConvTranspose data weight strides padding dilation groups
          channels kernel_size data_layout kernel_layout out_layout
          output_padding out_dtype op_name reg)) =
   Some (EvOpGet op_name)) /\
  (NoDup
     (assigned_fields
        (trace
           (MakeDeformableConv data offset weight strides padding dilation
             deformable_groups groups int_channels kernel_size data_layout
             kernel_layout out_layout out_dtype op_name reg))) /\
   (forall (A : Type) (f : field DeformableConvAttrs.t A),
      field_name f ∈
      assigned_fields
        (trace
           (MakeDeformableConv data offset weight strides padding dilation
             deformable_groups groups int_channels kernel_size data_layout
             kernel_layout out_layout out_dtype op_name reg))) /\
   (forall n : string,
      n ∈
      assigned_fields
        (trace
           (MakeDeformableConv data offset weight strides padding dilation
             deformable_groups groups int_channels kernel_size data_layout
             kernel_layout out_layout out_dtype op_name reg)) ->
      exists (A : Type) (f : field DeformableConvAttrs.t A), field_name f = n) /\
   last
     (trace
        (MakeDeformableConv data offset weight strides padding dilation
          deformable_groups groups int_channels kernel_size data_layout
          kernel_layout out_layout out_dtype op_name reg)) =
   Some (EvOpGet op_name)) /\
  (NoDup
     (assigned_fields
        (trace
           (MakeFusedConv2D data weight1 bias1 weight2 bias2 strides_array
             padding_array dilation_array groups_array channels_array
             kernel_size_array post_op_array data_layout_array
             kernel_layout_array out_layout_array out_dtype op_name reg))) /\
   (forall (A : Type) (f : field FusedConv2DAttrs.t A),
      field_name f ∈
      assigned_fields
        (trace
           (MakeFusedConv2D data weight1 bias1 weight2 bias2 strides_array
             padding_array dilation_array groups_array channels_array
             kernel_size_array post_op_array data_layout_array
             kernel_layout_array out_layout_array out_dtype op_name reg))) /\
   (forall n : string,
      n ∈
      assigned_fields
        (trace
           (MakeFusedConv2D data weight1 bias1 weight2 bias2 strides_array
             padding_array dilation_array groups_array channels_array
             kernel_size_array post_op_array data_layout_array
             kernel_layout_array out_layout_array out_dtype op_name reg)) ->
      exists (A : Type) (f : field FusedConv2DAttrs.t A), field_name f = n) /\
   last
     (trace
        (MakeFusedConv2D data weight1 bias1 weight2 bias2 strides_array
          padding_array dilation_array groups_array channels_array
          kernel_size_array post_op_array data_layout_array
          kernel_layout_array out_layout_array out_dtype op_name reg)) =
   Some (EvOpGet op_name)).
Proof.
  rewrite MakeConv_run, MakeConvWinograd_run, MakeConvGemm_run,
    MakeConvTranspose_run, MakeDeformableConv_run, MakeFusedConv2D_run.
  cbv [trace].
  repeat apply conj.
  - apply (bool_decide_unpack _); vm_compute; exact I.
  - intros A f; destruct f; apply (bool_decide_unpack _); vm_compute; exact I.
  - intros n Hn; cbn in Hn.
    apply elem_of_cons in Hn as [-> | Hn];
      [ exists _, ConvAttrs.strides_; reflexivity | ].
    apply elem_of_cons in Hn as [-> | Hn];
      [ exists _, ConvAttrs.padding_; reflexivity | ].
    apply elem_of_cons in Hn as [-> | Hn];
      [ exists _, ConvAttrs.dilation_; reflexivity | ].
    apply elem_of_cons in Hn as [-> | Hn];
      [ exists _, ConvAttrs.groups_; reflexivity | ].
    apply elem_of_cons in Hn as [-> | Hn];
      [ exists _, ConvAttrs.channels_; reflexivity | ].
    apply elem_of_cons in Hn as [-> | Hn];
      [ exists _, ConvAttrs.kernel_size_; reflexivity | ].
    apply elem_of_cons in Hn as [-> | Hn];
      [ exists _, ConvAttrs.data_layout_; reflexivity | ].
    apply elem_of_cons in Hn as [-> | Hn];
      [ exists _, ConvAttrs.kernel_layout_; reflexivity | ].
    apply elem_of_cons in Hn as [-> | Hn];
      [ exists _, ConvAttrs.out_layout_; reflexivity | ].
    apply elem_of_cons in Hn as [-> | Hn];
      [ exists _, ConvAttrs.out_dtype_; reflexivity | ].
    apply elem_of_nil in Hn; destruct Hn.
  - reflexivity.
  - apply (bool_decide_unpack _); vm_compute; exact I.
  - intros A f; destruct f; apply (bool_decide_unpack _); vm_compute; exact I.
  - intros n Hn; cbn in Hn.
    apply elem_of_cons in Hn as [-> | Hn];
      [ exists _, ConvWinogradAttrs.tile_size_; reflexivity | ].
    apply elem_of_cons in Hn as [-> | Hn];
      [ exists _, ConvWinogradAttrs.strides_; reflexivity | ].
    apply elem_of_cons in Hn as [-> | Hn];
      [ exists _, ConvWinogradAttrs.padding_; reflexivity | ].
    apply elem_of_cons in Hn as [-> | Hn];
      [ exists _, ConvWinogradAttrs.dilation_; reflexivity | ].
    apply elem_of_cons in Hn as [-> | Hn];
      [ exists _, ConvWinogradAttrs.groups_; reflexivity | ].
    apply elem_of_cons in Hn as [-> | Hn];
      [ exists _, ConvWinogradAttrs.channels_; reflexivity | ].
    apply elem_of_cons in Hn as [-> | Hn];
      [ exists _, ConvWinogradAttrs.kernel_size_; reflexivity | ].
    apply elem_of_cons in Hn as [-> | Hn];
      [ exists _, ConvWinogradAttrs.data_layout_; reflexivity | ].
    apply elem_of_cons in Hn as [-> | Hn];
      [ exists _, ConvWinogradAttrs.kernel_layout_; reflexivity | ].
    apply elem_of_cons in Hn as [-> | Hn];
      [ exists _, ConvWinogradAttrs.out_layout_; reflexivity | ].
    apply elem_of_cons in Hn as [-> | Hn];
      [ exists _, ConvWinogradAttrs.out_dtype_; reflexivity | ].
    apply elem_of_nil in Hn; destruct Hn.
  - reflexivity.
  - apply (bool_decide_unpack _); vm_compute; exact I.
  - intros A f; destruct f; apply (bool_decide_unpack _); vm_compute; exact I.
  - intros n Hn; cbn in Hn.
    apply elem_of_cons in Hn as [-> | Hn];
      [ exists _, ConvAttrs.strides_; reflexivity | ].
    apply elem_of_cons in Hn as [-> | Hn];
      [ exists _, ConvAttrs.padding_; reflexivity | ].
    apply elem_of_cons in Hn as [-> | Hn];
      [ exists _, ConvAttrs.dilation_; reflexivity | ].
    apply elem_of_cons in Hn as [-> | Hn];
      [ exists _, ConvAttrs.groups_; reflexivity | ].
    apply elem_of_cons in Hn as [-> | Hn];
      [ exists _, ConvAttrs.channels_; reflexivity | ].
    apply elem_of_cons in Hn as [-> | Hn];
      [ exists _, ConvAttrs.kernel_size_; reflexivity | ].
    apply elem_of_cons in Hn as [-> | Hn];
      [ exists _, ConvAttrs.data_layout_; reflexivity | ].
    apply elem_of_cons in Hn as [-> | Hn];
      [ exists _, ConvAttrs.kernel_layout_; reflexivity | ].
    apply elem_of_cons in Hn as [-> | Hn];
      [ exists _, ConvAttrs.out_layout_; reflexivity | ].
    apply elem_of_cons in Hn as [-> | Hn];
      [ exists _, ConvAttrs.out_dtype_; reflexivity | ].
    apply elem_of_nil in Hn; destruct Hn.
  - reflexivity.
  - apply (bool_decide_unpack _); vm_compute; exact I.
  - intros A f; destruct f; apply (bool_decide_unpack _); vm_compute; exact I.
  - intros n Hn; cbn in Hn.
    apply elem_of_cons in Hn as [-> | Hn];
      [ exists _, ConvTransposeAttrs.strides_; reflexivity | ].
    apply elem_of_cons in Hn as [-> | Hn];
      [ exists _, ConvTransposeAttrs.padding_; reflexivity | ].
    apply elem_of_cons in Hn as [-> | Hn];
      [ exists _, ConvTransposeAttrs.dilation_; reflexivity | ].
    apply elem_of_cons in Hn as [-> | Hn];
      [ exists _, ConvTransposeAttrs.groups_; reflexivity | ].
    apply elem_of_cons in Hn as [-> | Hn];
      [ exists _, ConvTransposeAttrs.channels_; reflexivity | ].
    apply elem_of_cons in Hn as [-> | Hn];
      [ exists _, ConvTransposeAttrs.kernel_size_; reflexivity | ].
    apply elem_of_cons in Hn as [-> | Hn];
      [ exists _, ConvTransposeAttrs.data_layout_; reflexivity | ].
    apply elem_of_cons in Hn as [-> | Hn];
      [ exists _, ConvTransposeAttrs.kernel_layout_; reflexivity | ].
    apply elem_of_cons in Hn as [-> | Hn];
      [ exists _, ConvTransposeAttrs.out_layout_; reflexivity | ].
    apply elem_of_cons in Hn as [-> | Hn];
      [ exists _, ConvTransposeAttrs.output_padding_; reflexivity | ].
    apply elem_of_cons in Hn as [-> | Hn];
      [ exists _, ConvTransposeAttrs.out_dtype_; reflexivity | ].
    apply elem_of_nil in Hn; destruct Hn.
  - reflexivity.
  - apply (bool_decide_unpack _); vm_compute; exact I.
  - intros A f; destruct f; apply (bool_decide_unpack _); vm_compute; exact I.
  - intros n Hn; cbn in Hn.
    apply elem_of_cons in Hn as [-> | Hn];
      [ exists _, DeformableConvAttrs.strides_; reflexivity | ].
    apply elem_of_cons in Hn as [-> | Hn];
      [ exists _, DeformableConvAttrs.padding_; reflexivity | ].
    apply elem_of_cons in Hn as [-> | Hn];
      [ exists _, DeformableConvAttrs.dilation_; reflexivity | ].
    apply elem_of_cons in Hn as [-> | Hn];
      [ exists _, DeformableConvAttrs.deformable_groups_; reflexivity | ].
    apply elem_of_cons in Hn as [-> | Hn];
      [ exists _, DeformableConvAttrs.groups_; reflexivity | ].
    apply elem_of_cons in Hn as [-> | Hn];
      [ exists _, DeformableConvAttrs.channels_; reflexivity | ].
    apply elem_of_cons in Hn as [-> | Hn];
      [ exists _, DeformableConvAttrs.kernel_size_; reflexivity | ].
    apply elem_of_cons in Hn as [-> | Hn];
      [ exists _, DeformableConvAttrs.data_layout_; reflexivity | ].
    apply elem_of_cons in Hn as [-> | Hn];
      [ exists _, DeformableConvAttrs.kernel_layout_; reflexivity | ].
    apply elem_of_cons in Hn as [-> | Hn];
      [ exists _, DeformableConvAttrs.out_layout_; reflexivity | ].
    apply elem_of_cons in Hn as [-> | Hn];
      [ exists _, DeformableConvAttrs.out_dtype_; reflexivity | ].
    apply elem_of_nil in Hn; destruct Hn.
  - reflexivity.
  - apply (bool_decide_unpack _); vm_compute; exact I.
  - intros A f; destruct f; apply (bool_decide_unpack _); vm_compute; exact I.
  - intros n Hn; cbn in Hn.
    apply elem_of_cons in Hn as [-> | Hn];
      [ exists _, FusedConv2DAttrs.num_layers_; reflexivity | ].
    apply elem_of_cons in Hn as [-> | Hn];
      [ exists _, FusedConv2DAttrs.strides_array_; reflexivity | ].
    apply elem_of_cons in Hn as [-> | Hn];
      [ exists _, FusedConv2DAttrs.padding_array_; reflexivity | ].
    apply elem_of_cons in Hn as [-> | Hn];
      [ exists _, FusedConv2DAttrs.dilation_array_; reflexivity | ].
    apply elem_of_cons in Hn as [-> | Hn];
      [ exists _, FusedConv2DAttrs.groups_array_; reflexivity | ].
    apply elem_of_cons in Hn as [-> | Hn];
      [ exists _, FusedConv2DAttrs.channels_array_; reflexivity | ].
    apply elem_of_cons in Hn as [-> | Hn];
      [ exists _, FusedConv2DAttrs.kernel_size_array_; reflexivity | ].
    apply elem_of_cons in Hn as [-> | Hn];
      [ exists _, FusedConv2DAttrs.post_op_array_; reflexivity | ].
    apply elem_of_cons in Hn as [-> | Hn];
      [ exists _, FusedConv2DAttrs.data_layout_array_; reflexivity | ].
    apply elem_of_cons in Hn as [-> | Hn];
      [ exists _, FusedConv2DAttrs.kernel_layout_array_; reflexivity | ].
    apply elem_of_cons in Hn as [-> | Hn];
      [ exists _, FusedConv2DAttrs.out_layout_array_; reflexivity | ].
    apply elem_of_cons in Hn as [-> | Hn];
      [ exists _, FusedConv2DAttrs.out_dtype_; reflexivity | ].
    apply elem_of_nil in Hn; destruct Hn.
  - reflexivity.
Qed.

End Assignments.


Section Injectivity.

Context {fresh_ConvAttrs fresh_ConvAttrs' : DefaultConstructible ConvAttrs.t}.
Context {fresh_FusedConv2DAttrs fresh_FusedConv2DAttrs' :
  DefaultConstructible FusedConv2DAttrs.t}.
Context {fresh_ConvWinogradAttrs fresh_ConvWinogradAttrs' :
  DefaultConstructible ConvWinogradAttrs.t}.
Context {fresh_ConvTransposeAttrs fresh_ConvTransposeAttrs' :
  DefaultConstructible ConvTransposeAttrs.t}.
Context {fresh_DeformableConvAttrs fresh_DeformableConvAttrs' :
  DefaultConstructible DeformableConvAttrs.t}.

Variables reg reg' : OpRegistry.
Variables data weight offset weight1 bias1 weight2 bias2 : Expr.
Variables data' weight' offset' weight1' bias1' weight2' bias2' : Expr.
Variables strides padding dilation kernel_size output_padding : Array IndexExpr.
Variables strides' padding' dilation' kernel_size'
  output_padding' : Array IndexExpr.
Variables tile_size groups deformable_groups int_channels : int.
Variables tile_size' groups' deformable_groups' int_channels' : int.
Variables channels channels' : IndexExpr.
Variables data_layout kernel_layout out_layout : string.
Variables data_layout' kernel_layout' out_layout' : string.
Variables strides_array padding_array dilation_array
  kernel_size_array : Array (Array IndexExpr).
Variables strides_array' padding_array' dilation_array'
  kernel_size_array' : Array (Array IndexExpr).
Variables groups_array groups_array' : Array Integer.
Variables channels_array channels_array' : Array IndexExpr.
Variables post_op_array data_layout_array kernel_layout_array
  out_layout_array : Array string.
Variables post_op_array' data_layout_array' kernel_layout_array'
  out_layout_array' : Array string.
Variables out_dtype out_dtype' : DataType.
Variables op_name op_name' : string.

(** X1.  A call node determines the configuration it was built from.  For
    each builder: if two invocations, possibly on different registries
    and under different operator names, return the same call node, then
    they were given the same inputs and the same value for every
    parameter, and their names resolve to the same descriptor.  So two
    configurations that differ anywhere never yield the same node. *)
Theorem builders_are_injective :
  (forall e,
     result
       (@MakeConv fresh_ConvAttrs data weight strides padding dilation
         groups channels kernel_size data_layout kernel_layout out_layout
         out_dtype op_name reg) = Ok e ->
     result
       (@MakeConv fresh_ConvAttrs' data' weight' strides' padding' dilation'
         groups' channels' kernel_size' data_layout' kernel_layout'
         out_layout' out_dtype' op_name' reg') = Ok e ->
     data = data' /\ weight = weight' /\ strides = strides' /\
     padding = padding' /\ dilation = dilation' /\ groups = groups' /\
     channels = channels' /\ kernel_size = kernel_size' /\
     data_layout = data_layout' /\ kernel_layout = kernel_layout' /\
     out_layout = out_layout' /\ out_dtype = out_dtype' /\
     reg !! op_name = reg' !! op_name') /\
  (forall e,
     result
       (@MakeConvWinograd fresh_ConvWinogradAttrs data weight tile_size
         strides padding dilation groups channels kernel_size data_layout
         kernel_layout out_layout out_dtype op_name reg) = Ok e ->
     result
       (@MakeConvWinograd fresh_ConvWinogradAttrs' data' weight' tile_size'
         strides' padding' dilation' groups' channels' kernel_size'
         data_layout' kernel_layout' out_layout' out_dtype' op_name' reg') = Ok e ->
     data = data' /\ weight = weight' /\ tile_size = tile_size' /\
     strides = strides' /\ padding = padding' /\ dilation = dilation' /\
     groups = groups' /\ channels = channels' /\
     kernel_size = kernel_size' /\ data_layout = data_layout' /\
     kernel_layout = kernel_layout' /\ out_layout = out_layout' /\
     out_dtype = out_dtype' /\
     reg !! op_name = reg' !! op_name') /\
  (forall e,
     result
       (@MakeConvGemm fresh_ConvAttrs data weight strides padding dilation
         groups channels kernel_size data_layout kernel_layout out_layout
         out_dtype op_name reg) = Ok e ->
     result
       (@MakeConvGemm fresh_ConvAttrs' data' weight' strides' padding'
         dilation' groups' channels' kernel_size' data_layout'
         kernel_layout' out_layout' out_dtype' op_name' reg') = Ok e ->
     data = data' /\ weight = weight' /\ strides = strides' /\
     padding = padding' /\ dilation = dilation' /\ groups = groups' /\
     channels = channels' /\ kernel_size = kernel_size' /\
     data_layout = data_layout' /\ kernel_layout = kernel_layout' /\
     out_layout = out_layout' /\ out_dtype = out_dtype' /\
     reg !! op_name = reg' !! op_name') /\
  (forall e,
     result
       (@MakeConvTranspose fresh_ConvTransposeAttrs data weight strides
         padding dilation groups channels kernel_size data_layout
         kernel_layout out_layout output_padding out_dtype op_name reg) = Ok e ->
     result
       (@MakeConvTranspose fresh_ConvTransposeAttrs' data' weight' strides'
         padding' dilation' groups' channels' kernel_size' data_layout'
         kernel_layout' out_layout' output_padding' out_dtype' op_name' reg') = Ok e ->
     data = data' /\ weight = weight' /\ strides = strides' /\
     padding = padding' /\ dilation = dilation' /\ groups = groups' /\
     channels = channels' /\ kernel_size = kernel_size' /\
     data_layout = data_layout' /\ kernel_layout = kernel_layout' /\
     out_layout = out_layout' /\ output_padding = output_padding' /\
     out_dtype = out_dtype' /\
     reg !! op_name = reg' !! op_name') /\
  (forall e,
     result
       (@MakeDeformableConv fresh_DeformableConvAttrs data offset weight
         strides padding dilation deformable_groups groups int_channels
         kernel_size data_layout kernel_layout out_layout out_dtype op_name
         reg) = Ok e ->
     result
       (@MakeDeformableConv fresh_DeformableConvAttrs' data' offset' weight'
         strides' padding' dilation' deformable_groups' groups'
         int_channels' kernel_size' data_layout' kernel_layout' out_layout'
         out_dtype' op_name' reg') = Ok e ->
     data = data' /\ offset = offset' /\ weight = weight' /\
     strides = strides' /\ padding = padding' /\ dilation = dilation' /\
     deformable_groups = deformable_groups' /\ groups = groups' /\
     int_channels = int_channels' /\ kernel_size = kernel_size' /\
     data_layout = data_layout' /\ kernel_layout = kernel_layout' /\
     out_layout = out_layout' /\ out_dtype = out_dtype' /\
     reg !! op_name = reg' !! op_name') /\
  (forall e,
     result
       (@MakeFusedConv2D fresh_FusedConv2DAttrs data weight1 bias1 weight2
         bias2 strides_array padding_array dilation_array groups_array
         channels_array kernel_size_array post_op_array data_layout_array
         kernel_layout_array out_layout_array out_dtype op_name reg) = Ok e ->
     result
       (@MakeFusedConv2D fresh_FusedConv2DAttrs' data' weight1' bias1'
         weight2' bias2' strides_array' padding_array' dilation_array'
         groups_array' channels_array' kernel_size_array' post_op_array'
         data_layout_array' kernel_layout_array' out_layout_array'
         out_dtype' op_name' reg') = Ok e ->
     data = data' /\ weight1 = weight1' /\ bias1 = bias1' /\
     weight2 = weight2' /\ bias2 = bias2' /\
     strides_array = strides_array' /\ padding_array = padding_array' /\
     dilation_array = dilation_array' /\ groups_array = groups_array' /\
     channels_array = channels_array' /\
     kernel_size_array = kernel_size_array' /\
     post_op_array = post_op_array' /\
     data_layout_array = data_layout_array' /\
     kernel_layout_array = kernel_layout_array' /\
     out_layout_array = out_layout_array' /\ out_dtype = out_dtype' /\
     reg !! op_name = reg' !! op_name').
Proof.
  repeat apply conj; intros e H H'.
  - rewrite (@MakeConv_run fresh_ConvAttrs) in H.
    rewrite (@MakeConv_run fresh_ConvAttrs') in H'.
    cbv [result] in H, H'.
    destruct (reg !! op_name); [ | discriminate H ].
    destruct (reg' !! op_name'); [ | discriminate H' ].
    rewrite <- H' in H. injection H; intros; subst.
    repeat split.
  - rewrite (@MakeConvWinograd_run fresh_ConvWinogradAttrs) in H.
    rewrite (@MakeConvWinograd_run fresh_ConvWinogradAttrs') in H'.
    cbv [result] in H, H'.
    destruct (reg !! op_name); [ | discriminate H ].
    destruct (reg' !! op_name'); [ | discriminate H' ].
    rewrite <- H' in H. injection H; intros; subst.
    repeat split.
  - rewrite (@MakeConvGemm_run fresh_ConvAttrs) in H.
    rewrite (@MakeConvGemm_run fresh_ConvAttrs') in H'.
    cbv [result] in H, H'.
    destruct (reg !! op_name); [ | discriminate H ].
    destruct (reg' !! op_name'); [ | discriminate H' ].
    rewrite <- H' in H. injection H; intros; subst.
    repeat split.
  - rewrite (@MakeConvTranspose_run fresh_ConvTransposeAttrs) in H.
    rewrite (@MakeConvTranspose_run fresh_ConvTransposeAttrs') in H'.
    cbv [result] in H, H'.
    destruct (reg !! op_name); [ | discriminate H ].
    destruct (reg' !! op_name'); [ | discriminate H' ].
    rewrite <- H' in H. injection H; intros; subst.
    repeat split.
  - rewrite (@MakeDeformableConv_run fresh_DeformableConvAttrs) in H.
    rewrite (@MakeDeformableConv_run fresh_DeformableConvAttrs') in H'.
    cbv [result] in H, H'.
    destruct (reg !! op_name); [ | discriminate H ].
    destruct (reg' !! op_name'); [ | discriminate H' ].
    rewrite <- H' in H. injection H; intros; subst.
    repeat split.
  - rewrite (@MakeFusedConv2D_run fresh_FusedConv2DAttrs) in H.
    rewrite (@MakeFusedConv2D_run fresh_FusedConv2DAttrs') in H'.
    cbv [result] in H, H'.
    destruct (reg !! op_name); [ | discriminate H ].
    destruct (reg' !! op_name'); [ | discriminate H' ].
    rewrite <- H' in H. injection H; intros; subst.
    repeat split.
Qed.

End Injectivity.


Section Variants.

Context {fresh_ConvAttrs : DefaultConstructible ConvAttrs.t}.
Context {fresh_FusedConv2DAttrs : DefaultConstructible FusedConv2DAttrs.t}.
Context {fresh_ConvWinogradAttrs : DefaultConstructible ConvWinogradAttrs.t}.
Context {fresh_ConvTransposeAttrs : DefaultConstructible ConvTransposeAttrs.t}.
Context {fresh_DeformableConvAttrs : DefaultConstructible DeformableConvAttrs.t}.

Variable reg : OpRegistry.
Variables data weight offset weight1 bias1 weight2 bias2 : Expr.
Variables strides padding dilation kernel_size output_padding : Array IndexExpr.
Variables tile_size groups deformable_groups int_channels : int.
Variable channels : IndexExpr.
Variables data_layout kernel_layout out_layout : string.
Variables strides_array padding_array dilation_array
  kernel_size_array : Array (Array IndexExpr).
Variable groups_array : Array Integer.
Variable channels_array : Array IndexExpr.
Variables post_op_array data_layout_array kernel_layout_array
  out_layout_array : Array string.
Variable out_dtype : DataType.
Variable op_name : string.

(** X4.  On the same inputs and operator name the winograd builder follows
    the plain builder step for step: it throws exactly when the plain
    builder throws, with the same error; when it returns, the two call
    nodes have the same descriptor, the same inputs and the same type
    arguments; and its log is the plain builder's log with the tile-size
    assignment put in front. *)
Theorem winograd_builder_follows_plain :
  (forall err : Error,
     result
       (MakeConvWinograd data weight tile_size strides padding dilation
         groups channels kernel_size data_layout kernel_layout out_layout
         out_dtype op_name reg) = Throw err <->
     result
       (MakeConv data weight strides padding dilation groups channels
         kernel_size data_layout kernel_layout out_layout out_dtype op_name
         reg) = Throw err) /\
  (forall wino : Expr,
     result
       (MakeConvWinograd data weight tile_size strides padding dilation
         groups channels kernel_size data_layout kernel_layout out_layout
         out_dtype op_name reg) = Ok wino ->
     exists (plain : Expr) (pn wn : CallNode Expr),
       result
         (MakeConv data weight strides padding dilation groups channels
           kernel_size data_layout kernel_layout out_layout out_dtype
           op_name reg) = Ok plain /\
       as_CallNode plain = Some pn /\ as_CallNode wino = Some wn /\
       op wn = op pn /\ args wn = args pn /\ type_args wn = type_args pn) /\
  trace
    (MakeConvWinograd data weight tile_size strides padding dilation groups
      channels kernel_size data_layout kernel_layout out_layout out_dtype
      op_name reg) =
  EvAssign "tile_size" ::
  trace
    (MakeConv data weight strides padding dilation groups channels
      kernel_size data_layout kernel_layout out_layout out_dtype op_name reg).
Proof.
  rewrite MakeConv_run, MakeConvWinograd_run. cbv [result trace].
  repeat apply conj; try reflexivity.
  - intros err. destruct (reg !! op_name); split; intros H;
      first [ discriminate H | exact H ].
  - intros wino H.
    destruct (reg !! op_name); [ injection H as <- | discriminate H ].
    do 3 eexists. repeat split.
Qed.

(** X5.  On the same inputs and operator name the deformable builder
    differs from the plain builder in three places only.  It throws exactly when
    the plain builder throws, with the same error.  When it returns, its
    call node has the plain node's descriptor and type arguments; its
    inputs are the plain inputs with [offset] put between [data] and
    [weight], so that dropping the input at position 1 gives the plain
    inputs back; strides, padding, dilation, groups, kernel size, the
    three layouts and the output dtype are the plain ones; and the
    record holds the caller's [deformable_groups] and integer channel
    count.  Its log is the plain log with the [deformable_groups]
    assignment put between [dilation] and [groups]. *)
Theorem deformable_builder_follows_plain :
  (forall err : Error,
     result
       (MakeDeformableConv data offset weight strides padding dilation
         deformable_groups groups int_channels kernel_size data_layout
         kernel_layout out_layout out_dtype op_name reg) = Throw err <->
     result
       (MakeConv data weight strides padding dilation groups channels
         kernel_size data_layout kernel_layout out_layout out_dtype op_name
         reg) = Throw err) /\
  (forall deform : Expr,
     result
       (MakeDeformableConv data offset weight strides padding dilation
         deformable_groups groups int_channels kernel_size data_layout
         kernel_layout out_layout out_dtype op_name reg) = Ok deform ->
     exists (plain : Expr) (pn dn : CallNode Expr)
            (a : ConvAttrs.t) (t : DeformableConvAttrs.t),
       result
         (MakeConv data weight strides padding dilation groups channels
           kernel_size data_layout kernel_layout out_layout out_dtype
           op_name reg) = Ok plain /\
       as_CallNode plain = Some pn /\ as_CallNode deform = Some dn /\
       op dn = op pn /\ type_args dn = type_args pn /\
       args pn = [data; weight] /\ args dn = [data; offset; weight] /\
       delete 1%nat (args dn) = args pn /\
       attrs pn = AttrsConv a /\ attrs dn = AttrsDeformableConv t /\
       DeformableConvAttrs.strides t = ConvAttrs.strides a /\
       DeformableConvAttrs.padding t = ConvAttrs.padding a /\
       DeformableConvAttrs.dilation t = ConvAttrs.dilation a /\
       DeformableConvAttrs.groups t = ConvAttrs.groups a /\
       DeformableConvAttrs.kernel_size t = ConvAttrs.kernel_size a /\
       DeformableConvAttrs.data_layout t = ConvAttrs.data_layout a /\
       DeformableConvAttrs.kernel_layout t = ConvAttrs.kernel_layout a /\
       DeformableConvAttrs.out_layout t = ConvAttrs.out_layout a /\
       DeformableConvAttrs.out_dtype t = ConvAttrs.out_dtype a /\
       DeformableConvAttrs.deformable_groups t = deformable_groups /\
       DeformableConvAttrs.channels t = int_channels) /\
  (exists before after : list Event,
     before = map EvAssign ["strides"; "padding"; "dilation"] /\
     trace
       (MakeConv data weight strides padding dilation groups channels
         kernel_size data_layout kernel_layout out_layout out_dtype op_name
         reg) =
     before ++ after /\
     trace
       (MakeDeformableConv data offset weight strides padding dilation
         deformable_groups groups int_channels kernel_size data_layout
         kernel_layout out_layout out_dtype op_name reg) =
     before ++ EvAssign "deformable_groups" :: after).
Proof.
  rewrite MakeConv_run, MakeDeformableConv_run. cbv [result trace].
  repeat apply conj.
  - intros err. destruct (reg !! op_name); split; intros H;
      first [ discriminate H | exact H ].
  - intros deform H.
    destruct (reg !! op_name); [ injection H as <- | discriminate H ].
    do 5 eexists. repeat split.
  - do 2 eexists. repeat split.
Qed.

End Variants.


(** ** The theorems at sample inputs

    Each lemma applies one of the theorems above to concrete arguments
    and discharges its hypotheses by evaluation. *)

#[local] Existing Instances zeroed_ConvAttrs zeroed_FusedConv2DAttrs
  zeroed_ConvWinogradAttrs zeroed_ConvTransposeAttrs
  zeroed_DeformableConvAttrs.

(** Each builder on a registry that knows its operator: the inputs of the
    returned call node. *)
Lemma builders_bind_inputs_in_order_witness :
  (exists e,
     result
       (MakeConv (Var "data") (Var "weight") [IntImm 1; IntImm 1]
         [IntImm 0; IntImm 0; IntImm 0; IntImm 0] [IntImm 1; IntImm 1] 1
         (IntImm 64) [IntImm 3; IntImm 3] "NCHW" "OIHW" EmptyString
         (Float 32) "nn.conv2d" sample_registry) = Ok e /\
     args <$> as_CallNode e =
     Some [Var "data"; Var "weight"]) /\
  (exists e,
     result
       (MakeConvWinograd (Var "data") (Var "weight") 4 [IntImm 1; IntImm 1]
         [IntImm 0; IntImm 0; IntImm 0; IntImm 0] [IntImm 1; IntImm 1] 1
         (IntImm 64) [IntImm 3; IntImm 3] "NCHW" "OIHW" EmptyString
         (Float 32) "nn.contrib_conv2d_winograd_without_weight_transform"
         sample_registry) = Ok e /\
     args <$> as_CallNode e =
     Some [Var "data"; Var "weight"]) /\
  (exists e,
     result
       (MakeConvGemm (Var "data") (Var "weight") [IntImm 1; IntImm 1]
         [IntImm 0; IntImm 0; IntImm 0; IntImm 0] [IntImm 1; IntImm 1] 1
         (IntImm 64) [IntImm 3; IntImm 3] "NCHW" "OIHW" EmptyString
         (Float 32) "nn.contrib_conv2d_gemm_without_weight_transform"
         sample_registry) = Ok e /\
     args <$> as_CallNode e =
     Some [Var "data"; Var "weight"]) /\
  (exists e,
     result
       (MakeConvTranspose (Var "data") (Var "weight") [IntImm 1; IntImm 1]
         [IntImm 0; IntImm 0; IntImm 0; IntImm 0] [IntImm 1; IntImm 1] 1
         (IntImm 64) [IntImm 3; IntImm 3] "NCHW" "OIHW" EmptyString
         [IntImm 0; IntImm 0] (Float 32) "nn.conv2d_transpose"
         sample_registry) = Ok e /\
     args <$> as_CallNode e =
     Some [Var "data"; Var "weight"]) /\
  (exists e,
     result
       (MakeDeformableConv (Var "data") (Var "offset") (Var "weight")
         [IntImm 1; IntImm 1] [IntImm 0; IntImm 0; IntImm 0; IntImm 0]
         [IntImm 1; IntImm 1] 1 1 64 [IntImm 3; IntImm 3] "NCHW" "OIHW"
         EmptyString (Float 32) "nn.deformable_conv2d" sample_registry) = Ok e /\
     args <$> as_CallNode e =
     Some [Var "data"; Var "offset"; Var "weight"] /\
     args <$> as_CallNode e <>
     Some [Var "data"; Var "weight"; Var "offset"]) /\
  (exists e,
     result
       (MakeFusedConv2D (Var "data") (Var "weight1") (Var "bias1")
         (Var "weight2") (Var "bias2")
         [[IntImm 1; IntImm 1]; [IntImm 1; IntImm 1]]
         [[IntImm 0; IntImm 0; IntImm 0; IntImm 0]; [IntImm 0; IntImm 0; IntImm 0; IntImm 0]]
         [[IntImm 1; IntImm 1]; [IntImm 1; IntImm 1]] [32; 1]
         [IntImm 32; IntImm 64] [[IntImm 3; IntImm 3]; [IntImm 1; IntImm 1]]
         ["relu"; "relu"] ["NCHW"; "NCHW"] ["OIHW"; "OIHW"] ["NCHW"; "NCHW"]
         (Float 32) "nn.fused_conv2d" sample_registry) = Ok e /\
     args <$> as_CallNode e =
     Some [Var "data"; Var "weight1"; Var "bias1"; Var "weight2"; Var "bias2"]).
Proof.
  repeat apply conj.
  - eexists; split; [ reflexivity | ].
    apply (proj1 (
        (@builders_bind_inputs_in_order zeroed_ConvAttrs
          zeroed_FusedConv2DAttrs zeroed_ConvWinogradAttrs
          zeroed_ConvTransposeAttrs zeroed_DeformableConvAttrs
          sample_registry (Var "data") (Var "weight") (Var "offset")
          (Var "weight1") (Var "bias1") (Var "weight2") (Var "bias2")
          [IntImm 1; IntImm 1] [IntImm 0; IntImm 0; IntImm 0; IntImm 0]
          [IntImm 1; IntImm 1] [IntImm 3; IntImm 3] [IntImm 0; IntImm 0] 4 1
          1 64 (IntImm 64) "NCHW" "OIHW" EmptyString
          [[IntImm 1; IntImm 1]; [IntImm 1; IntImm 1]]
          [[IntImm 0; IntImm 0; IntImm 0; IntImm 0]; [IntImm 0; IntImm 0; IntImm 0; IntImm 0]]
          [[IntImm 1; IntImm 1]; [IntImm 1; IntImm 1]]
          [[IntImm 3; IntImm 3]; [IntImm 1; IntImm 1]] [32; 1]
          [IntImm 32; IntImm 64] ["relu"; "relu"] ["NCHW"; "NCHW"]
          ["OIHW"; "OIHW"] ["NCHW"; "NCHW"] (Float 32) "nn.conv2d"))).
    reflexivity.
  - eexists; split; [ reflexivity | ].
    apply (proj1 (proj2 (
        (@builders_bind_inputs_in_order zeroed_ConvAttrs
          zeroed_FusedConv2DAttrs zeroed_ConvWinogradAttrs
          zeroed_ConvTransposeAttrs zeroed_DeformableConvAttrs
          sample_registry (Var "data") (Var "weight") (Var "offset")
          (Var "weight1") (Var "bias1") (Var "weight2") (Var "bias2")
          [IntImm 1; IntImm 1] [IntImm 0; IntImm 0; IntImm 0; IntImm 0]
          [IntImm 1; IntImm 1] [IntImm 3; IntImm 3] [IntImm 0; IntImm 0] 4 1
          1 64 (IntImm 64) "NCHW" "OIHW" EmptyString
          [[IntImm 1; IntImm 1]; [IntImm 1; IntImm 1]]
          [[IntImm 0; IntImm 0; IntImm 0; IntImm 0]; [IntImm 0; IntImm 0; IntImm 0; IntImm 0]]
          [[IntImm 1; IntImm 1]; [IntImm 1; IntImm 1]]
          [[IntImm 3; IntImm 3]; [IntImm 1; IntImm 1]] [32; 1]
          [IntImm 32; IntImm 64] ["relu"; "relu"] ["NCHW"; "NCHW"]
          ["OIHW"; "OIHW"] ["NCHW"; "NCHW"] (Float 32)
          "nn.contrib_conv2d_winograd_without_weight_transform")))).
    reflexivity.
  - eexists; split; [ reflexivity | ].
    apply (proj1 (proj2 (proj2 (
        (@builders_bind_inputs_in_order zeroed_ConvAttrs
          zeroed_FusedConv2DAttrs zeroed_ConvWinogradAttrs
          zeroed_ConvTransposeAttrs zeroed_DeformableConvAttrs
          sample_registry (Var "data") (Var "weight") (Var "offset")
          (Var "weight1") (Var "bias1") (Var "weight2") (Var "bias2")
          [IntImm 1; IntImm 1] [IntImm 0; IntImm 0; IntImm 0; IntImm 0]
          [IntImm 1; IntImm 1] [IntImm 3; IntImm 3] [IntImm 0; IntImm 0] 4 1
          1 64 (IntImm 64) "NCHW" "OIHW" EmptyString
          [[IntImm 1; IntImm 1]; [IntImm 1; IntImm 1]]
          [[IntImm 0; IntImm 0; IntImm 0; IntImm 0]; [IntImm 0; IntImm 0; IntImm 0; IntImm 0]]
          [[IntImm 1; IntImm 1]; [IntImm 1; IntImm 1]]
          [[IntImm 3; IntImm 3]; [IntImm 1; IntImm 1]] [32; 1]
          [IntImm 32; IntImm 64] ["relu"; "relu"] ["NCHW"; "NCHW"]
          ["OIHW"; "OIHW"] ["NCHW"; "NCHW"] (Float 32)
          "nn.contrib_conv2d_gemm_without_weight_transform"))))).
    reflexivity.
  - eexists; split; [ reflexivity | ].
    apply (proj1 (proj2 (proj2 (proj2 (
        (@builders_bind_inputs_in_order zeroed_ConvAttrs
          zeroed_FusedConv2DAttrs zeroed_ConvWinogradAttrs
          zeroed_ConvTransposeAttrs zeroed_DeformableConvAttrs
          sample_registry (Var "data") (Var "weight") (Var "offset")
          (Var "weight1") (Var "bias1") (Var "weight2") (Var "bias2")
          [IntImm 1; IntImm 1] [IntImm 0; IntImm 0; IntImm 0; IntImm 0]
          [IntImm 1; IntImm 1] [IntImm 3; IntImm 3] [IntImm 0; IntImm 0] 4 1
          1 64 (IntImm 64) "NCHW" "OIHW" EmptyString
          [[IntImm 1; IntImm 1]; [IntImm 1; IntImm 1]]
          [[IntImm 0; IntImm 0; IntImm 0; IntImm 0]; [IntImm 0; IntImm 0; IntImm 0; IntImm 0]]
          [[IntImm 1; IntImm 1]; [IntImm 1; IntImm 1]]
          [[IntImm 3; IntImm 3]; [IntImm 1; IntImm 1]] [32; 1]
          [IntImm 32; IntImm 64] ["relu"; "relu"] ["NCHW"; "NCHW"]
          ["OIHW"; "OIHW"] ["NCHW"; "NCHW"] (Float 32) "nn.conv2d_transpose")))))).
    reflexivity.
  - eexists; split; [ reflexivity | ].
    edestruct (proj1 (proj2 (proj2 (proj2 (proj2
        (@builders_bind_inputs_in_order zeroed_ConvAttrs
          zeroed_FusedConv2DAttrs zeroed_ConvWinogradAttrs
          zeroed_ConvTransposeAttrs zeroed_DeformableConvAttrs
          sample_registry (Var "data") (Var "weight") (Var "offset")
          (Var "weight1") (Var "bias1") (Var "weight2") (Var "bias2")
          [IntImm 1; IntImm 1] [IntImm 0; IntImm 0; IntImm 0; IntImm 0]
          [IntImm 1; IntImm 1] [IntImm 3; IntImm 3] [IntImm 0; IntImm 0] 4 1
          1 64 (IntImm 64) "NCHW" "OIHW" EmptyString
          [[IntImm 1; IntImm 1]; [IntImm 1; IntImm 1]]
          [[IntImm 0; IntImm 0; IntImm 0; IntImm 0]; [IntImm 0; IntImm 0; IntImm 0; IntImm 0]]
          [[IntImm 1; IntImm 1]; [IntImm 1; IntImm 1]]
          [[IntImm 3; IntImm 3]; [IntImm 1; IntImm 1]] [32; 1]
          [IntImm 32; IntImm 64] ["relu"; "relu"] ["NCHW"; "NCHW"]
          ["OIHW"; "OIHW"] ["NCHW"; "NCHW"] (Float 32)
          "nn.deformable_conv2d")))))) as [H1 H2];
      [ reflexivity | ].
    split; [ exact H1 | apply H2; discriminate ].
  - eexists; split; [ reflexivity | ].
    apply (proj2 (proj2 (proj2 (proj2 (proj2 (
        (@builders_bind_inputs_in_order zeroed_ConvAttrs
          zeroed_FusedConv2DAttrs zeroed_ConvWinogradAttrs
          zeroed_ConvTransposeAttrs zeroed_DeformableConvAttrs
          sample_registry (Var "data") (Var "weight") (Var "offset")
          (Var "weight1") (Var "bias1") (Var "weight2") (Var "bias2")
          [IntImm 1; IntImm 1] [IntImm 0; IntImm 0; IntImm 0; IntImm 0]
          [IntImm 1; IntImm 1] [IntImm 3; IntImm 3] [IntImm 0; IntImm 0] 4 1
          1 64 (IntImm 64) "NCHW" "OIHW" EmptyString
          [[IntImm 1; IntImm 1]; [IntImm 1; IntImm 1]]
          [[IntImm 0; IntImm 0; IntImm 0; IntImm 0]; [IntImm 0; IntImm 0; IntImm 0; IntImm 0]]
          [[IntImm 1; IntImm 1]; [IntImm 1; IntImm 1]]
          [[IntImm 3; IntImm 3]; [IntImm 1; IntImm 1]] [32; 1]
          [IntImm 32; IntImm 64] ["relu"; "relu"] ["NCHW"; "NCHW"]
          ["OIHW"; "OIHW"] ["NCHW"; "NCHW"] (Float 32) "nn.fused_conv2d"))))))).
    reflexivity.
Defined.

(** Each builder on a registry that knows its operator: the attribute
    record of the returned call node, and the "nn.conv2d" scenario. *)
Lemma supplied_fields_round_trip_witness :
  (exists e,
     result
       (MakeConv (Var "data") (Var "weight") [IntImm 1; IntImm 1]
         [IntImm 0; IntImm 0; IntImm 0; IntImm 0] [IntImm 1; IntImm 1] 1
         (IntImm 64) [IntImm 3; IntImm 3] "NCHW" "OIHW" EmptyString
         (Float 32) "nn.conv2d" sample_registry) = Ok e /\
     attrs <$> as_CallNode e =
     Some (AttrsConv
             {| ConvAttrs.strides := [IntImm 1; IntImm 1];
                ConvAttrs.padding := [IntImm 0; IntImm 0; IntImm 0; IntImm 0];
                ConvAttrs.dilation := [IntImm 1; IntImm 1];
                ConvAttrs.groups := 1;
                ConvAttrs.channels := IntImm 64;
                ConvAttrs.kernel_size := [IntImm 3; IntImm 3];
                ConvAttrs.data_layout := "NCHW";
                ConvAttrs.kernel_layout := "OIHW";
                ConvAttrs.out_layout := EmptyString;
                ConvAttrs.out_dtype := Float 32 |})) /\
  (exists e,
     result
       (MakeConvWinograd (Var "data") (Var "weight") 4 [IntImm 1; IntImm 1]
         [IntImm 0; IntImm 0; IntImm 0; IntImm 0] [IntImm 1; IntImm 1] 1
         (IntImm 64) [IntImm 3; IntImm 3] "NCHW" "OIHW" EmptyString
         (Float 32) "nn.contrib_conv2d_winograd_without_weight_transform"
         sample_registry) = Ok e /\
     attrs <$> as_CallNode e =
     Some (AttrsConvWinograd
             {| ConvWinogradAttrs.tile_size := 4;
                ConvWinogradAttrs.strides := [IntImm 1; IntImm 1];
                ConvWinogradAttrs.padding := [IntImm 0; IntImm 0; IntImm 0; IntImm 0];
                ConvWinogradAttrs.dilation := [IntImm 1; IntImm 1];
                ConvWinogradAttrs.groups := 1;
                ConvWinogradAttrs.channels := IntImm 64;
                ConvWinogradAttrs.kernel_size := [IntImm 3; IntImm 3];
                ConvWinogradAttrs.data_layout := "NCHW";
                ConvWinogradAttrs.kernel_layout := "OIHW";
                ConvWinogradAttrs.out_layout := EmptyString;
                ConvWinogradAttrs.out_dtype := Float 32 |})) /\
  (exists e,
     result
       (MakeConvGemm (Var "data") (Var "weight") [IntImm 1; IntImm 1]
         [IntImm 0; IntImm 0; IntImm 0; IntImm 0] [IntImm 1; IntImm 1] 1
         (IntImm 64) [IntImm 3; IntImm 3] "NCHW" "OIHW" EmptyString
         (Float 32) "nn.contrib_conv2d_gemm_without_weight_transform"
         sample_registry) = Ok e /\
     attrs <$> as_CallNode e =
     Some (AttrsConv
             {| ConvAttrs.strides := [IntImm 1; IntImm 1];
                ConvAttrs.padding := [IntImm 0; IntImm 0; IntImm 0; IntImm 0];
                ConvAttrs.dilation := [IntImm 1; IntImm 1];
                ConvAttrs.groups := 1;
                ConvAttrs.channels := IntImm 64;
                ConvAttrs.kernel_size := [IntImm 3; IntImm 3];
                ConvAttrs.data_layout := "NCHW";
                ConvAttrs.kernel_layout := "OIHW";
                ConvAttrs.out_layout := EmptyString;
                ConvAttrs.out_dtype := Float 32 |})) /\
  (exists e,
     result
       (MakeConvTranspose (Var "data") (Var "weight") [IntImm 1; IntImm 1]
         [IntImm 0; IntImm 0; IntImm 0; IntImm 0] [IntImm 1; IntImm 1] 1
         (IntImm 64) [IntImm 3; IntImm 3] "NCHW" "OIHW" EmptyString
         [IntImm 0; IntImm 0] (Float 32) "nn.conv2d_transpose"
         sample_registry) = Ok e /\
     attrs <$> as_CallNode e =
     Some (AttrsConvTranspose
             {| ConvTransposeAttrs.strides := [IntImm 1; IntImm 1];
                ConvTransposeAttrs.padding := [IntImm 0; IntImm 0; IntImm 0; IntImm 0];
                ConvTransposeAttrs.dilation := [IntImm 1; IntImm 1];
                ConvTransposeAttrs.groups := 1;
                ConvTransposeAttrs.channels := IntImm 64;
                ConvTransposeAttrs.kernel_size := [IntImm 3; IntImm 3];
                ConvTransposeAttrs.data_layout := "NCHW";
                ConvTransposeAttrs.kernel_layout := "OIHW";
                ConvTransposeAttrs.out_layout := EmptyString;
                ConvTransposeAttrs.output_padding := [IntImm 0; IntImm 0];
                ConvTransposeAttrs.out_dtype := Float 32 |})) /\
  (exists e,
     result
       (MakeDeformableConv (Var "data") (Var "offset") (Var "weight")
         [IntImm 1; IntImm 1] [IntImm 0; IntImm 0; IntImm 0; IntImm 0]
         [IntImm 1; IntImm 1] 1 1 64 [IntImm 3; IntImm 3] "NCHW" "OIHW"
         EmptyString (Float 32) "nn.deformable_conv2d" sample_registry) = Ok e /\
     attrs <$> as_CallNode e =
     Some (AttrsDeformableConv
             {| DeformableConvAttrs.strides := [IntImm 1; IntImm 1];
                DeformableConvAttrs.padding := [IntImm 0; IntImm 0; IntImm 0; IntImm 0];
                DeformableConvAttrs.dilation := [IntImm 1; IntImm 1];
                DeformableConvAttrs.deformable_groups := 1;
                DeformableConvAttrs.groups := 1;
                DeformableConvAttrs.channels := 64;
                DeformableConvAttrs.kernel_size := [IntImm 3; IntImm 3];
                DeformableConvAttrs.data_layout := "NCHW";
                DeformableConvAttrs.kernel_layout := "OIHW";
                DeformableConvAttrs.out_layout := EmptyString;
                DeformableConvAttrs.out_dtype := Float 32 |})) /\
  (exists e,
     result
       (MakeFusedConv2D (Var "data") (Var "weight1") (Var "bias1")
         (Var "weight2") (Var "bias2")
         [[IntImm 1; IntImm 1]; [IntImm 1; IntImm 1]]
         [[IntImm 0; IntImm 0; IntImm 0; IntImm 0]; [IntImm 0; IntImm 0; IntImm 0; IntImm 0]]
         [[IntImm 1; IntImm 1]; [IntImm 1; IntImm 1]] [32; 1]
         [IntImm 32; IntImm 64] [[IntImm 3; IntImm 3]; [IntImm 1; IntImm 1]]
         ["relu"; "relu"] ["NCHW"; "NCHW"] ["OIHW"; "OIHW"] ["NCHW"; "NCHW"]
         (Float 32) "nn.fused_conv2d" sample_registry) = Ok e /\
     attrs <$> as_CallNode e =
     Some (AttrsFusedConv2D
             {| FusedConv2DAttrs.num_layers := 2;
                FusedConv2DAttrs.strides_array := [[IntImm 1; IntImm 1]; [IntImm 1; IntImm 1]];
                FusedConv2DAttrs.padding_array := [[IntImm 0; IntImm 0; IntImm 0; IntImm 0]; [IntImm 0; IntImm 0; IntImm 0; IntImm 0]];
                FusedConv2DAttrs.dilation_array := [[IntImm 1; IntImm 1]; [IntImm 1; IntImm 1]];
                FusedConv2DAttrs.groups_array := [32; 1];
                FusedConv2DAttrs.channels_array := [IntImm 32; IntImm 64];
                FusedConv2DAttrs.kernel_size_array := [[IntImm 3; IntImm 3]; [IntImm 1; IntImm 1]];
                FusedConv2DAttrs.post_op_array := ["relu"; "relu"];
                FusedConv2DAttrs.data_layout_array := ["NCHW"; "NCHW"];
                FusedConv2DAttrs.kernel_layout_array := ["OIHW"; "OIHW"];
                FusedConv2DAttrs.out_layout_array := ["NCHW"; "NCHW"];
                FusedConv2DAttrs.out_dtype := Float 32 |})) /\
  (sample_registry !! "nn.conv2d" = Some (mkOp "nn.conv2d" 2) /\
   result
     (MakeConv (Var "data") (Var "weight") [IntImm 1; IntImm 1]
       [IntImm 0; IntImm 0; IntImm 0; IntImm 0] [IntImm 1; IntImm 1] 1
       (IntImm 64) [IntImm 3; IntImm 3] "NCHW" "OIHW" EmptyString (Float 32)
       "nn.conv2d" sample_registry) =
   Ok
     (Call (mkCall (mkOp "nn.conv2d" 2)
              [Var "data"; Var "weight"]
              (AttrsConv
                 {| ConvAttrs.strides := [IntImm 1; IntImm 1];
                    ConvAttrs.padding := [IntImm 0; IntImm 0; IntImm 0; IntImm 0];
                    ConvAttrs.dilation := [IntImm 1; IntImm 1];
                    ConvAttrs.groups := 1;
                    ConvAttrs.channels := IntImm 64;
                    ConvAttrs.kernel_size := [IntImm 3; IntImm 3];
                    ConvAttrs.data_layout := "NCHW";
                    ConvAttrs.kernel_layout := "OIHW";
                    ConvAttrs.out_layout := EmptyString;
                    ConvAttrs.out_dtype := Float 32 |}) []))).
Proof.
  repeat apply conj.
  - eexists; split; [ reflexivity | ].
    apply (proj1 (
        (@supplied_fields_round_trip zeroed_ConvAttrs
          zeroed_FusedConv2DAttrs zeroed_ConvWinogradAttrs
          zeroed_ConvTransposeAttrs zeroed_DeformableConvAttrs
          sample_registry (Var "data") (Var "weight") (Var "offset")
          (Var "weight1") (Var "bias1") (Var "weight2") (Var "bias2")
          [IntImm 1; IntImm 1] [IntImm 0; IntImm 0; IntImm 0; IntImm 0]
          [IntImm 1; IntImm 1] [IntImm 3; IntImm 3] [IntImm 0; IntImm 0] 4 1
          1 64 (IntImm 64) "NCHW" "OIHW" EmptyString
          [[IntImm 1; IntImm 1]; [IntImm 1; IntImm 1]]
          [[IntImm 0; IntImm 0; IntImm 0; IntImm 0]; [IntImm 0; IntImm 0; IntImm 0; IntImm 0]]
          [[IntImm 1; IntImm 1]; [IntImm 1; IntImm 1]]
          [[IntImm 3; IntImm 3]; [IntImm 1; IntImm 1]] [32; 1]
          [IntImm 32; IntImm 64] ["relu"; "relu"] ["NCHW"; "NCHW"]
          ["OIHW"; "OIHW"] ["NCHW"; "NCHW"] (Float 32) "nn.conv2d"))).
    reflexivity.
  - eexists; split; [ reflexivity | ].
    apply (proj1 (proj2 (
        (@supplied_fields_round_trip zeroed_ConvAttrs
          zeroed_FusedConv2DAttrs zeroed_ConvWinogradAttrs
          zeroed_ConvTransposeAttrs zeroed_DeformableConvAttrs
          sample_registry (Var "data") (Var "weight") (Var "offset")
          (Var "weight1") (Var "bias1") (Var "weight2") (Var "bias2")
          [IntImm 1; IntImm 1] [IntImm 0; IntImm 0; IntImm 0; IntImm 0]
          [IntImm 1; IntImm 1] [IntImm 3; IntImm 3] [IntImm 0; IntImm 0] 4 1
          1 64 (IntImm 64) "NCHW" "OIHW" EmptyString
          [[IntImm 1; IntImm 1]; [IntImm 1; IntImm 1]]
          [[IntImm 0; IntImm 0; IntImm 0; IntImm 0]; [IntImm 0; IntImm 0; IntImm 0; IntImm 0]]
          [[IntImm 1; IntImm 1]; [IntImm 1; IntImm 1]]
          [[IntImm 3; IntImm 3]; [IntImm 1; IntImm 1]] [32; 1]
          [IntImm 32; IntImm 64] ["relu"; "relu"] ["NCHW"; "NCHW"]
          ["OIHW"; "OIHW"] ["NCHW"; "NCHW"] (Float 32)
          "nn.contrib_conv2d_winograd_without_weight_transform")))).
    reflexivity.
  - eexists; split; [ reflexivity | ].
    apply (proj1 (proj2 (proj2 (
        (@supplied_fields_round_trip zeroed_ConvAttrs
          zeroed_FusedConv2DAttrs zeroed_ConvWinogradAttrs
          zeroed_ConvTransposeAttrs zeroed_DeformableConvAttrs
          sample_registry (Var "data") (Var "weight") (Var "offset")
          (Var "weight1") (Var "bias1") (Var "weight2") (Var "bias2")
          [IntImm 1; IntImm 1] [IntImm 0; IntImm 0; IntImm 0; IntImm 0]
          [IntImm 1; IntImm 1] [IntImm 3; IntImm 3] [IntImm 0; IntImm 0] 4 1
          1 64 (IntImm 64) "NCHW" "OIHW" EmptyString
          [[IntImm 1; IntImm 1]; [IntImm 1; IntImm 1]]
          [[IntImm 0; IntImm 0; IntImm 0; IntImm 0]; [IntImm 0; IntImm 0; IntImm 0; IntImm 0]]
          [[IntImm 1; IntImm 1]; [IntImm 1; IntImm 1]]
          [[IntImm 3; IntImm 3]; [IntImm 1; IntImm 1]] [32; 1]
          [IntImm 32; IntImm 64] ["relu"; "relu"] ["NCHW"; "NCHW"]
          ["OIHW"; "OIHW"] ["NCHW"; "NCHW"] (Float 32)
          "nn.contrib_conv2d_gemm_without_weight_transform"))))).
    reflexivity.
  - eexists; split; [ reflexivity | ].
    apply (proj1 (proj2 (proj2 (proj2 (
        (@supplied_fields_round_trip zeroed_ConvAttrs
          zeroed_FusedConv2DAttrs zeroed_ConvWinogradAttrs
          zeroed_ConvTransposeAttrs zeroed_DeformableConvAttrs
          sample_registry (Var "data") (Var "weight") (Var "offset")
          (Var "weight1") (Var "bias1") (Var "weight2") (Var "bias2")
          [IntImm 1; IntImm 1] [IntImm 0; IntImm 0; IntImm 0; IntImm 0]
          [IntImm 1; IntImm 1] [IntImm 3; IntImm 3] [IntImm 0; IntImm 0] 4 1
          1 64 (IntImm 64) "NCHW" "OIHW" EmptyString
          [[IntImm 1; IntImm 1]; [IntImm 1; IntImm 1]]
          [[IntImm 0; IntImm 0; IntImm 0; IntImm 0]; [IntImm 0; IntImm 0; IntImm 0; IntImm 0]]
          [[IntImm 1; IntImm 1]; [IntImm 1; IntImm 1]]
          [[IntImm 3; IntImm 3]; [IntImm 1; IntImm 1]] [32; 1]
          [IntImm 32; IntImm 64] ["relu"; "relu"] ["NCHW"; "NCHW"]
          ["OIHW"; "OIHW"] ["NCHW"; "NCHW"] (Float 32) "nn.conv2d_transpose")))))).
    reflexivity.
  - eexists; split; [ reflexivity | ].
    apply (proj1 (proj2 (proj2 (proj2 (proj2 (
        (@supplied_fields_round_trip zeroed_ConvAttrs
          zeroed_FusedConv2DAttrs zeroed_ConvWinogradAttrs
          zeroed_ConvTransposeAttrs zeroed_DeformableConvAttrs
          sample_registry (Var "data") (Var "weight") (Var "offset")
          (Var "weight1") (Var "bias1") (Var "weight2") (Var "bias2")
          [IntImm 1; IntImm 1] [IntImm 0; IntImm 0; IntImm 0; IntImm 0]
          [IntImm 1; IntImm 1] [IntImm 3; IntImm 3] [IntImm 0; IntImm 0] 4 1
          1 64 (IntImm 64) "NCHW" "OIHW" EmptyString
          [[IntImm 1; IntImm 1]; [IntImm 1; IntImm 1]]
          [[IntImm 0; IntImm 0; IntImm 0; IntImm 0]; [IntImm 0; IntImm 0; IntImm 0; IntImm 0]]
          [[IntImm 1; IntImm 1]; [IntImm 1; IntImm 1]]
          [[IntImm 3; IntImm 3]; [IntImm 1; IntImm 1]] [32; 1]
          [IntImm 32; IntImm 64] ["relu"; "relu"] ["NCHW"; "NCHW"]
          ["OIHW"; "OIHW"] ["NCHW"; "NCHW"] (Float 32)
          "nn.deformable_conv2d"))))))).
    reflexivity.
  - eexists; split; [ reflexivity | ].
    apply (proj1 (proj2 (proj2 (proj2 (proj2 (proj2 (
        (@supplied_fields_round_trip zeroed_ConvAttrs
          zeroed_FusedConv2DAttrs zeroed_ConvWinogradAttrs
          zeroed_ConvTransposeAttrs zeroed_DeformableConvAttrs
          sample_registry (Var "data") (Var "weight") (Var "offset")
          (Var "weight1") (Var "bias1") (Var "weight2") (Var "bias2")
          [IntImm 1; IntImm 1] [IntImm 0; IntImm 0; IntImm 0; IntImm 0]
          [IntImm 1; IntImm 1] [IntImm 3; IntImm 3] [IntImm 0; IntImm 0] 4 1
          1 64 (IntImm 64) "NCHW" "OIHW" EmptyString
          [[IntImm 1; IntImm 1]; [IntImm 1; IntImm 1]]
          [[IntImm 0; IntImm 0; IntImm 0; IntImm 0]; [IntImm 0; IntImm 0; IntImm 0; IntImm 0]]
          [[IntImm 1; IntImm 1]; [IntImm 1; IntImm 1]]
          [[IntImm 3; IntImm 3]; [IntImm 1; IntImm 1]] [32; 1]
          [IntImm 32; IntImm 64] ["relu"; "relu"] ["NCHW"; "NCHW"]
          ["OIHW"; "OIHW"] ["NCHW"; "NCHW"] (Float 32) "nn.fused_conv2d")))))))).
    reflexivity.
  - reflexivity.
  - apply (proj2 (proj2 (proj2 (proj2 (proj2 (proj2 (
        (@supplied_fields_round_trip zeroed_ConvAttrs
          zeroed_FusedConv2DAttrs zeroed_ConvWinogradAttrs
          zeroed_ConvTransposeAttrs zeroed_DeformableConvAttrs
          sample_registry (Var "data") (Var "weight") (Var "offset")
          (Var "weight1") (Var "bias1") (Var "weight2") (Var "bias2")
          [IntImm 1; IntImm 1] [IntImm 0; IntImm 0; IntImm 0; IntImm 0]
          [IntImm 1; IntImm 1] [IntImm 3; IntImm 3] [IntImm 0; IntImm 0] 4 1
          1 64 (IntImm 64) "NCHW" "OIHW" EmptyString
          [[IntImm 1; IntImm 1]; [IntImm 1; IntImm 1]]
          [[IntImm 0; IntImm 0; IntImm 0; IntImm 0]; [IntImm 0; IntImm 0; IntImm 0; IntImm 0]]
          [[IntImm 1; IntImm 1]; [IntImm 1; IntImm 1]]
          [[IntImm 3; IntImm 3]; [IntImm 1; IntImm 1]] [32; 1]
          [IntImm 32; IntImm 64] ["relu"; "relu"] ["NCHW"; "NCHW"]
          ["OIHW"; "OIHW"] ["NCHW"; "NCHW"] (Float 32) "nn.conv2d")))))))).
    reflexivity.
Defined.

(** Each builder asked for "nn.conv9d", which the sample registry does not
    hold. *)
Lemma unregistered_operator_is_the_only_failure_witness :
  Forall
    (fun out : Outcome Expr =>
       sample_registry !! "nn.conv9d" = None /\
       result out = Throw (UnknownOperator "nn.conv9d") /\
       forall e, result out <> Ok e)
    [ MakeConv (Var "data") (Var "weight") [IntImm 1; IntImm 1]
        [IntImm 0; IntImm 0; IntImm 0; IntImm 0] [IntImm 1; IntImm 1] 1
        (IntImm 64) [IntImm 3; IntImm 3] "NCHW" "OIHW" EmptyString
        (Float 32) "nn.conv9d" sample_registry;
      MakeConvWinograd (Var "data") (Var "weight") 4 [IntImm 1; IntImm 1]
        [IntImm 0; IntImm 0; IntImm 0; IntImm 0] [IntImm 1; IntImm 1] 1
        (IntImm 64) [IntImm 3; IntImm 3] "NCHW" "OIHW" EmptyString
        (Float 32) "nn.conv9d" sample_registry;
      MakeConvGemm (Var "data") (Var "weight") [IntImm 1; IntImm 1]
        [IntImm 0; IntImm 0; IntImm 0; IntImm 0] [IntImm 1; IntImm 1] 1
        (IntImm 64) [IntImm 3; IntImm 3] "NCHW" "OIHW" EmptyString
        (Float 32) "nn.conv9d" sample_registry;
      MakeConvTranspose (Var "data") (Var "weight") [IntImm 1; IntImm 1]
        [IntImm 0; IntImm 0; IntImm 0; IntImm 0] [IntImm 1; IntImm 1] 1
        (IntImm 64) [IntImm 3; IntImm 3] "NCHW" "OIHW" EmptyString
        [IntImm 0; IntImm 0] (Float 32) "nn.conv9d" sample_registry;
      MakeDeformableConv (Var "data") (Var "offset") (Var "weight")
        [IntImm 1; IntImm 1] [IntImm 0; IntImm 0; IntImm 0; IntImm 0]
        [IntImm 1; IntImm 1] 1 1 64 [IntImm 3; IntImm 3] "NCHW" "OIHW"
        EmptyString (Float 32) "nn.conv9d" sample_registry;
      MakeFusedConv2D (Var "data") (Var "weight1") (Var "bias1")
        (Var "weight2") (Var "bias2")
        [[IntImm 1; IntImm 1]; [IntImm 1; IntImm 1]]
        [[IntImm 0; IntImm 0; IntImm 0; IntImm 0]; [IntImm 0; IntImm 0; IntImm 0; IntImm 0]]
        [[IntImm 1; IntImm 1]; [IntImm 1; IntImm 1]] [32; 1]
        [IntImm 32; IntImm 64] [[IntImm 3; IntImm 3]; [IntImm 1; IntImm 1]]
        ["relu"; "relu"] ["NCHW"; "NCHW"] ["OIHW"; "OIHW"] ["NCHW"; "NCHW"]
        (Float 32) "nn.conv9d" sample_registry ].
Proof.
  eapply Forall_impl.
  - exact
      (@unregistered_operator_is_the_only_failure zeroed_ConvAttrs
        zeroed_FusedConv2DAttrs zeroed_ConvWinogradAttrs
        zeroed_ConvTransposeAttrs zeroed_DeformableConvAttrs sample_registry
        (Var "data") (Var "weight") (Var "offset") (Var "weight1")
        (Var "bias1") (Var "weight2") (Var "bias2") [IntImm 1; IntImm 1]
        [IntImm 0; IntImm 0; IntImm 0; IntImm 0] [IntImm 1; IntImm 1]
        [IntImm 3; IntImm 3] [IntImm 0; IntImm 0] 4 1 1 64 (IntImm 64)
        "NCHW" "OIHW" EmptyString
        [[IntImm 1; IntImm 1]; [IntImm 1; IntImm 1]]
        [[IntImm 0; IntImm 0; IntImm 0; IntImm 0]; [IntImm 0; IntImm 0; IntImm 0; IntImm 0]]
        [[IntImm 1; IntImm 1]; [IntImm 1; IntImm 1]]
        [[IntImm 3; IntImm 3]; [IntImm 1; IntImm 1]] [32; 1]
        [IntImm 32; IntImm 64] ["relu"; "relu"] ["NCHW"; "NCHW"]
        ["OIHW"; "OIHW"] ["NCHW"; "NCHW"] (Float 32) "nn.conv9d").
  - cbv beta. intros out (H1 & H2 & _).
    destruct (H1 eq_refl) as [Hthrow Hnone].
    exact (conj (proj1 (H2 _ Hthrow)) (conj Hthrow Hnone)).
Defined.

(** The fused builder on two layers with strides [[1,1],[1,1]]. *)
Lemma fused_builder_fixes_two_layers_witness :
  (exists e,
     result
       (MakeFusedConv2D (Var "data") (Var "weight1") (Var "bias1")
         (Var "weight2") (Var "bias2")
         [[IntImm 1; IntImm 1]; [IntImm 1; IntImm 1]]
         [[IntImm 0; IntImm 0; IntImm 0; IntImm 0]; [IntImm 0; IntImm 0; IntImm 0; IntImm 0]]
         [[IntImm 1; IntImm 1]; [IntImm 1; IntImm 1]] [32; 1]
         [IntImm 32; IntImm 64] [[IntImm 3; IntImm 3]; [IntImm 1; IntImm 1]]
         ["relu"; "relu"] ["NCHW"; "NCHW"] ["OIHW"; "OIHW"] ["NCHW"; "NCHW"]
         (Float 32) "nn.fused_conv2d" sample_registry) = Ok e /\
     exists node : FusedConv2DAttrs.t,
       attrs <$> as_CallNode e = Some (AttrsFusedConv2D node) /\
       FusedConv2DAttrs.num_layers node = 2 /\
       FusedConv2DAttrs.strides_array node =
       [[IntImm 1; IntImm 1]; [IntImm 1; IntImm 1]]) /\
  (sample_registry !! "nn.fused_conv2d" = Some (mkOp "nn.fused_conv2d" 5) /\
   length [[IntImm 1; IntImm 1]; [IntImm 1; IntImm 1]] = 2%nat /\
   exists (e : Expr) (node : FusedConv2DAttrs.t),
     result
       (MakeFusedConv2D (Var "data") (Var "weight1") (Var "bias1")
         (Var "weight2") (Var "bias2")
         [[IntImm 1; IntImm 1]; [IntImm 1; IntImm 1]]
         [[IntImm 0; IntImm 0; IntImm 0; IntImm 0]; [IntImm 0; IntImm 0; IntImm 0; IntImm 0]]
         [[IntImm 1; IntImm 1]; [IntImm 1; IntImm 1]] [32; 1]
         [IntImm 32; IntImm 64] [[IntImm 3; IntImm 3]; [IntImm 1; IntImm 1]]
         ["relu"; "relu"] ["NCHW"; "NCHW"] ["OIHW"; "OIHW"] ["NCHW"; "NCHW"]
         (Float 32) "nn.fused_conv2d" sample_registry) = Ok e /\
     attrs <$> as_CallNode e = Some (AttrsFusedConv2D node) /\
     FusedConv2DAttrs.num_layers node = 2 /\
     FusedConv2DAttrs.strides_array node =
     [[IntImm 1; IntImm 1]; [IntImm 1; IntImm 1]]).
Proof.
  split.
  - eexists; split; [ reflexivity | ].
    apply (proj1
            (@fused_builder_fixes_two_layers zeroed_FusedConv2DAttrs
              sample_registry (Var "data") (Var "weight1") (Var "bias1")
              (Var "weight2") (Var "bias2")
              [[IntImm 1; IntImm 1]; [IntImm 1; IntImm 1]]
              [[IntImm 0; IntImm 0; IntImm 0; IntImm 0]; [IntImm 0; IntImm 0; IntImm 0; IntImm 0]]
              [[IntImm 1; IntImm 1]; [IntImm 1; IntImm 1]]
              [[IntImm 3; IntImm 3]; [IntImm 1; IntImm 1]] [32; 1]
              [IntImm 32; IntImm 64] ["relu"; "relu"] ["NCHW"; "NCHW"]
              ["OIHW"; "OIHW"] ["NCHW"; "NCHW"] (Float 32) "nn.fused_conv2d")).
    reflexivity.
  - split; [ reflexivity | split; [ reflexivity | ] ].
    apply (proj2
            (@fused_builder_fixes_two_layers zeroed_FusedConv2DAttrs
              sample_registry (Var "data") (Var "weight1") (Var "bias1")
              (Var "weight2") (Var "bias2")
              [[IntImm 1; IntImm 1]; [IntImm 1; IntImm 1]]
              [[IntImm 0; IntImm 0; IntImm 0; IntImm 0]; [IntImm 0; IntImm 0; IntImm 0; IntImm 0]]
              [[IntImm 1; IntImm 1]; [IntImm 1; IntImm 1]]
              [[IntImm 3; IntImm 3]; [IntImm 1; IntImm 1]] [32; 1]
              [IntImm 32; IntImm 64] ["relu"; "relu"] ["NCHW"; "NCHW"]
              ["OIHW"; "OIHW"] ["NCHW"; "NCHW"] (Float 32) "nn.fused_conv2d")
             (mkOp "nn.fused_conv2d" 5));
      reflexivity.
Defined.

(** Each builder on ill-formed configurations: negative strides, groups
    and tile size, an unknown layout string, and per-layer sequences of
    lengths 3, 1, 0 and 4 next to a layer count of 2. *)
Lemma registered_name_always_succeeds_witness :
  (sample_registry !! "nn.conv2d" =
   Some (mkOp "nn.conv2d" 2) /\
   result
     (MakeConv (Var "data") (Var "weight") [IntImm (-1); IntImm 0]
       [IntImm 7] [IntImm 1; IntImm 1] (-3) (IntImm 64) [IntImm 3; IntImm 3]
       "NCHW" "no such layout" EmptyString (Float 32) "nn.conv2d"
       sample_registry) =
   Ok
     (Call (mkCall (mkOp "nn.conv2d" 2)
              [Var "data"; Var "weight"]
              (AttrsConv
                 {| ConvAttrs.strides := [IntImm (-1); IntImm 0];
                    ConvAttrs.padding := [IntImm 7];
                    ConvAttrs.dilation := [IntImm 1; IntImm 1];
                    ConvAttrs.groups := -3;
                    ConvAttrs.channels := IntImm 64;
                    ConvAttrs.kernel_size := [IntImm 3; IntImm 3];
                    ConvAttrs.data_layout := "NCHW";
                    ConvAttrs.kernel_layout := "no such layout";
                    ConvAttrs.out_layout := EmptyString;
                    ConvAttrs.out_dtype := Float 32 |}) []))) /\
  (sample_registry !! "nn.contrib_conv2d_winograd_without_weight_transform" =
   Some (mkOp "nn.contrib_conv2d_winograd_without_weight_transform" 2) /\
   result
     (MakeConvWinograd (Var "data") (Var "weight") (-4)
       [IntImm (-1); IntImm 0] [IntImm 7] [IntImm 1; IntImm 1] (-3)
       (IntImm 64) [IntImm 3; IntImm 3] "NCHW" "no such layout" EmptyString
       (Float 32) "nn.contrib_conv2d_winograd_without_weight_transform"
       sample_registry) =
   Ok
     (Call (mkCall (mkOp "nn.contrib_conv2d_winograd_without_weight_transform" 2)
              [Var "data"; Var "weight"]
              (AttrsConvWinograd
                 {| ConvWinogradAttrs.tile_size := -4;
                    ConvWinogradAttrs.strides := [IntImm (-1); IntImm 0];
                    ConvWinogradAttrs.padding := [IntImm 7];
                    ConvWinogradAttrs.dilation := [IntImm 1; IntImm 1];
                    ConvWinogradAttrs.groups := -3;
                    ConvWinogradAttrs.channels := IntImm 64;
                    ConvWinogradAttrs.kernel_size := [IntImm 3; IntImm 3];
                    ConvWinogradAttrs.data_layout := "NCHW";
                    ConvWinogradAttrs.kernel_layout := "no such layout";
                    ConvWinogradAttrs.out_layout := EmptyString;
                    ConvWinogradAttrs.out_dtype := Float 32 |}) []))) /\
  (sample_registry !! "nn.contrib_conv2d_gemm_without_weight_transform" =
   Some (mkOp "nn.contrib_conv2d_gemm_without_weight_transform" 2) /\
   result
     (MakeConvGemm (Var "data") (Var "weight") [IntImm (-1); IntImm 0]
       [IntImm 7] [IntImm 1; IntImm 1] (-3) (IntImm 64) [IntImm 3; IntImm 3]
       "NCHW" "no such layout" EmptyString (Float 32)
       "nn.contrib_conv2d_gemm_without_weight_transform" sample_registry) =
   Ok
     (Call (mkCall (mkOp "nn.contrib_conv2d_gemm_without_weight_transform" 2)
              [Var "data"; Var "weight"]
              (AttrsConv
                 {| ConvAttrs.strides := [IntImm (-1); IntImm 0];
                    ConvAttrs.padding := [IntImm 7];
                    ConvAttrs.dilation := [IntImm 1; IntImm 1];
                    ConvAttrs.groups := -3;
                    ConvAttrs.channels := IntImm 64;
                    ConvAttrs.kernel_size := [IntImm 3; IntImm 3];
                    ConvAttrs.data_layout := "NCHW";
                    ConvAttrs.kernel_layout := "no such layout";
                    ConvAttrs.out_layout := EmptyString;
                    ConvAttrs.out_dtype := Float 32 |}) []))) /\
  (sample_registry !! "nn.conv2d_transpose" =
   Some (mkOp "nn.conv2d_transpose" 2) /\
   result
     (MakeConvTranspose (Var "data") (Var "weight") [IntImm (-1); IntImm 0]
       [IntImm 7] [IntImm 1; IntImm 1] (-3) (IntImm 64) [IntImm 3; IntImm 3]
       "NCHW" "no such layout" EmptyString [IntImm 0; IntImm 0] (Float 32)
       "nn.conv2d_transpose" sample_registry) =
   Ok
     (Call (mkCall (mkOp "nn.conv2d_transpose" 2)
              [Var "data"; Var "weight"]
              (AttrsConvTranspose
                 {| ConvTransposeAttrs.strides := [IntImm (-1); IntImm 0];
                    ConvTransposeAttrs.padding := [IntImm 7];
                    ConvTransposeAttrs.dilation := [IntImm 1; IntImm 1];
                    ConvTransposeAttrs.groups := -3;
                    ConvTransposeAttrs.channels := IntImm 64;
                    ConvTransposeAttrs.kernel_size := [IntImm 3; IntImm 3];
                    ConvTransposeAttrs.data_layout := "NCHW";
                    ConvTransposeAttrs.kernel_layout := "no such layout";
                    ConvTransposeAttrs.out_layout := EmptyString;
                    ConvTransposeAttrs.output_padding := [IntImm 0; IntImm 0];
                    ConvTransposeAttrs.out_dtype := Float 32 |}) []))) /\
  (sample_registry !! "nn.deformable_conv2d" =
   Some (mkOp "nn.deformable_conv2d" 3) /\
   result
     (MakeDeformableConv (Var "data") (Var "offset") (Var "weight")
       [IntImm (-1); IntImm 0] [IntImm 7] [IntImm 1; IntImm 1] 0 (-3) (-64)
       [IntImm 3; IntImm 3] "NCHW" "no such layout" EmptyString (Float 32)
       "nn.deformable_conv2d" sample_registry) =
   Ok
     (Call (mkCall (mkOp "nn.deformable_conv2d" 3)
              [Var "data"; Var "offset"; Var "weight"]
              (AttrsDeformableConv
                 {| DeformableConvAttrs.strides := [IntImm (-1); IntImm 0];
                    DeformableConvAttrs.padding := [IntImm 7];
                    DeformableConvAttrs.dilation := [IntImm 1; IntImm 1];
                    DeformableConvAttrs.deformable_groups := 0;
                    DeformableConvAttrs.groups := -3;
                    DeformableConvAttrs.channels := -64;
                    DeformableConvAttrs.kernel_size := [IntImm 3; IntImm 3];
                    DeformableConvAttrs.data_layout := "NCHW";
                    DeformableConvAttrs.kernel_layout := "no such layout";
                    DeformableConvAttrs.out_layout := EmptyString;
                    DeformableConvAttrs.out_dtype := Float 32 |}) []))) /\
  (sample_registry !! "nn.fused_conv2d" =
   Some (mkOp "nn.fused_conv2d" 5) /\
   result
     (MakeFusedConv2D (Var "data") (Var "weight1") (Var "bias1")
       (Var "weight2") (Var "bias2")
       [[IntImm 1; IntImm 1]; [IntImm 1; IntImm 1]; [IntImm 2; IntImm 2]]
       [[IntImm 0; IntImm 0; IntImm 0; IntImm 0]]
       [[IntImm 1; IntImm 1]; [IntImm 1; IntImm 1]] []
       [IntImm 32; IntImm 64] [[IntImm 3; IntImm 3]; [IntImm 1; IntImm 1]]
       ["relu"; "relu"; "relu"; "relu"] ["NCHW"; "NCHW"] ["OIHW"; "OIHW"]
       ["NCHW"; "NCHW"] (Float 32) "nn.fused_conv2d" sample_registry) =
   Ok
     (Call (mkCall (mkOp "nn.fused_conv2d" 5)
              [Var "data"; Var "weight1"; Var "bias1"; Var "weight2"; Var "bias2"]
              (AttrsFusedConv2D
                 {| FusedConv2DAttrs.num_layers := 2;
                    FusedConv2DAttrs.strides_array := [[IntImm 1; IntImm 1]; [IntImm 1; IntImm 1]; [IntImm 2; IntImm 2]];
                    FusedConv2DAttrs.padding_array := [[IntImm 0; IntImm 0; IntImm 0; IntImm 0]];
                    FusedConv2DAttrs.dilation_array := [[IntImm 1; IntImm 1]; [IntImm 1; IntImm 1]];
                    FusedConv2DAttrs.groups_array := [];
                    FusedConv2DAttrs.channels_array := [IntImm 32; IntImm 64];
                    FusedConv2DAttrs.kernel_size_array := [[IntImm 3; IntImm 3]; [IntImm 1; IntImm 1]];
                    FusedConv2DAttrs.post_op_array := ["relu"; "relu"; "relu"; "relu"];
                    FusedConv2DAttrs.data_layout_array := ["NCHW"; "NCHW"];
                    FusedConv2DAttrs.kernel_layout_array := ["OIHW"; "OIHW"];
                    FusedConv2DAttrs.out_layout_array := ["NCHW"; "NCHW"];
                    FusedConv2DAttrs.out_dtype := Float 32 |}) []))).
Proof.
  repeat apply conj.
  - reflexivity.
  - exact (proj1 (
        (@registered_name_always_succeeds zeroed_ConvAttrs
          zeroed_FusedConv2DAttrs zeroed_ConvWinogradAttrs
          zeroed_ConvTransposeAttrs zeroed_DeformableConvAttrs
          sample_registry (Var "data") (Var "weight") (Var "offset")
          (Var "weight1") (Var "bias1") (Var "weight2") (Var "bias2")
          [IntImm (-1); IntImm 0] [IntImm 7] [IntImm 1; IntImm 1]
          [IntImm 3; IntImm 3] [IntImm 0; IntImm 0] (-4) (-3) 0 (-64)
          (IntImm 64) "NCHW" "no such layout" EmptyString
          [[IntImm 1; IntImm 1]; [IntImm 1; IntImm 1]; [IntImm 2; IntImm 2]]
          [[IntImm 0; IntImm 0; IntImm 0; IntImm 0]]
          [[IntImm 1; IntImm 1]; [IntImm 1; IntImm 1]]
          [[IntImm 3; IntImm 3]; [IntImm 1; IntImm 1]] []
          [IntImm 32; IntImm 64] ["relu"; "relu"; "relu"; "relu"]
          ["NCHW"; "NCHW"] ["OIHW"; "OIHW"] ["NCHW"; "NCHW"] (Float 32)
          "nn.conv2d"
          (mkOp "nn.conv2d" 2) eq_refl))).
  - reflexivity.
  - exact (proj1 (proj2 (
        (@registered_name_always_succeeds zeroed_ConvAttrs
          zeroed_FusedConv2DAttrs zeroed_ConvWinogradAttrs
          zeroed_ConvTransposeAttrs zeroed_DeformableConvAttrs
          sample_registry (Var "data") (Var "weight") (Var "offset")
          (Var "weight1") (Var "bias1") (Var "weight2") (Var "bias2")
          [IntImm (-1); IntImm 0] [IntImm 7] [IntImm 1; IntImm 1]
          [IntImm 3; IntImm 3] [IntImm 0; IntImm 0] (-4) (-3) 0 (-64)
          (IntImm 64) "NCHW" "no such layout" EmptyString
          [[IntImm 1; IntImm 1]; [IntImm 1; IntImm 1]; [IntImm 2; IntImm 2]]
          [[IntImm 0; IntImm 0; IntImm 0; IntImm 0]]
          [[IntImm 1; IntImm 1]; [IntImm 1; IntImm 1]]
          [[IntImm 3; IntImm 3]; [IntImm 1; IntImm 1]] []
          [IntImm 32; IntImm 64] ["relu"; "relu"; "relu"; "relu"]
          ["NCHW"; "NCHW"] ["OIHW"; "OIHW"] ["NCHW"; "NCHW"] (Float 32)
          "nn.contrib_conv2d_winograd_without_weight_transform"
          (mkOp "nn.contrib_conv2d_winograd_without_weight_transform" 2) eq_refl)))).
  - reflexivity.
  - exact (proj1 (proj2 (proj2 (
        (@registered_name_always_succeeds zeroed_ConvAttrs
          zeroed_FusedConv2DAttrs zeroed_ConvWinogradAttrs
          zeroed_ConvTransposeAttrs zeroed_DeformableConvAttrs
          sample_registry (Var "data") (Var "weight") (Var "offset")
          (Var "weight1") (Var "bias1") (Var "weight2") (Var "bias2")
          [IntImm (-1); IntImm 0] [IntImm 7] [IntImm 1; IntImm 1]
          [IntImm 3; IntImm 3] [IntImm 0; IntImm 0] (-4) (-3) 0 (-64)
          (IntImm 64) "NCHW" "no such layout" EmptyString
          [[IntImm 1; IntImm 1]; [IntImm 1; IntImm 1]; [IntImm 2; IntImm 2]]
          [[IntImm 0; IntImm 0; IntImm 0; IntImm 0]]
          [[IntImm 1; IntImm 1]; [IntImm 1; IntImm 1]]
          [[IntImm 3; IntImm 3]; [IntImm 1; IntImm 1]] []
          [IntImm 32; IntImm 64] ["relu"; "relu"; "relu"; "relu"]
          ["NCHW"; "NCHW"] ["OIHW"; "OIHW"] ["NCHW"; "NCHW"] (Float 32)
          "nn.contrib_conv2d_gemm_without_weight_transform"
          (mkOp "nn.contrib_conv2d_gemm_without_weight_transform" 2) eq_refl))))).
  - reflexivity.
  - exact (proj1 (proj2 (proj2 (proj2 (
        (@registered_name_always_succeeds zeroed_ConvAttrs
          zeroed_FusedConv2DAttrs zeroed_ConvWinogradAttrs
          zeroed_ConvTransposeAttrs zeroed_DeformableConvAttrs
          sample_registry (Var "data") (Var "weight") (Var "offset")
          (Var "weight1") (Var "bias1") (Var "weight2") (Var "bias2")
          [IntImm (-1); IntImm 0] [IntImm 7] [IntImm 1; IntImm 1]
          [IntImm 3; IntImm 3] [IntImm 0; IntImm 0] (-4) (-3) 0 (-64)
          (IntImm 64) "NCHW" "no such layout" EmptyString
          [[IntImm 1; IntImm 1]; [IntImm 1; IntImm 1]; [IntImm 2; IntImm 2]]
          [[IntImm 0; IntImm 0; IntImm 0; IntImm 0]]
          [[IntImm 1; IntImm 1]; [IntImm 1; IntImm 1]]
          [[IntImm 3; IntImm 3]; [IntImm 1; IntImm 1]] []
          [IntImm 32; IntImm 64] ["relu"; "relu"; "relu"; "relu"]
          ["NCHW"; "NCHW"] ["OIHW"; "OIHW"] ["NCHW"; "NCHW"] (Float 32)
          "nn.conv2d_transpose"
          (mkOp "nn.conv2d_transpose" 2) eq_refl)))))).
  - reflexivity.
  - exact (proj1 (proj2 (proj2 (proj2 (proj2 (
        (@registered_name_always_succeeds zeroed_ConvAttrs
          zeroed_FusedConv2DAttrs zeroed_ConvWinogradAttrs
          zeroed_ConvTransposeAttrs zeroed_DeformableConvAttrs
          sample_registry (Var "data") (Var "weight") (Var "offset")
          (Var "weight1") (Var "bias1") (Var "weight2") (Var "bias2")
          [IntImm (-1); IntImm 0] [IntImm 7] [IntImm 1; IntImm 1]
          [IntImm 3; IntImm 3] [IntImm 0; IntImm 0] (-4) (-3) 0 (-64)
          (IntImm 64) "NCHW" "no such layout" EmptyString
          [[IntImm 1; IntImm 1]; [IntImm 1; IntImm 1]; [IntImm 2; IntImm 2]]
          [[IntImm 0; IntImm 0; IntImm 0; IntImm 0]]
          [[IntImm 1; IntImm 1]; [IntImm 1; IntImm 1]]
          [[IntImm 3; IntImm 3]; [IntImm 1; IntImm 1]] []
          [IntImm 32; IntImm 64] ["relu"; "relu"; "relu"; "relu"]
          ["NCHW"; "NCHW"] ["OIHW"; "OIHW"] ["NCHW"; "NCHW"] (Float 32)
          "nn.deformable_conv2d"
          (mkOp "nn.deformable_conv2d" 3) eq_refl))))))).
  - reflexivity.
  - exact (proj2 (proj2 (proj2 (proj2 (proj2 (
        (@registered_name_always_succeeds zeroed_ConvAttrs
          zeroed_FusedConv2DAttrs zeroed_ConvWinogradAttrs
          zeroed_ConvTransposeAttrs zeroed_DeformableConvAttrs
          sample_registry (Var "data") (Var "weight") (Var "offset")
          (Var "weight1") (Var "bias1") (Var "weight2") (Var "bias2")
          [IntImm (-1); IntImm 0] [IntImm 7] [IntImm 1; IntImm 1]
          [IntImm 3; IntImm 3] [IntImm 0; IntImm 0] (-4) (-3) 0 (-64)
          (IntImm 64) "NCHW" "no such layout" EmptyString
          [[IntImm 1; IntImm 1]; [IntImm 1; IntImm 1]; [IntImm 2; IntImm 2]]
          [[IntImm 0; IntImm 0; IntImm 0; IntImm 0]]
          [[IntImm 1; IntImm 1]; [IntImm 1; IntImm 1]]
          [[IntImm 3; IntImm 3]; [IntImm 1; IntImm 1]] []
          [IntImm 32; IntImm 64] ["relu"; "relu"; "relu"; "relu"]
          ["NCHW"; "NCHW"] ["OIHW"; "OIHW"] ["NCHW"; "NCHW"] (Float 32)
          "nn.fused_conv2d"
          (mkOp "nn.fused_conv2d" 5) eq_refl))))))).
Defined.

(** Each builder on a registry that knows its operator: no type
    arguments. *)
Lemma type_arguments_are_empty_witness :
  (exists e,
     result
       (MakeConv (Var "data") (Var "weight") [IntImm 1; IntImm 1]
         [IntImm 0; IntImm 0; IntImm 0; IntImm 0] [IntImm 1; IntImm 1] 1
         (IntImm 64) [IntImm 3; IntImm 3] "NCHW" "OIHW" EmptyString
         (Float 32) "nn.conv2d" sample_registry) = Ok e /\
     type_args <$> as_CallNode e = Some [] /\
     length <$> (type_args <$> as_CallNode e) = Some 0%nat) /\
  (exists e,
     result
       (MakeConvWinograd (Var "data") (Var "weight") 4 [IntImm 1; IntImm 1]
         [IntImm 0; IntImm 0; IntImm 0; IntImm 0] [IntImm 1; IntImm 1] 1
         (IntImm 64) [IntImm 3; IntImm 3] "NCHW" "OIHW" EmptyString
         (Float 32) "nn.contrib_conv2d_winograd_without_weight_transform"
         sample_registry) = Ok e /\
     type_args <$> as_CallNode e = Some [] /\
     length <$> (type_args <$> as_CallNode e) = Some 0%nat) /\
  (exists e,
     result
       (MakeConvGemm (Var "data") (Var "weight") [IntImm 1; IntImm 1]
         [IntImm 0; IntImm 0; IntImm 0; IntImm 0] [IntImm 1; IntImm 1] 1
         (IntImm 64) [IntImm 3; IntImm 3] "NCHW" "OIHW" EmptyString
         (Float 32) "nn.contrib_conv2d_gemm_without_weight_transform"
         sample_registry) = Ok e /\
     type_args <$> as_CallNode e = Some [] /\
     length <$> (type_args <$> as_CallNode e) = Some 0%nat) /\
  (exists e,
     result
       (MakeConvTranspose (Var "data") (Var "weight") [IntImm 1; IntImm 1]
         [IntImm 0; IntImm 0; IntImm 0; IntImm 0] [IntImm 1; IntImm 1] 1
         (IntImm 64) [IntImm 3; IntImm 3] "NCHW" "OIHW" EmptyString
         [IntImm 0; IntImm 0] (Float 32) "nn.conv2d_transpose"
         sample_registry) = Ok e /\
     type_args <$> as_CallNode e = Some [] /\
     length <$> (type_args <$> as_CallNode e) = Some 0%nat) /\
  (exists e,
     result
       (MakeDeformableConv (Var "data") (Var "offset") (Var "weight")
         [IntImm 1; IntImm 1] [IntImm 0; IntImm 0; IntImm 0; IntImm 0]
         [IntImm 1; IntImm 1] 1 1 64 [IntImm 3; IntImm 3] "NCHW" "OIHW"
         EmptyString (Float 32) "nn.deformable_conv2d" sample_registry) = Ok e /\
     type_args <$> as_CallNode e = Some [] /\
     length <$> (type_args <$> as_CallNode e) = Some 0%nat) /\
  (exists e,
     result
       (MakeFusedConv2D (Var "data") (Var "weight1") (Var "bias1")
         (Var "weight2") (Var "bias2")
         [[IntImm 1; IntImm 1]; [IntImm 1; IntImm 1]]
         [[IntImm 0; IntImm 0; IntImm 0; IntImm 0]; [IntImm 0; IntImm 0; IntImm 0; IntImm 0]]
         [[IntImm 1; IntImm 1]; [IntImm 1; IntImm 1]] [32; 1]
         [IntImm 32; IntImm 64] [[IntImm 3; IntImm 3]; [IntImm 1; IntImm 1]]
         ["relu"; "relu"] ["NCHW"; "NCHW"] ["OIHW"; "OIHW"] ["NCHW"; "NCHW"]
         (Float 32) "nn.fused_conv2d" sample_registry) = Ok e /\
     type_args <$> as_CallNode e = Some [] /\
     length <$> (type_args <$> as_CallNode e) = Some 0%nat).
Proof.
  repeat apply conj.
  - eexists; split; [ reflexivity | ].
    apply (Forall_inv (
        (@type_arguments_are_empty zeroed_ConvAttrs zeroed_FusedConv2DAttrs
          zeroed_ConvWinogradAttrs zeroed_ConvTransposeAttrs
          zeroed_DeformableConvAttrs sample_registry (Var "data")
          (Var "weight") (Var "offset") (Var "weight1") (Var "bias1")
          (Var "weight2") (Var "bias2") [IntImm 1; IntImm 1]
          [IntImm 0; IntImm 0; IntImm 0; IntImm 0] [IntImm 1; IntImm 1]
          [IntImm 3; IntImm 3] [IntImm 0; IntImm 0] 4 1 1 64 (IntImm 64)
          "NCHW" "OIHW" EmptyString
          [[IntImm 1; IntImm 1]; [IntImm 1; IntImm 1]]
          [[IntImm 0; IntImm 0; IntImm 0; IntImm 0]; [IntImm 0; IntImm 0; IntImm 0; IntImm 0]]
          [[IntImm 1; IntImm 1]; [IntImm 1; IntImm 1]]
          [[IntImm 3; IntImm 3]; [IntImm 1; IntImm 1]] [32; 1]
          [IntImm 32; IntImm 64] ["relu"; "relu"] ["NCHW"; "NCHW"]
          ["OIHW"; "OIHW"] ["NCHW"; "NCHW"] (Float 32) "nn.conv2d"))).
    reflexivity.
  - eexists; split; [ reflexivity | ].
    apply (Forall_inv (Forall_inv_tail (
        (@type_arguments_are_empty zeroed_ConvAttrs zeroed_FusedConv2DAttrs
          zeroed_ConvWinogradAttrs zeroed_ConvTransposeAttrs
          zeroed_DeformableConvAttrs sample_registry (Var "data")
          (Var "weight") (Var "offset") (Var "weight1") (Var "bias1")
          (Var "weight2") (Var "bias2") [IntImm 1; IntImm 1]
          [IntImm 0; IntImm 0; IntImm 0; IntImm 0] [IntImm 1; IntImm 1]
          [IntImm 3; IntImm 3] [IntImm 0; IntImm 0] 4 1 1 64 (IntImm 64)
          "NCHW" "OIHW" EmptyString
          [[IntImm 1; IntImm 1]; [IntImm 1; IntImm 1]]
          [[IntImm 0; IntImm 0; IntImm 0; IntImm 0]; [IntImm 0; IntImm 0; IntImm 0; IntImm 0]]
          [[IntImm 1; IntImm 1]; [IntImm 1; IntImm 1]]
          [[IntImm 3; IntImm 3]; [IntImm 1; IntImm 1]] [32; 1]
          [IntImm 32; IntImm 64] ["relu"; "relu"] ["NCHW"; "NCHW"]
          ["OIHW"; "OIHW"] ["NCHW"; "NCHW"] (Float 32)
          "nn.contrib_conv2d_winograd_without_weight_transform")))).
    reflexivity.
  - eexists; split; [ reflexivity | ].
    apply (Forall_inv (Forall_inv_tail (Forall_inv_tail (
        (@type_arguments_are_empty zeroed_ConvAttrs zeroed_FusedConv2DAttrs
          zeroed_ConvWinogradAttrs zeroed_ConvTransposeAttrs
          zeroed_DeformableConvAttrs sample_registry (Var "data")
          (Var "weight") (Var "offset") (Var "weight1") (Var "bias1")
          (Var "weight2") (Var "bias2") [IntImm 1; IntImm 1]
          [IntImm 0; IntImm 0; IntImm 0; IntImm 0] [IntImm 1; IntImm 1]
          [IntImm 3; IntImm 3] [IntImm 0; IntImm 0] 4 1 1 64 (IntImm 64)
          "NCHW" "OIHW" EmptyString
          [[IntImm 1; IntImm 1]; [IntImm 1; IntImm 1]]
          [[IntImm 0; IntImm 0; IntImm 0; IntImm 0]; [IntImm 0; IntImm 0; IntImm 0; IntImm 0]]
          [[IntImm 1; IntImm 1]; [IntImm 1; IntImm 1]]
          [[IntImm 3; IntImm 3]; [IntImm 1; IntImm 1]] [32; 1]
          [IntImm 32; IntImm 64] ["relu"; "relu"] ["NCHW"; "NCHW"]
          ["OIHW"; "OIHW"] ["NCHW"; "NCHW"] (Float 32)
          "nn.contrib_conv2d_gemm_without_weight_transform"))))).
    reflexivity.
  - eexists; split; [ reflexivity | ].
    apply (Forall_inv (Forall_inv_tail (Forall_inv_tail (Forall_inv_tail (
        (@type_arguments_are_empty zeroed_ConvAttrs zeroed_FusedConv2DAttrs
          zeroed_ConvWinogradAttrs zeroed_ConvTransposeAttrs
          zeroed_DeformableConvAttrs sample_registry (Var "data")
          (Var "weight") (Var "offset") (Var "weight1") (Var "bias1")
          (Var "weight2") (Var "bias2") [IntImm 1; IntImm 1]
          [IntImm 0; IntImm 0; IntImm 0; IntImm 0] [IntImm 1; IntImm 1]
          [IntImm 3; IntImm 3] [IntImm 0; IntImm 0] 4 1 1 64 (IntImm 64)
          "NCHW" "OIHW" EmptyString
          [[IntImm 1; IntImm 1]; [IntImm 1; IntImm 1]]
          [[IntImm 0; IntImm 0; IntImm 0; IntImm 0]; [IntImm 0; IntImm 0; IntImm 0; IntImm 0]]
          [[IntImm 1; IntImm 1]; [IntImm 1; IntImm 1]]
          [[IntImm 3; IntImm 3]; [IntImm 1; IntImm 1]] [32; 1]
          [IntImm 32; IntImm 64] ["relu"; "relu"] ["NCHW"; "NCHW"]
          ["OIHW"; "OIHW"] ["NCHW"; "NCHW"] (Float 32) "nn.conv2d_transpose")))))).
    reflexivity.
  - eexists; split; [ reflexivity | ].
    apply (Forall_inv (Forall_inv_tail (Forall_inv_tail (Forall_inv_tail (Forall_inv_tail (
        (@type_arguments_are_empty zeroed_ConvAttrs zeroed_FusedConv2DAttrs
          zeroed_ConvWinogradAttrs zeroed_ConvTransposeAttrs
          zeroed_DeformableConvAttrs sample_registry (Var "data")
          (Var "weight") (Var "offset") (Var "weight1") (Var "bias1")
          (Var "weight2") (Var "bias2") [IntImm 1; IntImm 1]
          [IntImm 0; IntImm 0; IntImm 0; IntImm 0] [IntImm 1; IntImm 1]
          [IntImm 3; IntImm 3] [IntImm 0; IntImm 0] 4 1 1 64 (IntImm 64)
          "NCHW" "OIHW" EmptyString
          [[IntImm 1; IntImm 1]; [IntImm 1; IntImm 1]]
          [[IntImm 0; IntImm 0; IntImm 0; IntImm 0]; [IntImm 0; IntImm 0; IntImm 0; IntImm 0]]
          [[IntImm 1; IntImm 1]; [IntImm 1; IntImm 1]]
          [[IntImm 3; IntImm 3]; [IntImm 1; IntImm 1]] [32; 1]
          [IntImm 32; IntImm 64] ["relu"; "relu"] ["NCHW"; "NCHW"]
          ["OIHW"; "OIHW"] ["NCHW"; "NCHW"] (Float 32)
          "nn.deformable_conv2d"))))))).
    reflexivity.
  - eexists; split; [ reflexivity | ].
    apply (Forall_inv (Forall_inv_tail (Forall_inv_tail (Forall_inv_tail (Forall_inv_tail (Forall_inv_tail (
        (@type_arguments_are_empty zeroed_ConvAttrs zeroed_FusedConv2DAttrs
          zeroed_ConvWinogradAttrs zeroed_ConvTransposeAttrs
          zeroed_DeformableConvAttrs sample_registry (Var "data")
          (Var "weight") (Var "offset") (Var "weight1") (Var "bias1")
          (Var "weight2") (Var "bias2") [IntImm 1; IntImm 1]
          [IntImm 0; IntImm 0; IntImm 0; IntImm 0] [IntImm 1; IntImm 1]
          [IntImm 3; IntImm 3] [IntImm 0; IntImm 0] 4 1 1 64 (IntImm 64)
          "NCHW" "OIHW" EmptyString
          [[IntImm 1; IntImm 1]; [IntImm 1; IntImm 1]]
          [[IntImm 0; IntImm 0; IntImm 0; IntImm 0]; [IntImm 0; IntImm 0; IntImm 0; IntImm 0]]
          [[IntImm 1; IntImm 1]; [IntImm 1; IntImm 1]]
          [[IntImm 3; IntImm 3]; [IntImm 1; IntImm 1]] [32; 1]
          [IntImm 32; IntImm 64] ["relu"; "relu"] ["NCHW"; "NCHW"]
          ["OIHW"; "OIHW"] ["NCHW"; "NCHW"] (Float 32) "nn.fused_conv2d")))))))).
    reflexivity.
Defined.

(** The plain, winograd and transpose builders on the same shared inputs,
    with tile size 4 and output padding [0,0]. *)
Lemma extra_fields_leave_shared_fields_alone_witness :
  exists plain wino trans : Expr,
    result
      (MakeConv (Var "data") (Var "weight") [IntImm 1; IntImm 1]
        [IntImm 0; IntImm 0; IntImm 0; IntImm 0] [IntImm 1; IntImm 1] 1
        (IntImm 64) [IntImm 3; IntImm 3] "NCHW" "OIHW" EmptyString
        (Float 32) "nn.conv2d" sample_registry) = Ok plain /\
    result
      (MakeConvWinograd (Var "data") (Var "weight") 4 [IntImm 1; IntImm 1]
        [IntImm 0; IntImm 0; IntImm 0; IntImm 0] [IntImm 1; IntImm 1] 1
        (IntImm 64) [IntImm 3; IntImm 3] "NCHW" "OIHW" EmptyString
        (Float 32) "nn.contrib_conv2d_winograd_without_weight_transform"
        sample_registry) = Ok wino /\
    result
      (MakeConvTranspose (Var "data") (Var "weight") [IntImm 1; IntImm 1]
        [IntImm 0; IntImm 0; IntImm 0; IntImm 0] [IntImm 1; IntImm 1] 1
        (IntImm 64) [IntImm 3; IntImm 3] "NCHW" "OIHW" EmptyString
        [IntImm 0; IntImm 0] (Float 32) "nn.conv2d_transpose"
        sample_registry) = Ok trans /\
    (exists (a : ConvAttrs.t) (w : ConvWinogradAttrs.t),
       attrs <$> as_CallNode plain = Some (AttrsConv a) /\
       attrs <$> as_CallNode wino = Some (AttrsConvWinograd w) /\
       ConvWinogradAttrs.strides w = ConvAttrs.strides a /\
       ConvWinogradAttrs.padding w = ConvAttrs.padding a /\
       ConvWinogradAttrs.dilation w = ConvAttrs.dilation a /\
       ConvWinogradAttrs.groups w = ConvAttrs.groups a /\
       ConvWinogradAttrs.channels w = ConvAttrs.channels a /\
       ConvWinogradAttrs.kernel_size w = ConvAttrs.kernel_size a /\
       ConvWinogradAttrs.data_layout w = ConvAttrs.data_layout a /\
       ConvWinogradAttrs.kernel_layout w = ConvAttrs.kernel_layout a /\
       ConvWinogradAttrs.out_layout w = ConvAttrs.out_layout a /\
       ConvWinogradAttrs.out_dtype w = ConvAttrs.out_dtype a /\
       ConvWinogradAttrs.tile_size w = 4) /\
    (exists (a : ConvAttrs.t) (t : ConvTransposeAttrs.t),
       attrs <$> as_CallNode plain = Some (AttrsConv a) /\
       attrs <$> as_CallNode trans = Some (AttrsConvTranspose t) /\
       ConvTransposeAttrs.strides t = ConvAttrs.strides a /\
       ConvTransposeAttrs.padding t = ConvAttrs.padding a /\
       ConvTransposeAttrs.dilation t = ConvAttrs.dilation a /\
       ConvTransposeAttrs.groups t = ConvAttrs.groups a /\
       ConvTransposeAttrs.channels t = ConvAttrs.channels a /\
       ConvTransposeAttrs.kernel_size t = ConvAttrs.kernel_size a /\
       ConvTransposeAttrs.data_layout t = ConvAttrs.data_layout a /\
       ConvTransposeAttrs.kernel_layout t = ConvAttrs.kernel_layout a /\
       ConvTransposeAttrs.out_layout t = ConvAttrs.out_layout a /\
       ConvTransposeAttrs.out_dtype t = ConvAttrs.out_dtype a /\
       ConvTransposeAttrs.output_padding t = [IntImm 0; IntImm 0]).
Proof.
  do 3 eexists.
  split; [ reflexivity | split; [ reflexivity | split; [ reflexivity | ] ] ].
  edestruct
        (@extra_fields_leave_shared_fields_alone zeroed_ConvAttrs
          zeroed_ConvWinogradAttrs zeroed_ConvTransposeAttrs sample_registry
          (Var "data") (Var "weight") [IntImm 1; IntImm 1]
          [IntImm 0; IntImm 0; IntImm 0; IntImm 0] [IntImm 1; IntImm 1]
          [IntImm 3; IntImm 3] [IntImm 0; IntImm 0] 4 1 (IntImm 64) "NCHW"
          "OIHW" EmptyString (Float 32) "nn.conv2d"
          "nn.contrib_conv2d_winograd_without_weight_transform"
          "nn.conv2d_transpose")
    as (Hwino & Htrans & _); [ reflexivity | ].
  split; [ apply Hwino | apply Htrans ]; reflexivity.
Defined.

(** The transpose and the plain builder, once on an unregistered name and
    once on a registered one. *)
Lemma transpose_builder_contract_witness :
  (result
     (MakeConvTranspose (Var "data") (Var "weight") [IntImm 1; IntImm 1]
       [IntImm 0; IntImm 0; IntImm 0; IntImm 0] [IntImm 1; IntImm 1] 1
       (IntImm 64) [IntImm 3; IntImm 3] "NCHW" "OIHW" EmptyString
       [IntImm 0; IntImm 0] (Float 32) "nn.conv9d" sample_registry) =
   Throw (UnknownOperator "nn.conv9d") /\
   result
     (MakeConv (Var "data") (Var "weight") [IntImm 1; IntImm 1]
       [IntImm 0; IntImm 0; IntImm 0; IntImm 0] [IntImm 1; IntImm 1] 1
       (IntImm 64) [IntImm 3; IntImm 3] "NCHW" "OIHW" EmptyString (Float 32)
       "nn.conv9d" sample_registry) =
   Throw (UnknownOperator "nn.conv9d")) /\
  (exists trans : Expr,
     result
       (MakeConvTranspose (Var "data") (Var "weight") [IntImm 1; IntImm 1]
         [IntImm 0; IntImm 0; IntImm 0; IntImm 0] [IntImm 1; IntImm 1] 1
         (IntImm 64) [IntImm 3; IntImm 3] "NCHW" "OIHW" EmptyString
         [IntImm 0; IntImm 0] (Float 32) "nn.conv2d_transpose"
         sample_registry) = Ok trans /\
     exists (plain : Expr) (pn tn : CallNode Expr)
            (a : ConvAttrs.t) (t : ConvTransposeAttrs.t),
       result
         (MakeConv (Var "data") (Var "weight") [IntImm 1; IntImm 1]
           [IntImm 0; IntImm 0; IntImm 0; IntImm 0] [IntImm 1; IntImm 1] 1
           (IntImm 64) [IntImm 3; IntImm 3] "NCHW" "OIHW" EmptyString
           (Float 32) "nn.conv2d_transpose" sample_registry) = Ok plain /\
       as_CallNode plain = Some pn /\ as_CallNode trans = Some tn /\
       op tn = op pn /\
       args tn = [Var "data"; Var "weight"] /\
       args pn = [Var "data"; Var "weight"] /\
       type_args tn = type_args pn /\
       attrs pn = AttrsConv a /\ attrs tn = AttrsConvTranspose t /\
       ConvTransposeAttrs.strides t = ConvAttrs.strides a /\
       ConvTransposeAttrs.padding t = ConvAttrs.padding a /\
       ConvTransposeAttrs.dilation t = ConvAttrs.dilation a /\
       ConvTransposeAttrs.groups t = ConvAttrs.groups a /\
       ConvTransposeAttrs.channels t = ConvAttrs.channels a /\
       ConvTransposeAttrs.kernel_size t = ConvAttrs.kernel_size a /\
       ConvTransposeAttrs.data_layout t = ConvAttrs.data_layout a /\
       ConvTransposeAttrs.kernel_layout t = ConvAttrs.kernel_layout a /\
       ConvTransposeAttrs.out_layout t = ConvAttrs.out_layout a /\
       ConvTransposeAttrs.out_dtype t = ConvAttrs.out_dtype a /\
       ConvTransposeAttrs.output_padding t = [IntImm 0; IntImm 0]).
Proof.
  split.
  - assert (Hthrow :
      result
        (MakeConvTranspose (Var "data") (Var "weight") [IntImm 1; IntImm 1]
          [IntImm 0; IntImm 0; IntImm 0; IntImm 0] [IntImm 1; IntImm 1] 1
          (IntImm 64) [IntImm 3; IntImm 3] "NCHW" "OIHW" EmptyString
          [IntImm 0; IntImm 0] (Float 32) "nn.conv9d" sample_registry) =
      Throw (UnknownOperator "nn.conv9d")) by reflexivity.
    split; [ exact Hthrow | ].
    apply (proj1 (proj1
        (@transpose_builder_contract zeroed_ConvAttrs
          zeroed_ConvTransposeAttrs sample_registry (Var "data")
          (Var "weight") [IntImm 1; IntImm 1]
          [IntImm 0; IntImm 0; IntImm 0; IntImm 0] [IntImm 1; IntImm 1]
          [IntImm 3; IntImm 3] [IntImm 0; IntImm 0] 1 (IntImm 64) "NCHW"
          "OIHW" EmptyString (Float 32) "nn.conv9d")
      (UnknownOperator "nn.conv9d"))).
    exact Hthrow.
  - eexists; split; [ reflexivity | ].
    apply (proj1 (proj2
        (@transpose_builder_contract zeroed_ConvAttrs
          zeroed_ConvTransposeAttrs sample_registry (Var "data")
          (Var "weight") [IntImm 1; IntImm 1]
          [IntImm 0; IntImm 0; IntImm 0; IntImm 0] [IntImm 1; IntImm 1]
          [IntImm 3; IntImm 3] [IntImm 0; IntImm 0] 1 (IntImm 64) "NCHW"
          "OIHW" EmptyString (Float 32) "nn.conv2d_transpose"))).
    reflexivity.
Defined.


(** Each builder before and after "nn.dense" is registered and another
    builder's operator is removed. *)
Lemma builders_read_one_registry_entry_witness :
  (result
     (MakeConv (Var "data") (Var "weight") [IntImm 1; IntImm 1]
       [IntImm 0; IntImm 0; IntImm 0; IntImm 0] [IntImm 1; IntImm 1] 1
       (IntImm 64) [IntImm 3; IntImm 3] "NCHW" "OIHW" EmptyString (Float 32)
       "nn.conv2d" (<["nn.dense" := mkOp "nn.dense" 2]> sample_registry)) =
   result
     (MakeConv (Var "data") (Var "weight") [IntImm 1; IntImm 1]
       [IntImm 0; IntImm 0; IntImm 0; IntImm 0] [IntImm 1; IntImm 1] 1
       (IntImm 64) [IntImm 3; IntImm 3] "NCHW" "OIHW" EmptyString (Float 32)
       "nn.conv2d" sample_registry) /\
   trace
     (MakeConv (Var "data") (Var "weight") [IntImm 1; IntImm 1]
       [IntImm 0; IntImm 0; IntImm 0; IntImm 0] [IntImm 1; IntImm 1] 1
       (IntImm 64) [IntImm 3; IntImm 3] "NCHW" "OIHW" EmptyString (Float 32)
       "nn.conv2d" (<["nn.dense" := mkOp "nn.dense" 2]> sample_registry)) =
   trace
     (MakeConv (Var "data") (Var "weight") [IntImm 1; IntImm 1]
       [IntImm 0; IntImm 0; IntImm 0; IntImm 0] [IntImm 1; IntImm 1] 1
       (IntImm 64) [IntImm 3; IntImm 3] "NCHW" "OIHW" EmptyString (Float 32)
       "nn.conv2d" sample_registry) /\
   result
     (MakeConv (Var "data") (Var "weight") [IntImm 1; IntImm 1]
       [IntImm 0; IntImm 0; IntImm 0; IntImm 0] [IntImm 1; IntImm 1] 1
       (IntImm 64) [IntImm 3; IntImm 3] "NCHW" "OIHW" EmptyString (Float 32)
       "nn.conv2d" (delete "nn.fused_conv2d" sample_registry)) =
   result
     (MakeConv (Var "data") (Var "weight") [IntImm 1; IntImm 1]
       [IntImm 0; IntImm 0; IntImm 0; IntImm 0] [IntImm 1; IntImm 1] 1
       (IntImm 64) [IntImm 3; IntImm 3] "NCHW" "OIHW" EmptyString (Float 32)
       "nn.conv2d" sample_registry)) /\
  (result
     (MakeConvWinograd (Var "data") (Var "weight") 4 [IntImm 1; IntImm 1]
       [IntImm 0; IntImm 0; IntImm 0; IntImm 0] [IntImm 1; IntImm 1] 1
       (IntImm 64) [IntImm 3; IntImm 3] "NCHW" "OIHW" EmptyString (Float 32)
       "nn.contrib_conv2d_winograd_without_weight_transform"
       (<["nn.dense" := mkOp "nn.dense" 2]> sample_registry)) =
   result
     (MakeConvWinograd (Var "data") (Var "weight") 4 [IntImm 1; IntImm 1]
       [IntImm 0; IntImm 0; IntImm 0; IntImm 0] [IntImm 1; IntImm 1] 1
       (IntImm 64) [IntImm 3; IntImm 3] "NCHW" "OIHW" EmptyString (Float 32)
       "nn.contrib_conv2d_winograd_without_weight_transform" sample_registry) /\
   trace
     (MakeConvWinograd (Var "data") (Var "weight") 4 [IntImm 1; IntImm 1]
       [IntImm 0; IntImm 0; IntImm 0; IntImm 0] [IntImm 1; IntImm 1] 1
       (IntImm 64) [IntImm 3; IntImm 3] "NCHW" "OIHW" EmptyString (Float 32)
       "nn.contrib_conv2d_winograd_without_weight_transform"
       (<["nn.dense" := mkOp "nn.dense" 2]> sample_registry)) =
   trace
     (MakeConvWinograd (Var "data") (Var "weight") 4 [IntImm 1; IntImm 1]
       [IntImm 0; IntImm 0; IntImm 0; IntImm 0] [IntImm 1; IntImm 1] 1
       (IntImm 64) [IntImm 3; IntImm 3] "NCHW" "OIHW" EmptyString (Float 32)
       "nn.contrib_conv2d_winograd_without_weight_transform" sample_registry) /\
   result
     (MakeConvWinograd (Var "data") (Var "weight") 4 [IntImm 1; IntImm 1]
       [IntImm 0; IntImm 0; IntImm 0; IntImm 0] [IntImm 1; IntImm 1] 1
       (IntImm 64) [IntImm 3; IntImm 3] "NCHW" "OIHW" EmptyString (Float 32)
       "nn.contrib_conv2d_winograd_without_weight_transform"
       (delete "nn.fused_conv2d" sample_registry)) =
   result
     (MakeConvWinograd (Var "data") (Var "weight") 4 [IntImm 1; IntImm 1]
       [IntImm 0; IntImm 0; IntImm 0; IntImm 0] [IntImm 1; IntImm 1] 1
       (IntImm 64) [IntImm 3; IntImm 3] "NCHW" "OIHW" EmptyString (Float 32)
       "nn.contrib_conv2d_winograd_without_weight_transform" sample_registry)) /\
  (result
     (MakeConvGemm (Var "data") (Var "weight") [IntImm 1; IntImm 1]
       [IntImm 0; IntImm 0; IntImm 0; IntImm 0] [IntImm 1; IntImm 1] 1
       (IntImm 64) [IntImm 3; IntImm 3] "NCHW" "OIHW" EmptyString (Float 32)
       "nn.contrib_conv2d_gemm_without_weight_transform"
       (<["nn.dense" := mkOp "nn.dense" 2]> sample_registry)) =
   result
     (MakeConvGemm (Var "data") (Var "weight") [IntImm 1; IntImm 1]
       [IntImm 0; IntImm 0; IntImm 0; IntImm 0] [IntImm 1; IntImm 1] 1
       (IntImm 64) [IntImm 3; IntImm 3] "NCHW" "OIHW" EmptyString (Float 32)
       "nn.contrib_conv2d_gemm_without_weight_transform" sample_registry) /\
   trace
     (MakeConvGemm (Var "data") (Var "weight") [IntImm 1; IntImm 1]
       [IntImm 0; IntImm 0; IntImm 0; IntImm 0] [IntImm 1; IntImm 1] 1
       (IntImm 64) [IntImm 3; IntImm 3] "NCHW" "OIHW" EmptyString (Float 32)
       "nn.contrib_conv2d_gemm_without_weight_transform"
       (<["nn.dense" := mkOp "nn.dense" 2]> sample_registry)) =
   trace
     (MakeConvGemm (Var "data") (Var "weight") [IntImm 1; IntImm 1]
       [IntImm 0; IntImm 0; IntImm 0; IntImm 0] [IntImm 1; IntImm 1] 1
       (IntImm 64) [IntImm 3; IntImm 3] "NCHW" "OIHW" EmptyString (Float 32)
       "nn.contrib_conv2d_gemm_without_weight_transform" sample_registry) /\
   result
     (MakeConvGemm (Var "data") (Var "weight") [IntImm 1; IntImm 1]
       [IntImm 0; IntImm 0; IntImm 0; IntImm 0] [IntImm 1; IntImm 1] 1
       (IntImm 64) [IntImm 3; IntImm 3] "NCHW" "OIHW" EmptyString (Float 32)
       "nn.contrib_conv2d_gemm_without_weight_transform"
       (delete "nn.fused_conv2d" sample_registry)) =
   result
     (MakeConvGemm (Var "data") (Var "weight") [IntImm 1; IntImm 1]
       [IntImm 0; IntImm 0; IntImm 0; IntImm 0] [IntImm 1; IntImm 1] 1
       (IntImm 64) [IntImm 3; IntImm 3] "NCHW" "OIHW" EmptyString (Float 32)
       "nn.contrib_conv2d_gemm_without_weight_transform" sample_registry)) /\
  (result
     (MakeConvTranspose (Var "data") (Var "weight") [IntImm 1; IntImm 1]
       [IntImm 0; IntImm 0; IntImm 0; IntImm 0] [IntImm 1; IntImm 1] 1
       (IntImm 64) [IntImm 3; IntImm 3] "NCHW" "OIHW" EmptyString
       [IntImm 0; IntImm 0] (Float 32) "nn.conv2d_transpose"
       (<["nn.dense" := mkOp "nn.dense" 2]> sample_registry)) =
   result
     (MakeConvTranspose (Var "data") (Var "weight") [IntImm 1; IntImm 1]
       [IntImm 0; IntImm 0; IntImm 0; IntImm 0] [IntImm 1; IntImm 1] 1
       (IntImm 64) [IntImm 3; IntImm 3] "NCHW" "OIHW" EmptyString
       [IntImm 0; IntImm 0] (Float 32) "nn.conv2d_transpose" sample_registry) /\
   trace
     (MakeConvTranspose (Var "data") (Var "weight") [IntImm 1; IntImm 1]
       [IntImm 0; IntImm 0; IntImm 0; IntImm 0] [IntImm 1; IntImm 1] 1
       (IntImm 64) [IntImm 3; IntImm 3] "NCHW" "OIHW" EmptyString
       [IntImm 0; IntImm 0] (Float 32) "nn.conv2d_transpose"
       (<["nn.dense" := mkOp "nn.dense" 2]> sample_registry)) =
   trace
     (MakeConvTranspose (Var "data") (Var "weight") [IntImm 1; IntImm 1]
       [IntImm 0; IntImm 0; IntImm 0; IntImm 0] [IntImm 1; IntImm 1] 1
       (IntImm 64) [IntImm 3; IntImm 3] "NCHW" "OIHW" EmptyString
       [IntImm 0; IntImm 0] (Float 32) "nn.conv2d_transpose" sample_registry) /\
   result
     (MakeConvTranspose (Var "data") (Var "weight") [IntImm 1; IntImm 1]
       [IntImm 0; IntImm 0; IntImm 0; IntImm 0] [IntImm 1; IntImm 1] 1
       (IntImm 64) [IntImm 3; IntImm 3] "NCHW" "OIHW" EmptyString
       [IntImm 0; IntImm 0] (Float 32) "nn.conv2d_transpose"
       (delete "nn.fused_conv2d" sample_registry)) =
   result
     (MakeConvTranspose (Var "data") (Var "weight") [IntImm 1; IntImm 1]
       [IntImm 0; IntImm 0; IntImm 0; IntImm 0] [IntImm 1; IntImm 1] 1
       (IntImm 64) [IntImm 3; IntImm 3] "NCHW" "OIHW" EmptyString
       [IntImm 0; IntImm 0] (Float 32) "nn.conv2d_transpose" sample_registry)) /\
  (result
     (MakeDeformableConv (Var "data") (Var "offset") (Var "weight")
       [IntImm 1; IntImm 1] [IntImm 0; IntImm 0; IntImm 0; IntImm 0]
       [IntImm 1; IntImm 1] 1 1 64 [IntImm 3; IntImm 3] "NCHW" "OIHW"
       EmptyString (Float 32) "nn.deformable_conv2d"
       (<["nn.dense" := mkOp "nn.dense" 2]> sample_registry)) =
   result
     (MakeDeformableConv (Var "data") (Var "offset") (Var "weight")
       [IntImm 1; IntImm 1] [IntImm 0; IntImm 0; IntImm 0; IntImm 0]
       [IntImm 1; IntImm 1] 1 1 64 [IntImm 3; IntImm 3] "NCHW" "OIHW"
       EmptyString (Float 32) "nn.deformable_conv2d" sample_registry) /\
   trace
     (MakeDeformableConv (Var "data") (Var "offset") (Var "weight")
       [IntImm 1; IntImm 1] [IntImm 0; IntImm 0; IntImm 0; IntImm 0]
       [IntImm 1; IntImm 1] 1 1 64 [IntImm 3; IntImm 3] "NCHW" "OIHW"
       EmptyString (Float 32) "nn.deformable_conv2d"
       (<["nn.dense" := mkOp "nn.dense" 2]> sample_registry)) =
   trace
     (MakeDeformableConv (Var "data") (Var "offset") (Var "weight")
       [IntImm 1; IntImm 1] [IntImm 0; IntImm 0; IntImm 0; IntImm 0]
       [IntImm 1; IntImm 1] 1 1 64 [IntImm 3; IntImm 3] "NCHW" "OIHW"
       EmptyString (Float 32) "nn.deformable_conv2d" sample_registry) /\
   result
     (MakeDeformableConv (Var "data") (Var "offset") (Var "weight")
       [IntImm 1; IntImm 1] [IntImm 0; IntImm 0; IntImm 0; IntImm 0]
       [IntImm 1; IntImm 1] 1 1 64 [IntImm 3; IntImm 3] "NCHW" "OIHW"
       EmptyString (Float 32) "nn.deformable_conv2d"
       (delete "nn.fused_conv2d" sample_registry)) =
   result
     (MakeDeformableConv (Var "data") (Var "offset") (Var "weight")
       [IntImm 1; IntImm 1] [IntImm 0; IntImm 0; IntImm 0; IntImm 0]
       [IntImm 1; IntImm 1] 1 1 64 [IntImm 3; IntImm 3] "NCHW" "OIHW"
       EmptyString (Float 32) "nn.deformable_conv2d" sample_registry)) /\
  (result
     (MakeFusedConv2D (Var "data") (Var "weight1") (Var "bias1")
       (Var "weight2") (Var "bias2")
       [[IntImm 1; IntImm 1]; [IntImm 1; IntImm 1]]
       [[IntImm 0; IntImm 0; IntImm 0; IntImm 0]; [IntImm 0; IntImm 0; IntImm 0; IntImm 0]]
       [[IntImm 1; IntImm 1]; [IntImm 1; IntImm 1]] [32; 1]
       [IntImm 32; IntImm 64] [[IntImm 3; IntImm 3]; [IntImm 1; IntImm 1]]
       ["relu"; "relu"] ["NCHW"; "NCHW"] ["OIHW"; "OIHW"] ["NCHW"; "NCHW"]
       (Float 32) "nn.fused_conv2d"
       (<["nn.dense" := mkOp "nn.dense" 2]> sample_registry)) =
   result
     (MakeFusedConv2D (Var "data") (Var "weight1") (Var "bias1")
       (Var "weight2") (Var "bias2")
       [[IntImm 1; IntImm 1]; [IntImm 1; IntImm 1]]
       [[IntImm 0; IntImm 0; IntImm 0; IntImm 0]; [IntImm 0; IntImm 0; IntImm 0; IntImm 0]]
       [[IntImm 1; IntImm 1]; [IntImm 1; IntImm 1]] [32; 1]
       [IntImm 32; IntImm 64] [[IntImm 3; IntImm 3]; [IntImm 1; IntImm 1]]
       ["relu"; "relu"] ["NCHW"; "NCHW"] ["OIHW"; "OIHW"] ["NCHW"; "NCHW"]
       (Float 32) "nn.fused_conv2d" sample_registry) /\
   trace
     (MakeFusedConv2D (Var "data") (Var "weight1") (Var "bias1")
       (Var "weight2") (Var "bias2")
       [[IntImm 1; IntImm 1]; [IntImm 1; IntImm 1]]
       [[IntImm 0; IntImm 0; IntImm 0; IntImm 0]; [IntImm 0; IntImm 0; IntImm 0; IntImm 0]]
       [[IntImm 1; IntImm 1]; [IntImm 1; IntImm 1]] [32; 1]
       [IntImm 32; IntImm 64] [[IntImm 3; IntImm 3]; [IntImm 1; IntImm 1]]
       ["relu"; "relu"] ["NCHW"; "NCHW"] ["OIHW"; "OIHW"] ["NCHW"; "NCHW"]
       (Float 32) "nn.fused_conv2d"
       (<["nn.dense" := mkOp "nn.dense" 2]> sample_registry)) =
   trace
     (MakeFusedConv2D (Var "data") (Var "weight1") (Var "bias1")
       (Var "weight2") (Var "bias2")
       [[IntImm 1; IntImm 1]; [IntImm 1; IntImm 1]]
       [[IntImm 0; IntImm 0; IntImm 0; IntImm 0]; [IntImm 0; IntImm 0; IntImm 0; IntImm 0]]
       [[IntImm 1; IntImm 1]; [IntImm 1; IntImm 1]] [32; 1]
       [IntImm 32; IntImm 64] [[IntImm 3; IntImm 3]; [IntImm 1; IntImm 1]]
       ["relu"; "relu"] ["NCHW"; "NCHW"] ["OIHW"; "OIHW"] ["NCHW"; "NCHW"]
       (Float 32) "nn.fused_conv2d" sample_registry) /\
   result
     (MakeFusedConv2D (Var "data") (Var "weight1") (Var "bias1")
       (Var "weight2") (Var "bias2")
       [[IntImm 1; IntImm 1]; [IntImm 1; IntImm 1]]
       [[IntImm 0; IntImm 0; IntImm 0; IntImm 0]; [IntImm 0; IntImm 0; IntImm 0; IntImm 0]]
       [[IntImm 1; IntImm 1]; [IntImm 1; IntImm 1]] [32; 1]
       [IntImm 32; IntImm 64] [[IntImm 3; IntImm 3]; [IntImm 1; IntImm 1]]
       ["relu"; "relu"] ["NCHW"; "NCHW"] ["OIHW"; "OIHW"] ["NCHW"; "NCHW"]
       (Float 32) "nn.fused_conv2d" (delete "nn.conv2d" sample_registry)) =
   result
     (MakeFusedConv2D (Var "data") (Var "weight1") (Var "bias1")
       (Var "weight2") (Var "bias2")
       [[IntImm 1; IntImm 1]; [IntImm 1; IntImm 1]]
       [[IntImm 0; IntImm 0; IntImm 0; IntImm 0]; [IntImm 0; IntImm 0; IntImm 0; IntImm 0]]
       [[IntImm 1; IntImm 1]; [IntImm 1; IntImm 1]] [32; 1]
       [IntImm 32; IntImm 64] [[IntImm 3; IntImm 3]; [IntImm 1; IntImm 1]]
       ["relu"; "relu"] ["NCHW"; "NCHW"] ["OIHW"; "OIHW"] ["NCHW"; "NCHW"]
       (Float 32) "nn.fused_conv2d" sample_registry)).
Proof.
  repeat apply conj.
  - apply (proj1 (Forall_inv (
        (@builders_read_one_registry_entry zeroed_ConvAttrs
          zeroed_FusedConv2DAttrs zeroed_ConvWinogradAttrs
          zeroed_ConvTransposeAttrs zeroed_DeformableConvAttrs
          sample_registry (Var "data") (Var "weight") (Var "offset")
          (Var "weight1") (Var "bias1") (Var "weight2") (Var "bias2")
          [IntImm 1; IntImm 1] [IntImm 0; IntImm 0; IntImm 0; IntImm 0]
          [IntImm 1; IntImm 1] [IntImm 3; IntImm 3] [IntImm 0; IntImm 0] 4 1
          1 64 (IntImm 64) "NCHW" "OIHW" EmptyString
          [[IntImm 1; IntImm 1]; [IntImm 1; IntImm 1]]
          [[IntImm 0; IntImm 0; IntImm 0; IntImm 0]; [IntImm 0; IntImm 0; IntImm 0; IntImm 0]]
          [[IntImm 1; IntImm 1]; [IntImm 1; IntImm 1]]
          [[IntImm 3; IntImm 3]; [IntImm 1; IntImm 1]] [32; 1]
          [IntImm 32; IntImm 64] ["relu"; "relu"] ["NCHW"; "NCHW"]
          ["OIHW"; "OIHW"] ["NCHW"; "NCHW"] (Float 32) "nn.conv2d")))
           (<["nn.dense" := mkOp "nn.dense" 2]> sample_registry)).
    reflexivity.
  - apply (proj1 (Forall_inv (
        (@builders_read_one_registry_entry zeroed_ConvAttrs
          zeroed_FusedConv2DAttrs zeroed_ConvWinogradAttrs
          zeroed_ConvTransposeAttrs zeroed_DeformableConvAttrs
          sample_registry (Var "data") (Var "weight") (Var "offset")
          (Var "weight1") (Var "bias1") (Var "weight2") (Var "bias2")
          [IntImm 1; IntImm 1] [IntImm 0; IntImm 0; IntImm 0; IntImm 0]
          [IntImm 1; IntImm 1] [IntImm 3; IntImm 3] [IntImm 0; IntImm 0] 4 1
          1 64 (IntImm 64) "NCHW" "OIHW" EmptyString
          [[IntImm 1; IntImm 1]; [IntImm 1; IntImm 1]]
          [[IntImm 0; IntImm 0; IntImm 0; IntImm 0]; [IntImm 0; IntImm 0; IntImm 0; IntImm 0]]
          [[IntImm 1; IntImm 1]; [IntImm 1; IntImm 1]]
          [[IntImm 3; IntImm 3]; [IntImm 1; IntImm 1]] [32; 1]
          [IntImm 32; IntImm 64] ["relu"; "relu"] ["NCHW"; "NCHW"]
          ["OIHW"; "OIHW"] ["NCHW"; "NCHW"] (Float 32) "nn.conv2d")))
           (<["nn.dense" := mkOp "nn.dense" 2]> sample_registry)).
    reflexivity.
  - apply (proj1 (proj2 (proj2 (Forall_inv (
        (@builders_read_one_registry_entry zeroed_ConvAttrs
          zeroed_FusedConv2DAttrs zeroed_ConvWinogradAttrs
          zeroed_ConvTransposeAttrs zeroed_DeformableConvAttrs
          sample_registry (Var "data") (Var "weight") (Var "offset")
          (Var "weight1") (Var "bias1") (Var "weight2") (Var "bias2")
          [IntImm 1; IntImm 1] [IntImm 0; IntImm 0; IntImm 0; IntImm 0]
          [IntImm 1; IntImm 1] [IntImm 3; IntImm 3] [IntImm 0; IntImm 0] 4 1
          1 64 (IntImm 64) "NCHW" "OIHW" EmptyString
          [[IntImm 1; IntImm 1]; [IntImm 1; IntImm 1]]
          [[IntImm 0; IntImm 0; IntImm 0; IntImm 0]; [IntImm 0; IntImm 0; IntImm 0; IntImm 0]]
          [[IntImm 1; IntImm 1]; [IntImm 1; IntImm 1]]
          [[IntImm 3; IntImm 3]; [IntImm 1; IntImm 1]] [32; 1]
          [IntImm 32; IntImm 64] ["relu"; "relu"] ["NCHW"; "NCHW"]
          ["OIHW"; "OIHW"] ["NCHW"; "NCHW"] (Float 32) "nn.conv2d")))))).
    discriminate.
  - apply (proj1 (Forall_inv (Forall_inv_tail (
        (@builders_read_one_registry_entry zeroed_ConvAttrs
          zeroed_FusedConv2DAttrs zeroed_ConvWinogradAttrs
          zeroed_ConvTransposeAttrs zeroed_DeformableConvAttrs
          sample_registry (Var "data") (Var "weight") (Var "offset")
          (Var "weight1") (Var "bias1") (Var "weight2") (Var "bias2")
          [IntImm 1; IntImm 1] [IntImm 0; IntImm 0; IntImm 0; IntImm 0]
          [IntImm 1; IntImm 1] [IntImm 3; IntImm 3] [IntImm 0; IntImm 0] 4 1
          1 64 (IntImm 64) "NCHW" "OIHW" EmptyString
          [[IntImm 1; IntImm 1]; [IntImm 1; IntImm 1]]
          [[IntImm 0; IntImm 0; IntImm 0; IntImm 0]; [IntImm 0; IntImm 0; IntImm 0; IntImm 0]]
          [[IntImm 1; IntImm 1]; [IntImm 1; IntImm 1]]
          [[IntImm 3; IntImm 3]; [IntImm 1; IntImm 1]] [32; 1]
          [IntImm 32; IntImm 64] ["relu"; "relu"] ["NCHW"; "NCHW"]
          ["OIHW"; "OIHW"] ["NCHW"; "NCHW"] (Float 32)
          "nn.contrib_conv2d_winograd_without_weight_transform"))))
           (<["nn.dense" := mkOp "nn.dense" 2]> sample_registry)).
    reflexivity.
  - apply (proj1 (Forall_inv (Forall_inv_tail (
        (@builders_read_one_registry_entry zeroed_ConvAttrs
          zeroed_FusedConv2DAttrs zeroed_ConvWinogradAttrs
          zeroed_ConvTransposeAttrs zeroed_DeformableConvAttrs
          sample_registry (Var "data") (Var "weight") (Var "offset")
          (Var "weight1") (Var "bias1") (Var "weight2") (Var "bias2")
          [IntImm 1; IntImm 1] [IntImm 0; IntImm 0; IntImm 0; IntImm 0]
          [IntImm 1; IntImm 1] [IntImm 3; IntImm 3] [IntImm 0; IntImm 0] 4 1
          1 64 (IntImm 64) "NCHW" "OIHW" EmptyString
          [[IntImm 1; IntImm 1]; [IntImm 1; IntImm 1]]
          [[IntImm 0; IntImm 0; IntImm 0; IntImm 0]; [IntImm 0; IntImm 0; IntImm 0; IntImm 0]]
          [[IntImm 1; IntImm 1]; [IntImm 1; IntImm 1]]
          [[IntImm 3; IntImm 3]; [IntImm 1; IntImm 1]] [32; 1]
          [IntImm 32; IntImm 64] ["relu"; "relu"] ["NCHW"; "NCHW"]
          ["OIHW"; "OIHW"] ["NCHW"; "NCHW"] (Float 32)
          "nn.contrib_conv2d_winograd_without_weight_transform"))))
           (<["nn.dense" := mkOp "nn.dense" 2]> sample_registry)).
    reflexivity.
  - apply (proj1 (proj2 (proj2 (Forall_inv (Forall_inv_tail (
        (@builders_read_one_registry_entry zeroed_ConvAttrs
          zeroed_FusedConv2DAttrs zeroed_ConvWinogradAttrs
          zeroed_ConvTransposeAttrs zeroed_DeformableConvAttrs
          sample_registry (Var "data") (Var "weight") (Var "offset")
          (Var "weight1") (Var "bias1") (Var "weight2") (Var "bias2")
          [IntImm 1; IntImm 1] [IntImm 0; IntImm 0; IntImm 0; IntImm 0]
          [IntImm 1; IntImm 1] [IntImm 3; IntImm 3] [IntImm 0; IntImm 0] 4 1
          1 64 (IntImm 64) "NCHW" "OIHW" EmptyString
          [[IntImm 1; IntImm 1]; [IntImm 1; IntImm 1]]
          [[IntImm 0; IntImm 0; IntImm 0; IntImm 0]; [IntImm 0; IntImm 0; IntImm 0; IntImm 0]]
          [[IntImm 1; IntImm 1]; [IntImm 1; IntImm 1]]
          [[IntImm 3; IntImm 3]; [IntImm 1; IntImm 1]] [32; 1]
          [IntImm 32; IntImm 64] ["relu"; "relu"] ["NCHW"; "NCHW"]
          ["OIHW"; "OIHW"] ["NCHW"; "NCHW"] (Float 32)
          "nn.contrib_conv2d_winograd_without_weight_transform"))))))).
    discriminate.
  - apply (proj1 (Forall_inv (Forall_inv_tail (Forall_inv_tail (
        (@builders_read_one_registry_entry zeroed_ConvAttrs
          zeroed_FusedConv2DAttrs zeroed_ConvWinogradAttrs
          zeroed_ConvTransposeAttrs zeroed_DeformableConvAttrs
          sample_registry (Var "data") (Var "weight") (Var "offset")
          (Var "weight1") (Var "bias1") (Var "weight2") (Var "bias2")
          [IntImm 1; IntImm 1] [IntImm 0; IntImm 0; IntImm 0; IntImm 0]
          [IntImm 1; IntImm 1] [IntImm 3; IntImm 3] [IntImm 0; IntImm 0] 4 1
          1 64 (IntImm 64) "NCHW" "OIHW" EmptyString
          [[IntImm 1; IntImm 1]; [IntImm 1; IntImm 1]]
          [[IntImm 0; IntImm 0; IntImm 0; IntImm 0]; [IntImm 0; IntImm 0; IntImm 0; IntImm 0]]
          [[IntImm 1; IntImm 1]; [IntImm 1; IntImm 1]]
          [[IntImm 3; IntImm 3]; [IntImm 1; IntImm 1]] [32; 1]
          [IntImm 32; IntImm 64] ["relu"; "relu"] ["NCHW"; "NCHW"]
          ["OIHW"; "OIHW"] ["NCHW"; "NCHW"] (Float 32)
          "nn.contrib_conv2d_gemm_without_weight_transform")))))
           (<["nn.dense" := mkOp "nn.dense" 2]> sample_registry)).
    reflexivity.
  - apply (proj1 (Forall_inv (Forall_inv_tail (Forall_inv_tail (
        (@builders_read_one_registry_entry zeroed_ConvAttrs
          zeroed_FusedConv2DAttrs zeroed_ConvWinogradAttrs
          zeroed_ConvTransposeAttrs zeroed_DeformableConvAttrs
          sample_registry (Var "data") (Var "weight") (Var "offset")
          (Var "weight1") (Var "bias1") (Var "weight2") (Var "bias2")
          [IntImm 1; IntImm 1] [IntImm 0; IntImm 0; IntImm 0; IntImm 0]
          [IntImm 1; IntImm 1] [IntImm 3; IntImm 3] [IntImm 0; IntImm 0] 4 1
          1 64 (IntImm 64) "NCHW" "OIHW" EmptyString
          [[IntImm 1; IntImm 1]; [IntImm 1; IntImm 1]]
          [[IntImm 0; IntImm 0; IntImm 0; IntImm 0]; [IntImm 0; IntImm 0; IntImm 0; IntImm 0]]
          [[IntImm 1; IntImm 1]; [IntImm 1; IntImm 1]]
          [[IntImm 3; IntImm 3]; [IntImm 1; IntImm 1]] [32; 1]
          [IntImm 32; IntImm 64] ["relu"; "relu"] ["NCHW"; "NCHW"]
          ["OIHW"; "OIHW"] ["NCHW"; "NCHW"] (Float 32)
          "nn.contrib_conv2d_gemm_without_weight_transform")))))
           (<["nn.dense" := mkOp "nn.dense" 2]> sample_registry)).
    reflexivity.
  - apply (proj1 (proj2 (proj2 (Forall_inv (Forall_inv_tail (Forall_inv_tail (
        (@builders_read_one_registry_entry zeroed_ConvAttrs
          zeroed_FusedConv2DAttrs zeroed_ConvWinogradAttrs
          zeroed_ConvTransposeAttrs zeroed_DeformableConvAttrs
          sample_registry (Var "data") (Var "weight") (Var "offset")
          (Var "weight1") (Var "bias1") (Var "weight2") (Var "bias2")
          [IntImm 1; IntImm 1] [IntImm 0; IntImm 0; IntImm 0; IntImm 0]
          [IntImm 1; IntImm 1] [IntImm 3; IntImm 3] [IntImm 0; IntImm 0] 4 1
          1 64 (IntImm 64) "NCHW" "OIHW" EmptyString
          [[IntImm 1; IntImm 1]; [IntImm 1; IntImm 1]]
          [[IntImm 0; IntImm 0; IntImm 0; IntImm 0]; [IntImm 0; IntImm 0; IntImm 0; IntImm 0]]
          [[IntImm 1; IntImm 1]; [IntImm 1; IntImm 1]]
          [[IntImm 3; IntImm 3]; [IntImm 1; IntImm 1]] [32; 1]
          [IntImm 32; IntImm 64] ["relu"; "relu"] ["NCHW"; "NCHW"]
          ["OIHW"; "OIHW"] ["NCHW"; "NCHW"] (Float 32)
          "nn.contrib_conv2d_gemm_without_weight_transform")))))))).
    discriminate.
  - apply (proj1 (Forall_inv (Forall_inv_tail (Forall_inv_tail (Forall_inv_tail (
        (@builders_read_one_registry_entry zeroed_ConvAttrs
          zeroed_FusedConv2DAttrs zeroed_ConvWinogradAttrs
          zeroed_ConvTransposeAttrs zeroed_DeformableConvAttrs
          sample_registry (Var "data") (Var "weight") (Var "offset")
          (Var "weight1") (Var "bias1") (Var "weight2") (Var "bias2")
          [IntImm 1; IntImm 1] [IntImm 0; IntImm 0; IntImm 0; IntImm 0]
          [IntImm 1; IntImm 1] [IntImm 3; IntImm 3] [IntImm 0; IntImm 0] 4 1
          1 64 (IntImm 64) "NCHW" "OIHW" EmptyString
          [[IntImm 1; IntImm 1]; [IntImm 1; IntImm 1]]
          [[IntImm 0; IntImm 0; IntImm 0; IntImm 0]; [IntImm 0; IntImm 0; IntImm 0; IntImm 0]]
          [[IntImm 1; IntImm 1]; [IntImm 1; IntImm 1]]
          [[IntImm 3; IntImm 3]; [IntImm 1; IntImm 1]] [32; 1]
          [IntImm 32; IntImm 64] ["relu"; "relu"] ["NCHW"; "NCHW"]
          ["OIHW"; "OIHW"] ["NCHW"; "NCHW"] (Float 32) "nn.conv2d_transpose"))))))
           (<["nn.dense" := mkOp "nn.dense" 2]> sample_registry)).
    reflexivity.
  - apply (proj1 (Forall_inv (Forall_inv_tail (Forall_inv_tail (Forall_inv_tail (
        (@builders_read_one_registry_entry zeroed_ConvAttrs
          zeroed_FusedConv2DAttrs zeroed_ConvWinogradAttrs
          zeroed_ConvTransposeAttrs zeroed_DeformableConvAttrs
          sample_registry (Var "data") (Var "weight") (Var "offset")
          (Var "weight1") (Var "bias1") (Var "weight2") (Var "bias2")
          [IntImm 1; IntImm 1] [IntImm 0; IntImm 0; IntImm 0; IntImm 0]
          [IntImm 1; IntImm 1] [IntImm 3; IntImm 3] [IntImm 0; IntImm 0] 4 1
          1 64 (IntImm 64) "NCHW" "OIHW" EmptyString
          [[IntImm 1; IntImm 1]; [IntImm 1; IntImm 1]]
          [[IntImm 0; IntImm 0; IntImm 0; IntImm 0]; [IntImm 0; IntImm 0; IntImm 0; IntImm 0]]
          [[IntImm 1; IntImm 1]; [IntImm 1; IntImm 1]]
          [[IntImm 3; IntImm 3]; [IntImm 1; IntImm 1]] [32; 1]
          [IntImm 32; IntImm 64] ["relu"; "relu"] ["NCHW"; "NCHW"]
          ["OIHW"; "OIHW"] ["NCHW"; "NCHW"] (Float 32) "nn.conv2d_transpose"))))))
           (<["nn.dense" := mkOp "nn.dense" 2]> sample_registry)).
    reflexivity.
  - apply (proj1 (proj2 (proj2 (Forall_inv (Forall_inv_tail (Forall_inv_tail (Forall_inv_tail (
        (@builders_read_one_registry_entry zeroed_ConvAttrs
          zeroed_FusedConv2DAttrs zeroed_ConvWinogradAttrs
          zeroed_ConvTransposeAttrs zeroed_DeformableConvAttrs
          sample_registry (Var "data") (Var "weight") (Var "offset")
          (Var "weight1") (Var "bias1") (Var "weight2") (Var "bias2")
          [IntImm 1; IntImm 1] [IntImm 0; IntImm 0; IntImm 0; IntImm 0]
          [IntImm 1; IntImm 1] [IntImm 3; IntImm 3] [IntImm 0; IntImm 0] 4 1
          1 64 (IntImm 64) "NCHW" "OIHW" EmptyString
          [[IntImm 1; IntImm 1]; [IntImm 1; IntImm 1]]
          [[IntImm 0; IntImm 0; IntImm 0; IntImm 0]; [IntImm 0; IntImm 0; IntImm 0; IntImm 0]]
          [[IntImm 1; IntImm 1]; [IntImm 1; IntImm 1]]
          [[IntImm 3; IntImm 3]; [IntImm 1; IntImm 1]] [32; 1]
          [IntImm 32; IntImm 64] ["relu"; "relu"] ["NCHW"; "NCHW"]
          ["OIHW"; "OIHW"] ["NCHW"; "NCHW"] (Float 32) "nn.conv2d_transpose"))))))))).
    discriminate.
  - apply (proj1 (Forall_inv (Forall_inv_tail (Forall_inv_tail (Forall_inv_tail (Forall_inv_tail (
        (@builders_read_one_registry_entry zeroed_ConvAttrs
          zeroed_FusedConv2DAttrs zeroed_ConvWinogradAttrs
          zeroed_ConvTransposeAttrs zeroed_DeformableConvAttrs
          sample_registry (Var "data") (Var "weight") (Var "offset")
          (Var "weight1") (Var "bias1") (Var "weight2") (Var "bias2")
          [IntImm 1; IntImm 1] [IntImm 0; IntImm 0; IntImm 0; IntImm 0]
          [IntImm 1; IntImm 1] [IntImm 3; IntImm 3] [IntImm 0; IntImm 0] 4 1
          1 64 (IntImm 64) "NCHW" "OIHW" EmptyString
          [[IntImm 1; IntImm 1]; [IntImm 1; IntImm 1]]
          [[IntImm 0; IntImm 0; IntImm 0; IntImm 0]; [IntImm 0; IntImm 0; IntImm 0; IntImm 0]]
          [[IntImm 1; IntImm 1]; [IntImm 1; IntImm 1]]
          [[IntImm 3; IntImm 3]; [IntImm 1; IntImm 1]] [32; 1]
          [IntImm 32; IntImm 64] ["relu"; "relu"] ["NCHW"; "NCHW"]
          ["OIHW"; "OIHW"] ["NCHW"; "NCHW"] (Float 32)
          "nn.deformable_conv2d")))))))
           (<["nn.dense" := mkOp "nn.dense" 2]> sample_registry)).
    reflexivity.
  - apply (proj1 (Forall_inv (Forall_inv_tail (Forall_inv_tail (Forall_inv_tail (Forall_inv_tail (
        (@builders_read_one_registry_entry zeroed_ConvAttrs
          zeroed_FusedConv2DAttrs zeroed_ConvWinogradAttrs
          zeroed_ConvTransposeAttrs zeroed_DeformableConvAttrs
          sample_registry (Var "data") (Var "weight") (Var "offset")
          (Var "weight1") (Var "bias1") (Var "weight2") (Var "bias2")
          [IntImm 1; IntImm 1] [IntImm 0; IntImm 0; IntImm 0; IntImm 0]
          [IntImm 1; IntImm 1] [IntImm 3; IntImm 3] [IntImm 0; IntImm 0] 4 1
          1 64 (IntImm 64) "NCHW" "OIHW" EmptyString
          [[IntImm 1; IntImm 1]; [IntImm 1; IntImm 1]]
          [[IntImm 0; IntImm 0; IntImm 0; IntImm 0]; [IntImm 0; IntImm 0; IntImm 0; IntImm 0]]
          [[IntImm 1; IntImm 1]; [IntImm 1; IntImm 1]]
          [[IntImm 3; IntImm 3]; [IntImm 1; IntImm 1]] [32; 1]
          [IntImm 32; IntImm 64] ["relu"; "relu"] ["NCHW"; "NCHW"]
          ["OIHW"; "OIHW"] ["NCHW"; "NCHW"] (Float 32)
          "nn.deformable_conv2d")))))))
           (<["nn.dense" := mkOp "nn.dense" 2]> sample_registry)).
    reflexivity.
  - apply (proj1 (proj2 (proj2 (Forall_inv (Forall_inv_tail (Forall_inv_tail (Forall_inv_tail (Forall_inv_tail (
        (@builders_read_one_registry_entry zeroed_ConvAttrs
          zeroed_FusedConv2DAttrs zeroed_ConvWinogradAttrs
          zeroed_ConvTransposeAttrs zeroed_DeformableConvAttrs
          sample_registry (Var "data") (Var "weight") (Var "offset")
          (Var "weight1") (Var "bias1") (Var "weight2") (Var "bias2")
          [IntImm 1; IntImm 1] [IntImm 0; IntImm 0; IntImm 0; IntImm 0]
          [IntImm 1; IntImm 1] [IntImm 3; IntImm 3] [IntImm 0; IntImm 0] 4 1
          1 64 (IntImm 64) "NCHW" "OIHW" EmptyString
          [[IntImm 1; IntImm 1]; [IntImm 1; IntImm 1]]
          [[IntImm 0; IntImm 0; IntImm 0; IntImm 0]; [IntImm 0; IntImm 0; IntImm 0; IntImm 0]]
          [[IntImm 1; IntImm 1]; [IntImm 1; IntImm 1]]
          [[IntImm 3; IntImm 3]; [IntImm 1; IntImm 1]] [32; 1]
          [IntImm 32; IntImm 64] ["relu"; "relu"] ["NCHW"; "NCHW"]
          ["OIHW"; "OIHW"] ["NCHW"; "NCHW"] (Float 32)
          "nn.deformable_conv2d")))))))))).
    discriminate.
  - apply (proj1 (Forall_inv (Forall_inv_tail (Forall_inv_tail (Forall_inv_tail (Forall_inv_tail (Forall_inv_tail (
        (@builders_read_one_registry_entry zeroed_ConvAttrs
          zeroed_FusedConv2DAttrs zeroed_ConvWinogradAttrs
          zeroed_ConvTransposeAttrs zeroed_DeformableConvAttrs
          sample_registry (Var "data") (Var "weight") (Var "offset")
          (Var "weight1") (Var "bias1") (Var "weight2") (Var "bias2")
          [IntImm 1; IntImm 1] [IntImm 0; IntImm 0; IntImm 0; IntImm 0]
          [IntImm 1; IntImm 1] [IntImm 3; IntImm 3] [IntImm 0; IntImm 0] 4 1
          1 64 (IntImm 64) "NCHW" "OIHW" EmptyString
          [[IntImm 1; IntImm 1]; [IntImm 1; IntImm 1]]
          [[IntImm 0; IntImm 0; IntImm 0; IntImm 0]; [IntImm 0; IntImm 0; IntImm 0; IntImm 0]]
          [[IntImm 1; IntImm 1]; [IntImm 1; IntImm 1]]
          [[IntImm 3; IntImm 3]; [IntImm 1; IntImm 1]] [32; 1]
          [IntImm 32; IntImm 64] ["relu"; "relu"] ["NCHW"; "NCHW"]
          ["OIHW"; "OIHW"] ["NCHW"; "NCHW"] (Float 32) "nn.fused_conv2d"))))))))
           (<["nn.dense" := mkOp "nn.dense" 2]> sample_registry)).
    reflexivity.
  - apply (proj1 (Forall_inv (Forall_inv_tail (Forall_inv_tail (Forall_inv_tail (Forall_inv_tail (Forall_inv_tail (
        (@builders_read_one_registry_entry zeroed_ConvAttrs
          zeroed_FusedConv2DAttrs zeroed_ConvWinogradAttrs
          zeroed_ConvTransposeAttrs zeroed_DeformableConvAttrs
          sample_registry (Var "data") (Var "weight") (Var "offset")
          (Var "weight1") (Var "bias1") (Var "weight2") (Var "bias2")
          [IntImm 1; IntImm 1] [IntImm 0; IntImm 0; IntImm 0; IntImm 0]
          [IntImm 1; IntImm 1] [IntImm 3; IntImm 3] [IntImm 0; IntImm 0] 4 1
          1 64 (IntImm 64) "NCHW" "OIHW" EmptyString
          [[IntImm 1; IntImm 1]; [IntImm 1; IntImm 1]]
          [[IntImm 0; IntImm 0; IntImm 0; IntImm 0]; [IntImm 0; IntImm 0; IntImm 0; IntImm 0]]
          [[IntImm 1; IntImm 1]; [IntImm 1; IntImm 1]]
          [[IntImm 3; IntImm 3]; [IntImm 1; IntImm 1]] [32; 1]
          [IntImm 32; IntImm 64] ["relu"; "relu"] ["NCHW"; "NCHW"]
          ["OIHW"; "OIHW"] ["NCHW"; "NCHW"] (Float 32) "nn.fused_conv2d"))))))))
           (<["nn.dense" := mkOp "nn.dense" 2]> sample_registry)).
    reflexivity.
  - apply (proj1 (proj2 (proj2 (Forall_inv (Forall_inv_tail (Forall_inv_tail (Forall_inv_tail (Forall_inv_tail (Forall_inv_tail (
        (@builders_read_one_registry_entry zeroed_ConvAttrs
          zeroed_FusedConv2DAttrs zeroed_ConvWinogradAttrs
          zeroed_ConvTransposeAttrs zeroed_DeformableConvAttrs
          sample_registry (Var "data") (Var "weight") (Var "offset")
          (Var "weight1") (Var "bias1") (Var "weight2") (Var "bias2")
          [IntImm 1; IntImm 1] [IntImm 0; IntImm 0; IntImm 0; IntImm 0]
          [IntImm 1; IntImm 1] [IntImm 3; IntImm 3] [IntImm 0; IntImm 0] 4 1
          1 64 (IntImm 64) "NCHW" "OIHW" EmptyString
          [[IntImm 1; IntImm 1]; [IntImm 1; IntImm 1]]
          [[IntImm 0; IntImm 0; IntImm 0; IntImm 0]; [IntImm 0; IntImm 0; IntImm 0; IntImm 0]]
          [[IntImm 1; IntImm 1]; [IntImm 1; IntImm 1]]
          [[IntImm 3; IntImm 3]; [IntImm 1; IntImm 1]] [32; 1]
          [IntImm 32; IntImm 64] ["relu"; "relu"] ["NCHW"; "NCHW"]
          ["OIHW"; "OIHW"] ["NCHW"; "NCHW"] (Float 32) "nn.fused_conv2d"))))))))))).
    discriminate.
Defined.

(** One assigned field per builder, found among the fields of its record. *)
Lemma builders_assign_each_field_once_witness :
  ("strides" ∈
   assigned_fields
     (trace
        (MakeConv (Var "data") (Var "weight") [IntImm 1; IntImm 1]
          [IntImm 0; IntImm 0; IntImm 0; IntImm 0] [IntImm 1; IntImm 1] 1
          (IntImm 64) [IntImm 3; IntImm 3] "NCHW" "OIHW" EmptyString
          (Float 32) "nn.conv2d" sample_registry)) /\
   exists (A : Type) (f : field ConvAttrs.t A), field_name f = "strides") /\
  ("tile_size" ∈
   assigned_fields
     (trace
        (MakeConvWinograd (Var "data") (Var "weight") 4 [IntImm 1; IntImm 1]
          [IntImm 0; IntImm 0; IntImm 0; IntImm 0] [IntImm 1; IntImm 1] 1
          (IntImm 64) [IntImm 3; IntImm 3] "NCHW" "OIHW" EmptyString
          (Float 32) "nn.contrib_conv2d_winograd_without_weight_transform"
          sample_registry)) /\
   exists (A : Type) (f : field ConvWinogradAttrs.t A), field_name f = "tile_size") /\
  ("out_dtype" ∈
   assigned_fields
     (trace
        (MakeConvGemm (Var "data") (Var "weight") [IntImm 1; IntImm 1]
          [IntImm 0; IntImm 0; IntImm 0; IntImm 0] [IntImm 1; IntImm 1] 1
          (IntImm 64) [IntImm 3; IntImm 3] "NCHW" "OIHW" EmptyString
          (Float 32) "nn.contrib_conv2d_gemm_without_weight_transform"
          sample_registry)) /\
   exists (A : Type) (f : field ConvAttrs.t A), field_name f = "out_dtype") /\
  ("output_padding" ∈
   assigned_fields
     (trace
        (MakeConvTranspose (Var "data") (Var "weight") [IntImm 1; IntImm 1]
          [IntImm 0; IntImm 0; IntImm 0; IntImm 0] [IntImm 1; IntImm 1] 1
          (IntImm 64) [IntImm 3; IntImm 3] "NCHW" "OIHW" EmptyString
          [IntImm 0; IntImm 0] (Float 32) "nn.conv2d_transpose"
          sample_registry)) /\
   exists (A : Type) (f : field ConvTransposeAttrs.t A), field_name f = "output_padding") /\
  ("deformable_groups" ∈
   assigned_fields
     (trace
        (MakeDeformableConv (Var "data") (Var "offset") (Var "weight")
          [IntImm 1; IntImm 1] [IntImm 0; IntImm 0; IntImm 0; IntImm 0]
          [IntImm 1; IntImm 1] 1 1 64 [IntImm 3; IntImm 3] "NCHW" "OIHW"
          EmptyString (Float 32) "nn.deformable_conv2d" sample_registry)) /\
   exists (A : Type) (f : field DeformableConvAttrs.t A), field_name f = "deformable_groups") /\
  ("num_layers" ∈
   assigned_fields
     (trace
        (MakeFusedConv2D (Var "data") (Var "weight1") (Var "bias1")
          (Var "weight2") (Var "bias2")
          [[IntImm 1; IntImm 1]; [IntImm 1; IntImm 1]]
          [[IntImm 0; IntImm 0; IntImm 0; IntImm 0]; [IntImm 0; IntImm 0; IntImm 0; IntImm 0]]
          [[IntImm 1; IntImm 1]; [IntImm 1; IntImm 1]] [32; 1]
          [IntImm 32; IntImm 64]
          [[IntImm 3; IntImm 3]; [IntImm 1; IntImm 1]] ["relu"; "relu"]
          ["NCHW"; "NCHW"] ["OIHW"; "OIHW"] ["NCHW"; "NCHW"] (Float 32)
          "nn.fused_conv2d" sample_registry)) /\
   exists (A : Type) (f : field FusedConv2DAttrs.t A), field_name f = "num_layers").
Proof.
  repeat apply conj.
  - apply (bool_decide_unpack _); vm_compute; exact I.
  - apply (proj1 (proj2 (proj2 (
proj1 (
        (@builders_assign_each_field_once zeroed_ConvAttrs
          zeroed_FusedConv2DAttrs zeroed_ConvWinogradAttrs
          zeroed_ConvTransposeAttrs zeroed_DeformableConvAttrs
          sample_registry (Var "data") (Var "weight") (Var "offset")
          (Var "weight1") (Var "bias1") (Var "weight2") (Var "bias2")
          [IntImm 1; IntImm 1] [IntImm 0; IntImm 0; IntImm 0; IntImm 0]
          [IntImm 1; IntImm 1] [IntImm 3; IntImm 3] [IntImm 0; IntImm 0] 4 1
          1 64 (IntImm 64) "NCHW" "OIHW" EmptyString
          [[IntImm 1; IntImm 1]; [IntImm 1; IntImm 1]]
          [[IntImm 0; IntImm 0; IntImm 0; IntImm 0]; [IntImm 0; IntImm 0; IntImm 0; IntImm 0]]
          [[IntImm 1; IntImm 1]; [IntImm 1; IntImm 1]]
          [[IntImm 3; IntImm 3]; [IntImm 1; IntImm 1]] [32; 1]
          [IntImm 32; IntImm 64] ["relu"; "relu"] ["NCHW"; "NCHW"]
          ["OIHW"; "OIHW"] ["NCHW"; "NCHW"] (Float 32) "nn.conv2d")))))).
    apply (bool_decide_unpack _); vm_compute; exact I.
  - apply (bool_decide_unpack _); vm_compute; exact I.
  - apply (proj1 (proj2 (proj2 (
proj1 (proj2 (
        (@builders_assign_each_field_once zeroed_ConvAttrs
          zeroed_FusedConv2DAttrs zeroed_ConvWinogradAttrs
          zeroed_ConvTransposeAttrs zeroed_DeformableConvAttrs
          sample_registry (Var "data") (Var "weight") (Var "offset")
          (Var "weight1") (Var "bias1") (Var "weight2") (Var "bias2")
          [IntImm 1; IntImm 1] [IntImm 0; IntImm 0; IntImm 0; IntImm 0]
          [IntImm 1; IntImm 1] [IntImm 3; IntImm 3] [IntImm 0; IntImm 0] 4 1
          1 64 (IntImm 64) "NCHW" "OIHW" EmptyString
          [[IntImm 1; IntImm 1]; [IntImm 1; IntImm 1]]
          [[IntImm 0; IntImm 0; IntImm 0; IntImm 0]; [IntImm 0; IntImm 0; IntImm 0; IntImm 0]]
          [[IntImm 1; IntImm 1]; [IntImm 1; IntImm 1]]
          [[IntImm 3; IntImm 3]; [IntImm 1; IntImm 1]] [32; 1]
          [IntImm 32; IntImm 64] ["relu"; "relu"] ["NCHW"; "NCHW"]
          ["OIHW"; "OIHW"] ["NCHW"; "NCHW"] (Float 32)
          "nn.contrib_conv2d_winograd_without_weight_transform"))))))).
    apply (bool_decide_unpack _); vm_compute; exact I.
  - apply (bool_decide_unpack _); vm_compute; exact I.
  - apply (proj1 (proj2 (proj2 (
proj1 (proj2 (proj2 (
        (@builders_assign_each_field_once zeroed_ConvAttrs
          zeroed_FusedConv2DAttrs zeroed_ConvWinogradAttrs
          zeroed_ConvTransposeAttrs zeroed_DeformableConvAttrs
          sample_registry (Var "data") (Var "weight") (Var "offset")
          (Var "weight1") (Var "bias1") (Var "weight2") (Var "bias2")
          [IntImm 1; IntImm 1] [IntImm 0; IntImm 0; IntImm 0; IntImm 0]
          [IntImm 1; IntImm 1] [IntImm 3; IntImm 3] [IntImm 0; IntImm 0] 4 1
          1 64 (IntImm 64) "NCHW" "OIHW" EmptyString
          [[IntImm 1; IntImm 1]; [IntImm 1; IntImm 1]]
          [[IntImm 0; IntImm 0; IntImm 0; IntImm 0]; [IntImm 0; IntImm 0; IntImm 0; IntImm 0]]
          [[IntImm 1; IntImm 1]; [IntImm 1; IntImm 1]]
          [[IntImm 3; IntImm 3]; [IntImm 1; IntImm 1]] [32; 1]
          [IntImm 32; IntImm 64] ["relu"; "relu"] ["NCHW"; "NCHW"]
          ["OIHW"; "OIHW"] ["NCHW"; "NCHW"] (Float 32)
          "nn.contrib_conv2d_gemm_without_weight_transform")))))))).
    apply (bool_decide_unpack _); vm_compute; exact I.
  - apply (bool_decide_unpack _); vm_compute; exact I.
  - apply (proj1 (proj2 (proj2 (
proj1 (proj2 (proj2 (proj2 (
        (@builders_assign_each_field_once zeroed_ConvAttrs
          zeroed_FusedConv2DAttrs zeroed_ConvWinogradAttrs
          zeroed_ConvTransposeAttrs zeroed_DeformableConvAttrs
          sample_registry (Var "data") (Var "weight") (Var "offset")
          (Var "weight1") (Var "bias1") (Var "weight2") (Var "bias2")
          [IntImm 1; IntImm 1] [IntImm 0; IntImm 0; IntImm 0; IntImm 0]
          [IntImm 1; IntImm 1] [IntImm 3; IntImm 3] [IntImm 0; IntImm 0] 4 1
          1 64 (IntImm 64) "NCHW" "OIHW" EmptyString
          [[IntImm 1; IntImm 1]; [IntImm 1; IntImm 1]]
          [[IntImm 0; IntImm 0; IntImm 0; IntImm 0]; [IntImm 0; IntImm 0; IntImm 0; IntImm 0]]
          [[IntImm 1; IntImm 1]; [IntImm 1; IntImm 1]]
          [[IntImm 3; IntImm 3]; [IntImm 1; IntImm 1]] [32; 1]
          [IntImm 32; IntImm 64] ["relu"; "relu"] ["NCHW"; "NCHW"]
          ["OIHW"; "OIHW"] ["NCHW"; "NCHW"] (Float 32) "nn.conv2d_transpose"))))))))).
    apply (bool_decide_unpack _); vm_compute; exact I.
  - apply (bool_decide_unpack _); vm_compute; exact I.
  - apply (proj1 (proj2 (proj2 (
proj1 (proj2 (proj2 (proj2 (proj2 (
        (@builders_assign_each_field_once zeroed_ConvAttrs
          zeroed_FusedConv2DAttrs zeroed_ConvWinogradAttrs
          zeroed_ConvTransposeAttrs zeroed_DeformableConvAttrs
          sample_registry (Var "data") (Var "weight") (Var "offset")
          (Var "weight1") (Var "bias1") (Var "weight2") (Var "bias2")
          [IntImm 1; IntImm 1] [IntImm 0; IntImm 0; IntImm 0; IntImm 0]
          [IntImm 1; IntImm 1] [IntImm 3; IntImm 3] [IntImm 0; IntImm 0] 4 1
          1 64 (IntImm 64) "NCHW" "OIHW" EmptyString
          [[IntImm 1; IntImm 1]; [IntImm 1; IntImm 1]]
          [[IntImm 0; IntImm 0; IntImm 0; IntImm 0]; [IntImm 0; IntImm 0; IntImm 0; IntImm 0]]
          [[IntImm 1; IntImm 1]; [IntImm 1; IntImm 1]]
          [[IntImm 3; IntImm 3]; [IntImm 1; IntImm 1]] [32; 1]
          [IntImm 32; IntImm 64] ["relu"; "relu"] ["NCHW"; "NCHW"]
          ["OIHW"; "OIHW"] ["NCHW"; "NCHW"] (Float 32)
          "nn.deformable_conv2d")))))))))).
    apply (bool_decide_unpack _); vm_compute; exact I.
  - apply (bool_decide_unpack _); vm_compute; exact I.
  - apply (proj1 (proj2 (proj2 (
proj2 (proj2 (proj2 (proj2 (proj2 (
        (@builders_assign_each_field_once zeroed_ConvAttrs
          zeroed_FusedConv2DAttrs zeroed_ConvWinogradAttrs
          zeroed_ConvTransposeAttrs zeroed_DeformableConvAttrs
          sample_registry (Var "data") (Var "weight") (Var "offset")
          (Var "weight1") (Var "bias1") (Var "weight2") (Var "bias2")
          [IntImm 1; IntImm 1] [IntImm 0; IntImm 0; IntImm 0; IntImm 0]
          [IntImm 1; IntImm 1] [IntImm 3; IntImm 3] [IntImm 0; IntImm 0] 4 1
          1 64 (IntImm 64) "NCHW" "OIHW" EmptyString
          [[IntImm 1; IntImm 1]; [IntImm 1; IntImm 1]]
          [[IntImm 0; IntImm 0; IntImm 0; IntImm 0]; [IntImm 0; IntImm 0; IntImm 0; IntImm 0]]
          [[IntImm 1; IntImm 1]; [IntImm 1; IntImm 1]]
          [[IntImm 3; IntImm 3]; [IntImm 1; IntImm 1]] [32; 1]
          [IntImm 32; IntImm 64] ["relu"; "relu"] ["NCHW"; "NCHW"]
          ["OIHW"; "OIHW"] ["NCHW"; "NCHW"] (Float 32) "nn.fused_conv2d")))))))))).
    apply (bool_decide_unpack _); vm_compute; exact I.
Defined.


(** Each builder under its registered name and under the alias of the same
    descriptor: the same call node. *)
Lemma builders_are_injective_witness :
  ((exists e,
      result
        (MakeConv (Var "data") (Var "weight") [IntImm 1; IntImm 1]
          [IntImm 0; IntImm 0; IntImm 0; IntImm 0] [IntImm 1; IntImm 1] 1
          (IntImm 64) [IntImm 3; IntImm 3] "NCHW" "OIHW" EmptyString
          (Float 32) "nn.conv2d" sample_registry) = Ok e /\
      result
        (MakeConv (Var "data") (Var "weight") [IntImm 1; IntImm 1]
          [IntImm 0; IntImm 0; IntImm 0; IntImm 0] [IntImm 1; IntImm 1] 1
          (IntImm 64) [IntImm 3; IntImm 3] "NCHW" "OIHW" EmptyString
          (Float 32) "conv2d" alias_registry) = Ok e) /\
   sample_registry !! "nn.conv2d" =
   alias_registry !! "conv2d") /\
  ((exists e,
      result
        (MakeConvWinograd (Var "data") (Var "weight") 4 [IntImm 1; IntImm 1]
          [IntImm 0; IntImm 0; IntImm 0; IntImm 0] [IntImm 1; IntImm 1] 1
          (IntImm 64) [IntImm 3; IntImm 3] "NCHW" "OIHW" EmptyString
          (Float 32) "nn.contrib_conv2d_winograd_without_weight_transform"
          sample_registry) = Ok e /\
      result
        (MakeConvWinograd (Var "data") (Var "weight") 4 [IntImm 1; IntImm 1]
          [IntImm 0; IntImm 0; IntImm 0; IntImm 0] [IntImm 1; IntImm 1] 1
          (IntImm 64) [IntImm 3; IntImm 3] "NCHW" "OIHW" EmptyString
          (Float 32) "conv2d_winograd" alias_registry) = Ok e) /\
   sample_registry !! "nn.contrib_conv2d_winograd_without_weight_transform" =
   alias_registry !! "conv2d_winograd") /\
  ((exists e,
      result
        (MakeConvGemm (Var "data") (Var "weight") [IntImm 1; IntImm 1]
          [IntImm 0; IntImm 0; IntImm 0; IntImm 0] [IntImm 1; IntImm 1] 1
          (IntImm 64) [IntImm 3; IntImm 3] "NCHW" "OIHW" EmptyString
          (Float 32) "nn.contrib_conv2d_gemm_without_weight_transform"
          sample_registry) = Ok e /\
      result
        (MakeConvGemm (Var "data") (Var "weight") [IntImm 1; IntImm 1]
          [IntImm 0; IntImm 0; IntImm 0; IntImm 0] [IntImm 1; IntImm 1] 1
          (IntImm 64) [IntImm 3; IntImm 3] "NCHW" "OIHW" EmptyString
          (Float 32) "conv2d_gemm" alias_registry) = Ok e) /\
   sample_registry !! "nn.contrib_conv2d_gemm_without_weight_transform" =
   alias_registry !! "conv2d_gemm") /\
  ((exists e,
      result
        (MakeConvTranspose (Var "data") (Var "weight") [IntImm 1; IntImm 1]
          [IntImm 0; IntImm 0; IntImm 0; IntImm 0] [IntImm 1; IntImm 1] 1
          (IntImm 64) [IntImm 3; IntImm 3] "NCHW" "OIHW" EmptyString
          [IntImm 0; IntImm 0] (Float 32) "nn.conv2d_transpose"
          sample_registry) = Ok e /\
      result
        (MakeConvTranspose (Var "data") (Var "weight") [IntImm 1; IntImm 1]
          [IntImm 0; IntImm 0; IntImm 0; IntImm 0] [IntImm 1; IntImm 1] 1
          (IntImm 64) [IntImm 3; IntImm 3] "NCHW" "OIHW" EmptyString
          [IntImm 0; IntImm 0] (Float 32) "conv2d_transpose" alias_registry) = Ok e) /\
   sample_registry !! "nn.conv2d_transpose" =
   alias_registry !! "conv2d_transpose") /\
  ((exists e,
      result
        (MakeDeformableConv (Var "data") (Var "offset") (Var "weight")
          [IntImm 1; IntImm 1] [IntImm 0; IntImm 0; IntImm 0; IntImm 0]
          [IntImm 1; IntImm 1] 1 1 64 [IntImm 3; IntImm 3] "NCHW" "OIHW"
          EmptyString (Float 32) "nn.deformable_conv2d" sample_registry) = Ok e /\
      result
        (MakeDeformableConv (Var "data") (Var "offset") (Var "weight")
          [IntImm 1; IntImm 1] [IntImm 0; IntImm 0; IntImm 0; IntImm 0]
          [IntImm 1; IntImm 1] 1 1 64 [IntImm 3; IntImm 3] "NCHW" "OIHW"
          EmptyString (Float 32) "deformable_conv2d" alias_registry) = Ok e) /\
   sample_registry !! "nn.deformable_conv2d" =
   alias_registry !! "deformable_conv2d") /\
  ((exists e,
      result
        (MakeFusedConv2D (Var "data") (Var "weight1") (Var "bias1")
          (Var "weight2") (Var "bias2")
          [[IntImm 1; IntImm 1]; [IntImm 1; IntImm 1]]
          [[IntImm 0; IntImm 0; IntImm 0; IntImm 0]; [IntImm 0; IntImm 0; IntImm 0; IntImm 0]]
          [[IntImm 1; IntImm 1]; [IntImm 1; IntImm 1]] [32; 1]
          [IntImm 32; IntImm 64]
          [[IntImm 3; IntImm 3]; [IntImm 1; IntImm 1]] ["relu"; "relu"]
          ["NCHW"; "NCHW"] ["OIHW"; "OIHW"] ["NCHW"; "NCHW"] (Float 32)
          "nn.fused_conv2d" sample_registry) = Ok e /\
      result
        (MakeFusedConv2D (Var "data") (Var "weight1") (Var "bias1")
          (Var "weight2") (Var "bias2")
          [[IntImm 1; IntImm 1]; [IntImm 1; IntImm 1]]
          [[IntImm 0; IntImm 0; IntImm 0; IntImm 0]; [IntImm 0; IntImm 0; IntImm 0; IntImm 0]]
          [[IntImm 1; IntImm 1]; [IntImm 1; IntImm 1]] [32; 1]
          [IntImm 32; IntImm 64]
          [[IntImm 3; IntImm 3]; [IntImm 1; IntImm 1]] ["relu"; "relu"]
          ["NCHW"; "NCHW"] ["OIHW"; "OIHW"] ["NCHW"; "NCHW"] (Float 32)
          "fused_conv2d" alias_registry) = Ok e) /\
   sample_registry !! "nn.fused_conv2d" =
   alias_registry !! "fused_conv2d").
Proof.
  repeat apply conj.
  - eexists; split; reflexivity.
  - edestruct (proj1 (
        (@builders_are_injective zeroed_ConvAttrs zeroed_ConvAttrs
          zeroed_FusedConv2DAttrs zeroed_FusedConv2DAttrs
          zeroed_ConvWinogradAttrs zeroed_ConvWinogradAttrs
          zeroed_ConvTransposeAttrs zeroed_ConvTransposeAttrs
          zeroed_DeformableConvAttrs zeroed_DeformableConvAttrs
          sample_registry alias_registry (Var "data") (Var "weight")
          (Var "offset") (Var "weight1") (Var "bias1") (Var "weight2")
          (Var "bias2") (Var "data") (Var "weight") (Var "offset")
          (Var "weight1") (Var "bias1") (Var "weight2") (Var "bias2")
          [IntImm 1; IntImm 1] [IntImm 0; IntImm 0; IntImm 0; IntImm 0]
          [IntImm 1; IntImm 1] [IntImm 3; IntImm 3] [IntImm 0; IntImm 0]
          [IntImm 1; IntImm 1] [IntImm 0; IntImm 0; IntImm 0; IntImm 0]
          [IntImm 1; IntImm 1] [IntImm 3; IntImm 3] [IntImm 0; IntImm 0] 4 1
          1 64 4 1 1 64 (IntImm 64) (IntImm 64) "NCHW" "OIHW" EmptyString
          "NCHW" "OIHW" EmptyString
          [[IntImm 1; IntImm 1]; [IntImm 1; IntImm 1]]
          [[IntImm 0; IntImm 0; IntImm 0; IntImm 0]; [IntImm 0; IntImm 0; IntImm 0; IntImm 0]]
          [[IntImm 1; IntImm 1]; [IntImm 1; IntImm 1]]
          [[IntImm 3; IntImm 3]; [IntImm 1; IntImm 1]]
          [[IntImm 1; IntImm 1]; [IntImm 1; IntImm 1]]
          [[IntImm 0; IntImm 0; IntImm 0; IntImm 0]; [IntImm 0; IntImm 0; IntImm 0; IntImm 0]]
          [[IntImm 1; IntImm 1]; [IntImm 1; IntImm 1]]
          [[IntImm 3; IntImm 3]; [IntImm 1; IntImm 1]] [32; 1] [32; 1]
          [IntImm 32; IntImm 64] [IntImm 32; IntImm 64] ["relu"; "relu"]
          ["NCHW"; "NCHW"] ["OIHW"; "OIHW"] ["NCHW"; "NCHW"]
          ["relu"; "relu"] ["NCHW"; "NCHW"] ["OIHW"; "OIHW"]
          ["NCHW"; "NCHW"] (Float 32) (Float 32) "nn.conv2d" "conv2d"))) as [_ H];
      [ reflexivity | reflexivity | ].
    repeat match type of H with _ /\ _ => destruct H as [_ H] end.
    exact H.
  - eexists; split; reflexivity.
  - edestruct (proj1 (proj2 (
        (@builders_are_injective zeroed_ConvAttrs zeroed_ConvAttrs
          zeroed_FusedConv2DAttrs zeroed_FusedConv2DAttrs
          zeroed_ConvWinogradAttrs zeroed_ConvWinogradAttrs
          zeroed_ConvTransposeAttrs zeroed_ConvTransposeAttrs
          zeroed_DeformableConvAttrs zeroed_DeformableConvAttrs
          sample_registry alias_registry (Var "data") (Var "weight")
          (Var "offset") (Var "weight1") (Var "bias1") (Var "weight2")
          (Var "bias2") (Var "data") (Var "weight") (Var "offset")
          (Var "weight1") (Var "bias1") (Var "weight2") (Var "bias2")
          [IntImm 1; IntImm 1] [IntImm 0; IntImm 0; IntImm 0; IntImm 0]
          [IntImm 1; IntImm 1] [IntImm 3; IntImm 3] [IntImm 0; IntImm 0]
          [IntImm 1; IntImm 1] [IntImm 0; IntImm 0; IntImm 0; IntImm 0]
          [IntImm 1; IntImm 1] [IntImm 3; IntImm 3] [IntImm 0; IntImm 0] 4 1
          1 64 4 1 1 64 (IntImm 64) (IntImm 64) "NCHW" "OIHW" EmptyString
          "NCHW" "OIHW" EmptyString
          [[IntImm 1; IntImm 1]; [IntImm 1; IntImm 1]]
          [[IntImm 0; IntImm 0; IntImm 0; IntImm 0]; [IntImm 0; IntImm 0; IntImm 0; IntImm 0]]
          [[IntImm 1; IntImm 1]; [IntImm 1; IntImm 1]]
          [[IntImm 3; IntImm 3]; [IntImm 1; IntImm 1]]
          [[IntImm 1; IntImm 1]; [IntImm 1; IntImm 1]]
          [[IntImm 0; IntImm 0; IntImm 0; IntImm 0]; [IntImm 0; IntImm 0; IntImm 0; IntImm 0]]
          [[IntImm 1; IntImm 1]; [IntImm 1; IntImm 1]]
          [[IntImm 3; IntImm 3]; [IntImm 1; IntImm 1]] [32; 1] [32; 1]
          [IntImm 32; IntImm 64] [IntImm 32; IntImm 64] ["relu"; "relu"]
          ["NCHW"; "NCHW"] ["OIHW"; "OIHW"] ["NCHW"; "NCHW"]
          ["relu"; "relu"] ["NCHW"; "NCHW"] ["OIHW"; "OIHW"]
          ["NCHW"; "NCHW"] (Float 32) (Float 32)
          "nn.contrib_conv2d_winograd_without_weight_transform"
          "conv2d_winograd")))) as [_ H];
      [ reflexivity | reflexivity | ].
    repeat match type of H with _ /\ _ => destruct H as [_ H] end.
    exact H.
  - eexists; split; reflexivity.
  - edestruct (proj1 (proj2 (proj2 (
        (@builders_are_injective zeroed_ConvAttrs zeroed_ConvAttrs
          zeroed_FusedConv2DAttrs zeroed_FusedConv2DAttrs
          zeroed_ConvWinogradAttrs zeroed_ConvWinogradAttrs
          zeroed_ConvTransposeAttrs zeroed_ConvTransposeAttrs
          zeroed_DeformableConvAttrs zeroed_DeformableConvAttrs
          sample_registry alias_registry (Var "data") (Var "weight")
          (Var "offset") (Var "weight1") (Var "bias1") (Var "weight2")
          (Var "bias2") (Var "data") (Var "weight") (Var "offset")
          (Var "weight1") (Var "bias1") (Var "weight2") (Var "bias2")
          [IntImm 1; IntImm 1] [IntImm 0; IntImm 0; IntImm 0; IntImm 0]
          [IntImm 1; IntImm 1] [IntImm 3; IntImm 3] [IntImm 0; IntImm 0]
          [IntImm 1; IntImm 1] [IntImm 0; IntImm 0; IntImm 0; IntImm 0]
          [IntImm 1; IntImm 1] [IntImm 3; IntImm 3] [IntImm 0; IntImm 0] 4 1
          1 64 4 1 1 64 (IntImm 64) (IntImm 64) "NCHW" "OIHW" EmptyString
          "NCHW" "OIHW" EmptyString
          [[IntImm 1; IntImm 1]; [IntImm 1; IntImm 1]]
          [[IntImm 0; IntImm 0; IntImm 0; IntImm 0]; [IntImm 0; IntImm 0; IntImm 0; IntImm 0]]
          [[IntImm 1; IntImm 1]; [IntImm 1; IntImm 1]]
          [[IntImm 3; IntImm 3]; [IntImm 1; IntImm 1]]
          [[IntImm 1; IntImm 1]; [IntImm 1; IntImm 1]]
          [[IntImm 0; IntImm 0; IntImm 0; IntImm 0]; [IntImm 0; IntImm 0; IntImm 0; IntImm 0]]
          [[IntImm 1; IntImm 1]; [IntImm 1; IntImm 1]]
          [[IntImm 3; IntImm 3]; [IntImm 1; IntImm 1]] [32; 1] [32; 1]
          [IntImm 32; IntImm 64] [IntImm 32; IntImm 64] ["relu"; "relu"]
          ["NCHW"; "NCHW"] ["OIHW"; "OIHW"] ["NCHW"; "NCHW"]
          ["relu"; "relu"] ["NCHW"; "NCHW"] ["OIHW"; "OIHW"]
          ["NCHW"; "NCHW"] (Float 32) (Float 32)
          "nn.contrib_conv2d_gemm_without_weight_transform" "conv2d_gemm"))))) as [_ H];
      [ reflexivity | reflexivity | ].
    repeat match type of H with _ /\ _ => destruct H as [_ H] end.
    exact H.
  - eexists; split; reflexivity.
  - edestruct (proj1 (proj2 (proj2 (proj2 (
        (@builders_are_injective zeroed_ConvAttrs zeroed_ConvAttrs
          zeroed_FusedConv2DAttrs zeroed_FusedConv2DAttrs
          zeroed_ConvWinogradAttrs zeroed_ConvWinogradAttrs
          zeroed_ConvTransposeAttrs zeroed_ConvTransposeAttrs
          zeroed_DeformableConvAttrs zeroed_DeformableConvAttrs
          sample_registry alias_registry (Var "data") (Var "weight")
          (Var "offset") (Var "weight1") (Var "bias1") (Var "weight2")
          (Var "bias2") (Var "data") (Var "weight") (Var "offset")
          (Var "weight1") (Var "bias1") (Var "weight2") (Var "bias2")
          [IntImm 1; IntImm 1] [IntImm 0; IntImm 0; IntImm 0; IntImm 0]
          [IntImm 1; IntImm 1] [IntImm 3; IntImm 3] [IntImm 0; IntImm 0]
          [IntImm 1; IntImm 1] [IntImm 0; IntImm 0; IntImm 0; IntImm 0]
          [IntImm 1; IntImm 1] [IntImm 3; IntImm 3] [IntImm 0; IntImm 0] 4 1
          1 64 4 1 1 64 (IntImm 64) (IntImm 64) "NCHW" "OIHW" EmptyString
          "NCHW" "OIHW" EmptyString
          [[IntImm 1; IntImm 1]; [IntImm 1; IntImm 1]]
          [[IntImm 0; IntImm 0; IntImm 0; IntImm 0]; [IntImm 0; IntImm 0; IntImm 0; IntImm 0]]
          [[IntImm 1; IntImm 1]; [IntImm 1; IntImm 1]]
          [[IntImm 3; IntImm 3]; [IntImm 1; IntImm 1]]
          [[IntImm 1; IntImm 1]; [IntImm 1; IntImm 1]]
          [[IntImm 0; IntImm 0; IntImm 0; IntImm 0]; [IntImm 0; IntImm 0; IntImm 0; IntImm 0]]
          [[IntImm 1; IntImm 1]; [IntImm 1; IntImm 1]]
          [[IntImm 3; IntImm 3]; [IntImm 1; IntImm 1]] [32; 1] [32; 1]
          [IntImm 32; IntImm 64] [IntImm 32; IntImm 64] ["relu"; "relu"]
          ["NCHW"; "NCHW"] ["OIHW"; "OIHW"] ["NCHW"; "NCHW"]
          ["relu"; "relu"] ["NCHW"; "NCHW"] ["OIHW"; "OIHW"]
          ["NCHW"; "NCHW"] (Float 32) (Float 32) "nn.conv2d_transpose"
          "conv2d_transpose")))))) as [_ H];
      [ reflexivity | reflexivity | ].
    repeat match type of H with _ /\ _ => destruct H as [_ H] end.
    exact H.
  - eexists; split; reflexivity.
  - edestruct (proj1 (proj2 (proj2 (proj2 (proj2 (
        (@builders_are_injective zeroed_ConvAttrs zeroed_ConvAttrs
          zeroed_FusedConv2DAttrs zeroed_FusedConv2DAttrs
          zeroed_ConvWinogradAttrs zeroed_ConvWinogradAttrs
          zeroed_ConvTransposeAttrs zeroed_ConvTransposeAttrs
          zeroed_DeformableConvAttrs zeroed_DeformableConvAttrs
          sample_registry alias_registry (Var "data") (Var "weight")
          (Var "offset") (Var "weight1") (Var "bias1") (Var "weight2")
          (Var "bias2") (Var "data") (Var "weight") (Var "offset")
          (Var "weight1") (Var "bias1") (Var "weight2") (Var "bias2")
          [IntImm 1; IntImm 1] [IntImm 0; IntImm 0; IntImm 0; IntImm 0]
          [IntImm 1; IntImm 1] [IntImm 3; IntImm 3] [IntImm 0; IntImm 0]
          [IntImm 1; IntImm 1] [IntImm 0; IntImm 0; IntImm 0; IntImm 0]
          [IntImm 1; IntImm 1] [IntImm 3; IntImm 3] [IntImm 0; IntImm 0] 4 1
          1 64 4 1 1 64 (IntImm 64) (IntImm 64) "NCHW" "OIHW" EmptyString
          "NCHW" "OIHW" EmptyString
          [[IntImm 1; IntImm 1]; [IntImm 1; IntImm 1]]
          [[IntImm 0; IntImm 0; IntImm 0; IntImm 0]; [IntImm 0; IntImm 0; IntImm 0; IntImm 0]]
          [[IntImm 1; IntImm 1]; [IntImm 1; IntImm 1]]
          [[IntImm 3; IntImm 3]; [IntImm 1; IntImm 1]]
          [[IntImm 1; IntImm 1]; [IntImm 1; IntImm 1]]
          [[IntImm 0; IntImm 0; IntImm 0; IntImm 0]; [IntImm 0; IntImm 0; IntImm 0; IntImm 0]]
          [[IntImm 1; IntImm 1]; [IntImm 1; IntImm 1]]
          [[IntImm 3; IntImm 3]; [IntImm 1; IntImm 1]] [32; 1] [32; 1]
          [IntImm 32; IntImm 64] [IntImm 32; IntImm 64] ["relu"; "relu"]
          ["NCHW"; "NCHW"] ["OIHW"; "OIHW"] ["NCHW"; "NCHW"]
          ["relu"; "relu"] ["NCHW"; "NCHW"] ["OIHW"; "OIHW"]
          ["NCHW"; "NCHW"] (Float 32) (Float 32) "nn.deformable_conv2d"
          "deformable_conv2d"))))))) as [_ H];
      [ reflexivity | reflexivity | ].
    repeat match type of H with _ /\ _ => destruct H as [_ H] end.
    exact H.
  - eexists; split; reflexivity.
  - edestruct (proj2 (proj2 (proj2 (proj2 (proj2 (
        (@builders_are_injective zeroed_ConvAttrs zeroed_ConvAttrs
          zeroed_FusedConv2DAttrs zeroed_FusedConv2DAttrs
          zeroed_ConvWinogradAttrs zeroed_ConvWinogradAttrs
          zeroed_ConvTransposeAttrs zeroed_ConvTransposeAttrs
          zeroed_DeformableConvAttrs zeroed_DeformableConvAttrs
          sample_registry alias_registry (Var "data") (Var "weight")
          (Var "offset") (Var "weight1") (Var "bias1") (Var "weight2")
          (Var "bias2") (Var "data") (Var "weight") (Var "offset")
          (Var "weight1") (Var "bias1") (Var "weight2") (Var "bias2")
          [IntImm 1; IntImm 1] [IntImm 0; IntImm 0; IntImm 0; IntImm 0]
          [IntImm 1; IntImm 1] [IntImm 3; IntImm 3] [IntImm 0; IntImm 0]
          [IntImm 1; IntImm 1] [IntImm 0; IntImm 0; IntImm 0; IntImm 0]
          [IntImm 1; IntImm 1] [IntImm 3; IntImm 3] [IntImm 0; IntImm 0] 4 1
          1 64 4 1 1 64 (IntImm 64) (IntImm 64) "NCHW" "OIHW" EmptyString
          "NCHW" "OIHW" EmptyString
          [[IntImm 1; IntImm 1]; [IntImm 1; IntImm 1]]
          [[IntImm 0; IntImm 0; IntImm 0; IntImm 0]; [IntImm 0; IntImm 0; IntImm 0; IntImm 0]]
          [[IntImm 1; IntImm 1]; [IntImm 1; IntImm 1]]
          [[IntImm 3; IntImm 3]; [IntImm 1; IntImm 1]]
          [[IntImm 1; IntImm 1]; [IntImm 1; IntImm 1]]
          [[IntImm 0; IntImm 0; IntImm 0; IntImm 0]; [IntImm 0; IntImm 0; IntImm 0; IntImm 0]]
          [[IntImm 1; IntImm 1]; [IntImm 1; IntImm 1]]
          [[IntImm 3; IntImm 3]; [IntImm 1; IntImm 1]] [32; 1] [32; 1]
          [IntImm 32; IntImm 64] [IntImm 32; IntImm 64] ["relu"; "relu"]
          ["NCHW"; "NCHW"] ["OIHW"; "OIHW"] ["NCHW"; "NCHW"]
          ["relu"; "relu"] ["NCHW"; "NCHW"] ["OIHW"; "OIHW"]
          ["NCHW"; "NCHW"] (Float 32) (Float 32) "nn.fused_conv2d"
          "fused_conv2d"))))))) as [_ H];
      [ reflexivity | reflexivity | ].
    repeat match type of H with _ /\ _ => destruct H as [_ H] end.
    exact H.
Defined.

(** The winograd and the plain builder, once on an unregistered name and
    once on a registered one. *)
Lemma winograd_builder_follows_plain_witness :
  (result
     (MakeConvWinograd (Var "data") (Var "weight") 4 [IntImm 1; IntImm 1]
       [IntImm 0; IntImm 0; IntImm 0; IntImm 0] [IntImm 1; IntImm 1] 1
       (IntImm 64) [IntImm 3; IntImm 3] "NCHW" "OIHW" EmptyString (Float 32)
       "nn.conv9d" sample_registry) =
   Throw (UnknownOperator "nn.conv9d") /\
   result
     (MakeConv (Var "data") (Var "weight") [IntImm 1; IntImm 1]
       [IntImm 0; IntImm 0; IntImm 0; IntImm 0] [IntImm 1; IntImm 1] 1
       (IntImm 64) [IntImm 3; IntImm 3] "NCHW" "OIHW" EmptyString (Float 32)
       "nn.conv9d" sample_registry) =
   Throw (UnknownOperator "nn.conv9d")) /\
  (exists wino : Expr,
     result
       (MakeConvWinograd (Var "data") (Var "weight") 4 [IntImm 1; IntImm 1]
         [IntImm 0; IntImm 0; IntImm 0; IntImm 0] [IntImm 1; IntImm 1] 1
         (IntImm 64) [IntImm 3; IntImm 3] "NCHW" "OIHW" EmptyString
         (Float 32) "nn.contrib_conv2d_winograd_without_weight_transform"
         sample_registry) = Ok wino /\
     exists (plain : Expr) (pn wn : CallNode Expr),
       result
         (MakeConv (Var "data") (Var "weight") [IntImm 1; IntImm 1]
           [IntImm 0; IntImm 0; IntImm 0; IntImm 0] [IntImm 1; IntImm 1] 1
           (IntImm 64) [IntImm 3; IntImm 3] "NCHW" "OIHW" EmptyString
           (Float 32) "nn.contrib_conv2d_winograd_without_weight_transform"
           sample_registry) = Ok plain /\
       as_CallNode plain = Some pn /\ as_CallNode wino = Some wn /\
       op wn = op pn /\ args wn = args pn /\ type_args wn = type_args pn).
Proof.
  split.
  - assert (Hthrow :
      result
        (MakeConvWinograd (Var "data") (Var "weight") 4 [IntImm 1; IntImm 1]
          [IntImm 0; IntImm 0; IntImm 0; IntImm 0] [IntImm 1; IntImm 1] 1
          (IntImm 64) [IntImm 3; IntImm 3] "NCHW" "OIHW" EmptyString
          (Float 32) "nn.conv9d" sample_registry) =
      Throw (UnknownOperator "nn.conv9d")) by reflexivity.
    split; [ exact Hthrow | ].
    apply (proj1 (proj1
        (@winograd_builder_follows_plain zeroed_ConvAttrs
          zeroed_ConvWinogradAttrs sample_registry (Var "data")
          (Var "weight") [IntImm 1; IntImm 1]
          [IntImm 0; IntImm 0; IntImm 0; IntImm 0] [IntImm 1; IntImm 1]
          [IntImm 3; IntImm 3] 4 1 (IntImm 64) "NCHW" "OIHW" EmptyString
          (Float 32) "nn.conv9d")
      (UnknownOperator "nn.conv9d"))).
    exact Hthrow.
  - eexists; split; [ reflexivity | ].
    apply (proj1 (proj2
        (@winograd_builder_follows_plain zeroed_ConvAttrs
          zeroed_ConvWinogradAttrs sample_registry (Var "data")
          (Var "weight") [IntImm 1; IntImm 1]
          [IntImm 0; IntImm 0; IntImm 0; IntImm 0] [IntImm 1; IntImm 1]
          [IntImm 3; IntImm 3] 4 1 (IntImm 64) "NCHW" "OIHW" EmptyString
          (Float 32) "nn.contrib_conv2d_winograd_without_weight_transform"))).
    reflexivity.
Defined.

(** The deformable and the plain builder, once on an unregistered name
    and once on a registered one. *)
Lemma deformable_builder_follows_plain_witness :
  (result
     (MakeDeformableConv (Var "data") (Var "offset") (Var "weight")
       [IntImm 1; IntImm 1] [IntImm 0; IntImm 0; IntImm 0; IntImm 0]
       [IntImm 1; IntImm 1] 1 1 64 [IntImm 3; IntImm 3] "NCHW" "OIHW"
       EmptyString (Float 32) "nn.conv9d" sample_registry) =
   Throw (UnknownOperator "nn.conv9d") /\
   result
     (MakeConv (Var "data") (Var "weight") [IntImm 1; IntImm 1]
       [IntImm 0; IntImm 0; IntImm 0; IntImm 0] [IntImm 1; IntImm 1] 1
       (IntImm 64) [IntImm 3; IntImm 3] "NCHW" "OIHW" EmptyString (Float 32)
       "nn.conv9d" sample_registry) =
   Throw (UnknownOperator "nn.conv9d")) /\
  (exists deform : Expr,
     result
       (MakeDeformableConv (Var "data") (Var "offset") (Var "weight")
         [IntImm 1; IntImm 1] [IntImm 0; IntImm 0; IntImm 0; IntImm 0]
         [IntImm 1; IntImm 1] 1 1 64 [IntImm 3; IntImm 3] "NCHW" "OIHW"
         EmptyString (Float 32) "nn.deformable_conv2d" sample_registry) = Ok deform /\
     exists (plain : Expr) (pn dn : CallNode Expr)
            (a : ConvAttrs.t) (t : DeformableConvAttrs.t),
       result
         (MakeConv (Var "data") (Var "weight") [IntImm 1; IntImm 1]
           [IntImm 0; IntImm 0; IntImm 0; IntImm 0] [IntImm 1; IntImm 1] 1
           (IntImm 64) [IntImm 3; IntImm 3] "NCHW" "OIHW" EmptyString
           (Float 32) "nn.deformable_conv2d" sample_registry) = Ok plain /\
       as_CallNode plain = Some pn /\ as_CallNode deform = Some dn /\
       op dn = op pn /\ type_args dn = type_args pn /\
       args pn = [Var "data"; Var "weight"] /\
       args dn = [Var "data"; Var "offset"; Var "weight"] /\
       delete 1%nat (args dn) = args pn /\
       attrs pn = AttrsConv a /\ attrs dn = AttrsDeformableConv t /\
       DeformableConvAttrs.strides t = ConvAttrs.strides a /\
       DeformableConvAttrs.padding t = ConvAttrs.padding a /\
       DeformableConvAttrs.dilation t = ConvAttrs.dilation a /\
       DeformableConvAttrs.groups t = ConvAttrs.groups a /\
       DeformableConvAttrs.kernel_size t = ConvAttrs.kernel_size a /\
       DeformableConvAttrs.data_layout t = ConvAttrs.data_layout a /\
       DeformableConvAttrs.kernel_layout t = ConvAttrs.kernel_layout a /\
       DeformableConvAttrs.out_layout t = ConvAttrs.out_layout a /\
       DeformableConvAttrs.out_dtype t = ConvAttrs.out_dtype a /\
       DeformableConvAttrs.deformable_groups t = 1 /\
       DeformableConvAttrs.channels t = 64).
Proof.
  split.
  - assert (Hthrow :
      result
        (MakeDeformableConv (Var "data") (Var "offset") (Var "weight")
          [IntImm 1; IntImm 1] [IntImm 0; IntImm 0; IntImm 0; IntImm 0]
          [IntImm 1; IntImm 1] 1 1 64 [IntImm 3; IntImm 3] "NCHW" "OIHW"
          EmptyString (Float 32) "nn.conv9d" sample_registry) =
      Throw (UnknownOperator "nn.conv9d")) by reflexivity.
    split; [ exact Hthrow | ].
    apply (proj1 (proj1
        (@deformable_builder_follows_plain zeroed_ConvAttrs
          zeroed_DeformableConvAttrs sample_registry (Var "data")
          (Var "weight") (Var "offset") [IntImm 1; IntImm 1]
          [IntImm 0; IntImm 0; IntImm 0; IntImm 0] [IntImm 1; IntImm 1]
          [IntImm 3; IntImm 3] 1 1 64 (IntImm 64) "NCHW" "OIHW" EmptyString
          (Float 32) "nn.conv9d")
      (UnknownOperator "nn.conv9d"))).
    exact Hthrow.
  - eexists; split; [ reflexivity | ].
    apply (proj1 (proj2
        (@deformable_builder_follows_plain zeroed_ConvAttrs
          zeroed_DeformableConvAttrs sample_registry (Var "data")
          (Var "weight") (Var "offset") [IntImm 1; IntImm 1]
          [IntImm 0; IntImm 0; IntImm 0; IntImm 0] [IntImm 1; IntImm 1]
          [IntImm 3; IntImm 3] 1 1 64 (IntImm 64) "NCHW" "OIHW" EmptyString
          (Float 32) "nn.deformable_conv2d"))).
    reflexivity.
Defined.

